(** * Shipping Data API (app.py): query construction and value normalisers

    A shallow embedding of the parts of [src/app.py] that build SQL text,
    normalise text-encoded dates and numbers, shape pagination blocks and
    maintain the scheduled-reports table. *)

From Stdlib Require Import String Ascii List ZArith Lia Bool Setoid Morphisms Sorting Permutation.
Import ListNotations.
Open Scope string_scope.
Open Scope Z_scope.

(** ** Python string helpers *)

(** [str.lower()] on ASCII text. *)
Definition ascii_lower (c : ascii) : ascii :=
  let n := nat_of_ascii c in
  if (Nat.leb 65 n && Nat.leb n 90)%bool then ascii_of_nat (n + 32) else c.

Fixpoint py_lower (s : string) : string :=
  match s with
  | EmptyString => EmptyString
  | String c r => String (ascii_lower c) (py_lower r)
  end.

(** Truthiness of an optional request argument: [None] and [''] are falsy. *)
Definition truthy (o : option string) : bool :=
  match o with
  | None => false
  | Some EmptyString => false
  | Some _ => true
  end.

Definition is_digit (c : ascii) : bool :=
  let n := nat_of_ascii c in (Nat.leb 48 n && Nat.leb n 57)%bool.

Definition digit (n : Z) : ascii := ascii_of_nat (48 + Z.to_nat n).

(** [k]-digit zero-padded decimal rendering, as strftime's [%Y] (k = 4),
    [%m] and [%d] (k = 2) produce it. *)
Fixpoint zpad (k : nat) (n : Z) : string :=
  match k with
  | O => EmptyString
  | S k' => zpad k' (n / 10) ++ String (digit (n mod 10)) EmptyString
  end.

(** Value of a decimal digit string (used to compare YYYYMMDD strings). *)
Fixpoint dec_value_acc (acc : Z) (s : string) : Z :=
  match s with
  | EmptyString => acc
  | String c r => dec_value_acc (acc * 10 + (Z.of_nat (nat_of_ascii c) - 48)) r
  end.

Definition dec_value (s : string) : Z := dec_value_acc 0 s.

Fixpoint all_digits (s : string) : bool :=
  match s with
  | EmptyString => true
  | String c r => is_digit c && all_digits r
  end.

(** ** Python [datetime] *)

(** A naive [datetime]; the time of day is kept as seconds since midnight
    (microseconds play no role in any formatting done by the code). *)
Record datetime := mkdt {
  dt_year : Z; dt_month : Z; dt_day : Z; dt_sec : Z
}.

Definition is_leap (y : Z) : bool :=
  ((y mod 4 =? 0) && negb (y mod 100 =? 0)) || (y mod 400 =? 0).

Definition days_in_month (y m : Z) : Z :=
  if m =? 2 then (if is_leap y then 29 else 28)
  else if (m =? 4) || (m =? 6) || (m =? 9) || (m =? 11) then 30
  else 31.

(** A date [datetime] accepts: [MINYEAR = 1], [MAXYEAR = 9999]. *)
Definition valid_dt (x : datetime) : Prop :=
  1 <= dt_year x <= 9999 /\ 1 <= dt_month x <= 12 /\
  1 <= dt_day x <= days_in_month (dt_year x) (dt_month x).

(** One calendar day back / forward; [None] is the [OverflowError]
    raised when the result leaves years 1..9999. *)
Definition prev_day (x : datetime) : option datetime :=
  let '(mkdt y m d s) := x in
  if 1 <? d then Some (mkdt y m (d - 1) s)
  else if 1 <? m then Some (mkdt y (m - 1) (days_in_month y (m - 1)) s)
  else if 1 <? y then Some (mkdt (y - 1) 12 31 s)
  else None.

Definition next_day (x : datetime) : option datetime :=
  let '(mkdt y m d s) := x in
  if d <? days_in_month y m then Some (mkdt y m (d + 1) s)
  else if m <? 12 then Some (mkdt y (m + 1) 1 s)
  else if y <? 9999 then Some (mkdt (y + 1) 1 1 s)
  else None.

(** [x - timedelta(days=n)] and [x + timedelta(days=n)]. *)
Fixpoint sub_days (n : nat) (x : datetime) : option datetime :=
  match n with
  | O => Some x
  | S n' => match prev_day x with
            | Some y => sub_days n' y
            | None => None
            end
  end.

Fixpoint add_days (n : nat) (x : datetime) : option datetime :=
  match n with
  | O => Some x
  | S n' => match next_day x with
            | Some y => add_days n' y
            | None => None
            end
  end.

(** [.replace(hour=0, minute=0, second=0, microsecond=0)] *)
Definition midnight (x : datetime) : datetime :=
  mkdt (dt_year x) (dt_month x) (dt_day x) 0.

(** [.strftime('%Y%m%d')] *)
Definition strftime_ymd (x : datetime) : string :=
  zpad 4 (dt_year x) ++ zpad 2 (dt_month x) ++ zpad 2 (dt_day x).

(** ** [parse_date_filter] (app.py, lines 151-184)

    [now] is [datetime.now()]; [dparse] is [dateutil.parser.parse], [None]
    when it raises.  Every exception is caught by the bare [except] and
    turned into [(None, None)], written [None] here. *)
Section DateFilter.

Variable now : datetime.
Variable dparse : string -> option datetime.

(** The [if/elif] chain computing [start_date, end_date]; [None] stands for
    the [total] early return and for every exception raised on the way. *)
Definition date_filter_range (ds : string) : option (datetime * datetime) :=
  if String.eqb (py_lower ds) "today" then Some (midnight now, now)
  else if String.eqb (py_lower ds) "week" then
    match sub_days 7 now with Some st => Some (st, now) | None => None end
  else if String.eqb (py_lower ds) "month" then
    match sub_days 30 now with Some st => Some (st, now) | None => None end
  else if String.eqb (py_lower ds) "year" then
    match sub_days 365 now with Some st => Some (st, now) | None => None end
  else if String.eqb (py_lower ds) "total" then None
  else
    match dparse ds with
    | Some parsed =>
        let st := midnight parsed in
        match add_days 1 st with Some en => Some (st, en) | None => None end
    | None => None
    end.

Definition parse_date_filter (date_str : option string) : option (string * string) :=
  match date_str with
  | None | Some EmptyString => None
  | Some ds =>
    match date_filter_range ds with
    | Some (st, en) => Some (strftime_ymd st, strftime_ymd en)
    | None => None
    end
  end.

End DateFilter.

(** A model of [dateutil.parser.parse] on ISO [YYYY-MM-DD] strings, used to
    run the code on concrete literal dates. *)
Definition digit_val (c : ascii) : Z := Z.of_nat (nat_of_ascii c) - 48.

Definition iso_parse (s : string) : option datetime :=
  match s with
  | String y1 (String y2 (String y3 (String y4 (String "-"%char
      (String m1 (String m2 (String "-"%char (String d1 (String d2 EmptyString))))))))) =>
    if forallb is_digit [y1; y2; y3; y4; m1; m2; d1; d2] then
      let x := mkdt (digit_val y1 * 1000 + digit_val y2 * 100 + digit_val y3 * 10 + digit_val y4)
                    (digit_val m1 * 10 + digit_val m2) (digit_val d1 * 10 + digit_val d2) 0 in
      if (1 <=? dt_year x) && (dt_year x <=? 9999) && (1 <=? dt_month x) && (dt_month x <=? 12) &&
         (1 <=? dt_day x) && (dt_day x <=? days_in_month (dt_year x) (dt_month x))
      then Some x else None
    else None
  | _ => None
  end.

Definition now0 : datetime := mkdt 2026 10 15 43200.

(** ** [get_weight_parsing_sql] / [get_cod_parsing_sql] (app.py, lines 213-253)

    Both return the same SQL expression, over [shipment_weight] and over
    [cod]:
<<
    CASE WHEN col IS NULL OR col = '' THEN NULL
         ELSE CAST(REGEXP_REPLACE(REGEXP_REPLACE(REGEXP_REPLACE(TRIM(col),
                '[^0-9.]', '', 'g'), '^[.]', '0.', 'g'), '[.]$', '', 'g') AS NUMERIC)
    END
>>
    It is embedded as a function of the column value (SQL NULL is [None]). *)

(** Outcome of evaluating the expression on one row: SQL NULL, a NUMERIC
    [m * 10^-scale], or the error raised by the CAST (which aborts the
    whole statement). *)
Inductive numeric_result :=
| NNull
| NNum (m : Z) (scale : nat)
| NError.

Definition space : ascii := " "%char.
Definition point : ascii := "."%char.

Fixpoint trim_left (s : string) : string :=
  match s with
  | String c r => if Ascii.eqb c space then trim_left r else s
  | EmptyString => EmptyString
  end.

Fixpoint str_rev (s : string) : string :=
  match s with
  | EmptyString => EmptyString
  | String c r => str_rev r ++ String c EmptyString
  end.

(** [TRIM(col)]: strips spaces at both ends. *)
Definition pg_trim (s : string) : string := str_rev (trim_left (str_rev (trim_left s))).

(** [REGEXP_REPLACE(s, '[^0-9.]', '', 'g')] *)
Fixpoint keep_digits_points (s : string) : string :=
  match s with
  | EmptyString => EmptyString
  | String c r =>
      if is_digit c || Ascii.eqb c point then String c (keep_digits_points r)
      else keep_digits_points r
  end.

(** [REGEXP_REPLACE(s, '^[.]', '0.', 'g')]: the anchored pattern matches at
    most once, at the start. *)
Definition repair_leading_point (s : string) : string :=
  match s with
  | String c r => if Ascii.eqb c point then String "0"%char (String point r) else s
  | EmptyString => EmptyString
  end.

(** [REGEXP_REPLACE(s, '[.]$', '', 'g')]: at most one match, at the end. *)
Definition strip_trailing_point (s : string) : string :=
  match str_rev s with
  | String c r => if Ascii.eqb c point then str_rev r else s
  | EmptyString => EmptyString
  end.

(** Split at the first point. *)
Fixpoint split_point (s : string) : string * option string :=
  match s with
  | EmptyString => (EmptyString, None)
  | String c r =>
      if Ascii.eqb c point then (EmptyString, Some r)
      else let '(a, b) := split_point r in (String c a, b)
  end.

(** [CAST(s AS NUMERIC)] on the strings that reach it (digits and points
    only): PostgreSQL accepts [digits], [digits.], [.digits] and
    [digits.digits] with at least one digit, and rejects anything else
    (in particular the empty string and a second point) with
    "invalid input syntax for type numeric". *)
Definition pg_cast_numeric (s : string) : numeric_result :=
  let '(ip, fp) := split_point s in
  let frac := match fp with Some f => f | None => EmptyString end in
  if all_digits ip && all_digits frac &&
     negb (Nat.eqb (String.length ip + String.length frac) 0)
  then NNum (dec_value (ip ++ frac)) (String.length frac)
  else NError.

Definition numeric_parsing_sql (col : option string) : numeric_result :=
  match col with
  | None | Some EmptyString => NNull
  | Some v =>
      pg_cast_numeric
        (strip_trailing_point (repair_leading_point (keep_digits_points (pg_trim v))))
  end.

Definition get_weight_parsing_sql (shipment_weight : option string) : numeric_result :=
  numeric_parsing_sql shipment_weight.

Definition get_cod_parsing_sql (cod : option string) : numeric_result :=
  numeric_parsing_sql cod.

(** ** Pagination block (get_all_shipments, filter_shipments,
    search_shipments, advanced_search)

    All listing endpoints compute, after both statements have run,
<<
    total_pages = (total_count + limit - 1) // limit
    has_next = page < total_pages
    has_prev = page > 1
>>
    [//] is floor division ([Z.div]); with [limit = 0] it raises
    [ZeroDivisionError] (HTTP 500).  Before that, PostgreSQL rejects the data
    statement when [LIMIT] or [OFFSET = (page - 1) * limit] is negative
    ("LIMIT/OFFSET must not be negative", HTTP 500).  [None] is the error
    response; [Some] the pagination block of a 200 response. *)
Record pagination := mkpagination {
  pg_page : Z; pg_limit : Z; pg_total : Z;
  pg_total_pages : Z; pg_has_next : bool; pg_has_prev : bool
}.

Definition pagination_info (page limit total_count : Z) : option pagination :=
  if limit =? 0 then None
  else
    let total_pages := (total_count + limit - 1) / limit in
    Some (mkpagination page limit total_count total_pages
            (page <? total_pages) (1 <? page)).

Definition listing_pagination (page limit total_count : Z) : option pagination :=
  let offset := (page - 1) * limit in
  if (limit <? 0) || (offset <? 0) then None
  else pagination_info page limit total_count.

(** ** Scheduled reports (app.py, lines 2238-2353) *)

(** A row of [scheduled_reports]; [schedule_time] is a nullable TIME
    column ([None] for NULL). *)
Record scheduled_report := mksched {
  sr_id : Z;
  sr_report_id : Z;
  sr_schedule_name : string;
  sr_schedule_type : string;
  sr_schedule_time : option string;
  sr_schedule_days : string;
  sr_email_recipients : string;
  sr_email_subject : string;
  sr_email_body : string;
  sr_user_id : string;
  sr_is_active : bool;
  sr_next_run_at : option Z;
  sr_created_at : Z;
  sr_updated_at : Z
}.

Record custom_report := mkreport {
  cr_id : Z; cr_title : string; cr_description : string
}.

(** [SET is_active = false, updated_at = CURRENT_TIMESTAMP] on one row. *)
Definition deactivate (ts : Z) (r : scheduled_report) : scheduled_report :=
  mksched (sr_id r) (sr_report_id r) (sr_schedule_name r) (sr_schedule_type r)
    (sr_schedule_time r) (sr_schedule_days r) (sr_email_recipients r)
    (sr_email_subject r) (sr_email_body r) (sr_user_id r) false
    (sr_next_run_at r) (sr_created_at r) ts.

(** [delete_scheduled_report]:
    [UPDATE scheduled_reports SET is_active = false,
     updated_at = CURRENT_TIMESTAMP WHERE id = %s]; [ts] is
    [CURRENT_TIMESTAMP]. *)
Definition delete_scheduled_report (ts schedule_id : Z)
  (tbl : list scheduled_report) : list scheduled_report :=
  map (fun r => if sr_id r =? schedule_id then deactivate ts r else r) tbl.

(** [ORDER BY sr.next_run_at ASC, sr.created_at DESC]; NULL sorts last in
    ascending order. *)
Definition sched_le (a b : scheduled_report) : bool :=
  match sr_next_run_at a, sr_next_run_at b with
  | Some x, Some y => (x <? y) || ((x =? y) && (sr_created_at b <=? sr_created_at a))
  | Some _, None => true
  | None, Some _ => false
  | None, None => sr_created_at b <=? sr_created_at a
  end.

Fixpoint insert_by {A} (le : A -> A -> bool) (x : A) (l : list A) : list A :=
  match l with
  | [] => [x]
  | y :: r => if le x y then x :: l else y :: insert_by le x r
  end.

Fixpoint sort_by {A} (le : A -> A -> bool) (l : list A) : list A :=
  match l with
  | [] => []
  | x :: r => insert_by le x (sort_by le r)
  end.

(** The rows of the query of [get_scheduled_reports]:
<<
    SELECT sr.*, cr.title as report_title, cr.description as report_description
    FROM scheduled_reports sr JOIN custom_reports cr ON sr.report_id = cr.id
    WHERE sr.is_active = true
    ORDER BY sr.next_run_at ASC, sr.created_at DESC
>> *)
Definition scheduled_reports_rows (tbl : list scheduled_report) (reports : list custom_report)
  : list (scheduled_report * string * string) :=
  map (fun '(r, c) => (r, cr_title c, cr_description c))
    (sort_by (fun a b => sched_le (fst a) (fst b))
       (filter (fun '(r, c) => (sr_report_id r =? cr_id c) && sr_is_active r)
          (list_prod tbl reports))).

(** [get_scheduled_reports] (app.py, lines 2238-2265): the rows, or [None]
    for the 500 answer.  [jsonify] serialises the date and datetime values
    of a row but not a [datetime.time]: a row whose TIME column
    [schedule_time] is not NULL makes it raise [TypeError], which the outer
    [except] turns into HTTP 500.  (The table is assumed to exist; the
    handler's fallback for a missing table is not modelled.) *)
Definition get_scheduled_reports (tbl : list scheduled_report) (reports : list custom_report)
  : option (list (scheduled_report * string * string)) :=
  let reports := scheduled_reports_rows tbl reports in
  if existsb (fun '(r, _, _) => match sr_schedule_time r with Some _ => true | None => false end)
       reports
  then None
  else Some reports.

(** ** [get_date_filter_sql] (app.py, lines 186-207) *)

(** The SQL text, character for character. *)
Definition get_date_filter_sql : string :=
"CASE 
        WHEN shipment_creation_date LIKE '__-___-__' THEN
            '20' || substring(shipment_creation_date, 8, 2) || 
            CASE substring(shipment_creation_date, 4, 3)
                WHEN 'Jan' THEN '01'
                WHEN 'Feb' THEN '02'
                WHEN 'Mar' THEN '03'
                WHEN 'Apr' THEN '04'
                WHEN 'May' THEN '05'
                WHEN 'Jun' THEN '06'
                WHEN 'Jul' THEN '07'
                WHEN 'Aug' THEN '08'
                WHEN 'Sep' THEN '09'
                WHEN 'Oct' THEN '10'
                WHEN 'Nov' THEN '11'
                WHEN 'Dec' THEN '12'
            END ||
            substring(shipment_creation_date, 1, 2)
        ELSE shipment_creation_date
    END".

(** Its value on one row ([shipment_creation_date] is [None] for NULL).
    [LIKE '__-___-__'] holds of the 9-character strings with ['-'] in
    positions 3 and 7; [substring(s, i, n)] is 1-based; the inner [CASE]
    has no [ELSE] and yields NULL on any other middle part, and [||] with
    NULL is NULL. *)
Definition like_dd_mon_yy (s : string) : bool :=
  Nat.eqb (String.length s) 9 &&
  match String.get 2 s, String.get 6 s with
  | Some c1, Some c2 => Ascii.eqb c1 "-"%char && Ascii.eqb c2 "-"%char
  | _, _ => false
  end.

Definition month_code (mon : string) : option string :=
  if String.eqb mon "Jan" then Some "01" else if String.eqb mon "Feb" then Some "02"
  else if String.eqb mon "Mar" then Some "03" else if String.eqb mon "Apr" then Some "04"
  else if String.eqb mon "May" then Some "05" else if String.eqb mon "Jun" then Some "06"
  else if String.eqb mon "Jul" then Some "07" else if String.eqb mon "Aug" then Some "08"
  else if String.eqb mon "Sep" then Some "09" else if String.eqb mon "Oct" then Some "10"
  else if String.eqb mon "Nov" then Some "11" else if String.eqb mon "Dec" then Some "12"
  else None.

Definition sql_substring (s : string) (from len : nat) : string :=
  String.substring (from - 1) len s.

Definition legacy_date_value (shipment_creation_date : option string) : option string :=
  match shipment_creation_date with
  | None => None
  | Some x =>
      if like_dd_mon_yy x then
        match month_code (sql_substring x 4 3) with
        | Some mm => Some ("20" ++ sql_substring x 8 2 ++ mm ++ sql_substring x 1 2)
        | None => None
        end
      else Some x
  end.

(** ** Statement builders of the listing endpoints *)

(** A bound parameter of [db.execute_query(query, params)]. *)
Inductive param :=
| PStr (s : string)
| PInt (z : Z)
| PFloat (literal : string).

(** What a request handler produces: an error response, or the count and
    data statements with their parameter lists, as handed to
    [db.execute_query]. *)
Inductive endpoint_result :=
| Http400 (msg : string)
| Http500 (msg : string)
| Stmts (count_sql : string) (count_params : list param)
        (data_sql : string) (data_params : list param).

(** [DatabaseManager.execute_query] first rewrites [?] into [%s]. *)
Fixpoint convert_sqlite_to_postgresql (q : string) : string :=
  match q with
  | EmptyString => EmptyString
  | String c r =>
      if Ascii.eqb c "?"%char then "%s" ++ convert_sqlite_to_postgresql r
      else String c (convert_sqlite_to_postgresql r)
  end.

(** [normalize_iso_to_yyyymmdd]: [date_str.replace('-', '')]. *)
Fixpoint remove_dashes (s : string) : string :=
  match s with
  | EmptyString => EmptyString
  | String c r => if Ascii.eqb c "-"%char then remove_dashes r else String c (remove_dashes r)
  end.

Definition normalize_iso_to_yyyymmdd (date_str : option string) : option string :=
  match date_str with
  | None | Some EmptyString => None
  | Some d => Some (remove_dashes d)
  end.

(** [x and x != 'total'] on an optional argument. *)
Definition named_filter (date_filter : option string) : bool :=
  truthy date_filter &&
  negb (match date_filter with Some d => String.eqb d "total" | None => false end).

Definition truthy_opt (o : option string) : bool := truthy o.

Section Listing.

Variable now : datetime.
Variable dparse : string -> option datetime.

(** [get_all_shipments] (app.py, lines 530-585), from the parsed [page] and
    [limit] on. *)
Definition get_all_shipments (page limit : Z)
  (date_filter start_date_param end_date_param : option string) : endpoint_result :=
  let offset := (page - 1) * limit in
  let base_query := "SELECT * FROM shipments" in
  let count_query := "SELECT COUNT(*) as total FROM shipments" in
  let '(where_clause, params) :=
    if named_filter date_filter then
      match parse_date_filter now dparse date_filter with
      | Some (start_date, end_date) =>
          let date_sql := get_date_filter_sql in
          (" WHERE " ++ date_sql ++ " >= %s AND " ++ date_sql ++ " <= %s",
           [PStr start_date; PStr end_date])
      | None => ("", [])
      end
    else ("", []) in
  let '(where_clause, params) :=
    if truthy start_date_param && truthy end_date_param then
      let start_date_norm := normalize_iso_to_yyyymmdd start_date_param in
      let end_date_norm := normalize_iso_to_yyyymmdd end_date_param in
      if truthy_opt start_date_norm && truthy_opt end_date_norm then
        (" WHERE shipment_creation_date >= %s AND shipment_creation_date <= %s",
         [PStr (match start_date_norm with Some v => v | None => "" end);
          PStr (match end_date_norm with Some v => v | None => "" end)])
      else (where_clause, params)
    else (where_clause, params) in
  let query := base_query ++ where_clause ++ " ORDER BY id DESC LIMIT %s OFFSET %s" in
  Stmts (count_query ++ where_clause) params query ((params ++ [PInt limit; PInt offset])%list).

(** [filter_shipments] (app.py, lines 587-650): [column] goes into the
    statement text, [value] into the parameters. *)
Definition filter_shipments (page limit : Z)
  (column value date_filter : option string) : endpoint_result :=
  match column, value with
  | Some col, Some val =>
    if negb (truthy column) || negb (truthy value) then
      Http400 "column and value parameters are required"
    else
      let offset := (page - 1) * limit in
      let where_clause := " WHERE " ++ col ++ " LIKE ?" in
      let params := [PStr ("%" ++ val ++ "%")] in
      let '(where_clause, params) :=
        if named_filter date_filter then
          match parse_date_filter now dparse date_filter with
          | Some (start_date, end_date) =>
              let date_sql := get_date_filter_sql in
              (where_clause ++ " AND " ++ date_sql ++ " >= ? AND " ++ date_sql ++ " <= ?",
               (params ++ [PStr start_date; PStr end_date])%list)
          | None => (where_clause, params)
          end
        else (where_clause, params) in
      let count_query := "SELECT COUNT(*) as total FROM shipments" ++ where_clause in
      let date_sql := get_date_filter_sql in
      let query := "SELECT * FROM shipments" ++ where_clause ++ " ORDER BY " ++ date_sql
                   ++ " DESC LIMIT ? OFFSET ?" in
      Stmts count_query params query ((params ++ [PInt limit; PInt offset])%list)
  | _, _ => Http400 "column and value parameters are required"
  end.

(** [str.strip()] on ASCII whitespace. *)
Definition py_space (c : ascii) : bool :=
  existsb (Ascii.eqb c) [" "%char; "009"%char; "010"%char; "011"%char; "012"%char; "013"%char].

Fixpoint lstrip (s : string) : string :=
  match s with
  | String c r => if py_space c then lstrip r else s
  | EmptyString => EmptyString
  end.

Definition py_strip (s : string) : string := str_rev (lstrip (str_rev (lstrip s))).

Definition nl : string := String "010"%char EmptyString.

(** [search_shipments] (app.py, lines 652-712). *)
Definition search_shipments (page limit : Z) (query_arg date_filter : option string)
  : endpoint_result :=
  let query := py_strip (match query_arg with Some q => q | None => "" end) in
  if String.eqb query "" then Http400 "query parameter is required"
  else
    let offset := (page - 1) * limit in
    let range := if named_filter date_filter then parse_date_filter now dparse date_filter
                 else None in
    let where_parts := ["search_text @@ websearch_to_tsquery('simple', %s)"] in
    let params := [PStr query] in
    let '(where_parts, params) :=
      match range with
      | Some (start_date, end_date) =>
          let date_sql := get_date_filter_sql in
          (app where_parts [date_sql ++ " >= %s AND " ++ date_sql ++ " <= %s"],
           (params ++ [PStr start_date; PStr end_date])%list)
      | None => (where_parts, params)
      end in
    let where_clause := "WHERE " ++ String.concat " AND " where_parts in
    let count_sql := "SELECT COUNT(*) AS total FROM shipments " ++ where_clause in
    let data_sql := nl ++ "            SELECT * FROM shipments" ++ nl ++ "            "
                    ++ where_clause ++ nl ++ "            ORDER BY " ++ get_date_filter_sql
                    ++ " DESC" ++ nl ++ "            LIMIT %s OFFSET %s" ++ nl ++ "        " in
    Stmts count_sql params data_sql ((params ++ [PInt limit; PInt offset])%list).

End Listing.


(** ** [advanced_search] (app.py, lines 1197-1415) *)

(** The SQL text returned by [get_weight_parsing_sql()] and
    [get_cod_parsing_sql()], character for character (their value on a row
    is [get_weight_parsing_sql] / [get_cod_parsing_sql] above). *)
Definition weight_parsing_sql_text : string :=
"
    CASE 
        WHEN shipment_weight IS NULL OR shipment_weight = '' THEN NULL
        ELSE 
            CAST(
                REGEXP_REPLACE(
                    REGEXP_REPLACE(
                        REGEXP_REPLACE(
                            TRIM(shipment_weight), 
                            '[^0-9.]', '', 'g'
                        ),
                        '^[.]', '0.', 'g'
                    ),
                    '[.]$', '', 'g'
                ) AS NUMERIC
            )
    END
    ".

Definition cod_parsing_sql_text : string :=
"
    CASE 
        WHEN cod IS NULL OR cod = '' THEN NULL
        ELSE 
            CAST(
                REGEXP_REPLACE(
                    REGEXP_REPLACE(
                        REGEXP_REPLACE(
                            TRIM(cod), 
                            '[^0-9.]', '', 'g'
                        ),
                        '^[.]', '0.', 'g'
                    ),
                    '[.]$', '', 'g'
                ) AS NUMERIC
            )
    END
    ".

(** Python's [int(s)] in base 10: surrounding whitespace, an optional sign,
    digits with single underscores between them; [None] is the
    [ValueError]. *)
Fixpoint digitpart_rest (s : string) : bool :=
  match s with
  | EmptyString => true
  | String c r =>
      if is_digit c then digitpart_rest r
      else if Ascii.eqb c "_"%char then
        match r with
        | String d r' => is_digit d && digitpart_rest r'
        | EmptyString => false
        end
      else false
  end.

Definition digitpart (s : string) : bool :=
  match s with
  | String c r => is_digit c && digitpart_rest r
  | EmptyString => false
  end.

Fixpoint remove_underscores (s : string) : string :=
  match s with
  | EmptyString => EmptyString
  | String c r => if Ascii.eqb c "_"%char then remove_underscores r else String c (remove_underscores r)
  end.

Definition split_sign (t : string) : Z * string :=
  match t with
  | String c r =>
      if Ascii.eqb c "+"%char then (1, r)
      else if Ascii.eqb c "-"%char then (-1, r)
      else (1, t)
  | EmptyString => (1, t)
  end.

Definition py_int (s : string) : option Z :=
  let '(sign, body) := split_sign (py_strip s) in
  if digitpart body then Some (sign * dec_value (remove_underscores body)) else None.

(** Python's [float(s)]: whitespace, sign, then [inf], [infinity], [nan]
    (any case) or a decimal literal [digits[.digits]], [digits.], [.digits]
    with an optional exponent; [Some] carries the accepted literal. *)
Fixpoint split_at_exp (s : string) : string * option string :=
  match s with
  | EmptyString => (EmptyString, None)
  | String c r =>
      if Ascii.eqb c "e"%char || Ascii.eqb c "E"%char then (EmptyString, Some r)
      else let '(a, b) := split_at_exp r in (String c a, b)
  end.

Definition float_mantissa (m : string) : bool :=
  match split_point m with
  | (ip, None) => digitpart ip
  | (EmptyString, Some fp) => digitpart fp
  | (ip, Some EmptyString) => digitpart ip
  | (ip, Some fp) => digitpart ip && digitpart fp
  end.

Definition py_float (s : string) : option string :=
  let t := py_strip s in
  let '(_, body) := split_sign t in
  if existsb (String.eqb (py_lower body)) ["inf"; "infinity"; "nan"] then Some t
  else
    let '(m, e) := split_at_exp body in
    let exp_ok := match e with
                  | None => true
                  | Some x => digitpart (snd (split_sign x))
                  end in
    if float_mantissa m && exp_ok then Some t else None.

Record adv_args := mkadv {
  a_id : option string; a_shipment_number : option string;
  a_reference_number : option string; a_country_code : option string;
  a_number_of_boxes : option string; a_description : option string;
  a_pdf_filename : option string;
  a_creation_date_from : option string; a_creation_date_to : option string;
  a_processing_date_from : option string; a_processing_date_to : option string;
  a_min_weight : option string; a_max_weight : option string; a_cod : option string;
  a_shipper_name : option string; a_shipper_city : option string;
  a_shipper_phone : option string; a_shipper_address : option string;
  a_consignee_name : option string; a_consignee_city : option string;
  a_consignee_phone : option string; a_consignee_address : option string
}.

(** [(where_conditions, params)], threaded through the [if] blocks; an
    exception ([inl] with its message) ends the handler with HTTP 500. *)
Definition adv_acc : Type := (list string * list param)%type.

Definition adv_bind (r : string + adv_acc) (f : adv_acc -> string + adv_acc) : string + adv_acc :=
  match r with inl e => inl e | inr a => f a end.

Notation "x <-- e ;; f" := (adv_bind e (fun x => f)) (at level 61, e at next level, right associativity).

Definition add_cond (cond : string) (ps : list param) (acc : adv_acc) : adv_acc :=
  (app (fst acc) [cond], app (snd acc) ps).

Definition arg_val (o : option string) : string := match o with Some v => v | None => "" end.

(** [if field: where_conditions.append("<col> LIKE %s"); params.append(f'%{field}%')] *)
Definition like_filter (col : string) (field : option string) (acc : adv_acc) : string + adv_acc :=
  if truthy field then inr (add_cond (col ++ " LIKE %s") [PStr ("%" ++ arg_val field ++ "%")] acc)
  else inr acc.

(** [if field: ...append("<col> = %s"); params.append(int(field))] *)
Definition int_filter (col : string) (field : option string) (acc : adv_acc) : string + adv_acc :=
  if truthy field then
    match py_int (arg_val field) with
    | Some n => inr (add_cond (col ++ " = %s") [PInt n] acc)
    | None => inl ("invalid literal for int() with base 10: '" ++ arg_val field ++ "'")
    end
  else inr acc.

Definition plain_filter (cond : string) (field : option string) (acc : adv_acc) : string + adv_acc :=
  if truthy field then inr (add_cond cond [PStr (arg_val field)] acc) else inr acc.

(** [try: float(field) ... except ValueError: pass] *)
Definition weight_filter (op : string) (field : option string) (acc : adv_acc) : string + adv_acc :=
  if truthy field then
    match py_float (arg_val field) with
    | Some f => inr (add_cond (weight_parsing_sql_text ++ op) [PFloat f] acc)
    | None => inr acc
    end
  else inr acc.

Definition cod_filter (cod : option string) (acc : adv_acc) : string + adv_acc :=
  if truthy cod then
    if String.eqb (py_lower (arg_val cod)) "yes" then
      inr (add_cond (cod_parsing_sql_text ++ " > 0") [] acc)
    else if String.eqb (py_lower (arg_val cod)) "no" then
      inr (add_cond ("(" ++ cod_parsing_sql_text ++ " = 0 OR " ++ cod_parsing_sql_text ++ " IS NULL)") [] acc)
    else inr acc
  else inr acc.

Definition advanced_search_where (a : adv_args) : string + adv_acc :=
  acc <-- int_filter "id" (a_id a) ([], []) ;;
  acc <-- like_filter "number_shipment" (a_shipment_number a) acc ;;
  acc <-- like_filter "shipment_reference_number" (a_reference_number a) acc ;;
  acc <-- plain_filter "country_code = %s" (a_country_code a) acc ;;
  acc <-- int_filter "number_of_shipment_boxes" (a_number_of_boxes a) acc ;;
  acc <-- like_filter "shipment_description" (a_description a) acc ;;
  acc <-- like_filter "pdf_filename" (a_pdf_filename a) acc ;;
  acc <-- plain_filter (get_date_filter_sql ++ " >= %s") (a_creation_date_from a) acc ;;
  acc <-- plain_filter (get_date_filter_sql ++ " <= %s") (a_creation_date_to a) acc ;;
  acc <-- plain_filter "processing_date >= %s" (a_processing_date_from a) acc ;;
  acc <-- plain_filter "processing_date <= %s" (a_processing_date_to a) acc ;;
  acc <-- weight_filter " >= %s" (a_min_weight a) acc ;;
  acc <-- weight_filter " <= %s" (a_max_weight a) acc ;;
  acc <-- cod_filter (a_cod a) acc ;;
  acc <-- like_filter "shipper_name" (a_shipper_name a) acc ;;
  acc <-- like_filter "shipper_city" (a_shipper_city a) acc ;;
  acc <-- like_filter "shipper_phone" (a_shipper_phone a) acc ;;
  acc <-- like_filter "shipper_address" (a_shipper_address a) acc ;;
  acc <-- like_filter "consignee_name" (a_consignee_name a) acc ;;
  acc <-- like_filter "consignee_city" (a_consignee_city a) acc ;;
  acc <-- like_filter "consignee_phone" (a_consignee_phone a) acc ;;
  like_filter "consignee_address" (a_consignee_address a) acc.

Definition advanced_search (page limit : Z) (a : adv_args) : endpoint_result :=
  let offset := (page - 1) * limit in
  match advanced_search_where a with
  | inl msg => Http500 msg
  | inr (where_conditions, params) =>
      let where_clause :=
        match where_conditions with
        | [] => ""
        | _ => " WHERE " ++ String.concat " AND " where_conditions
        end in
      let count_query := "SELECT COUNT(*) as total FROM shipments" ++ where_clause in
      let date_sql := get_date_filter_sql in
      let query := "SELECT * FROM shipments" ++ where_clause ++ " ORDER BY " ++ date_sql
                   ++ " DESC LIMIT %s OFFSET %s" in
      Stmts count_query params query (app params [PInt limit; PInt offset])
  end.

(** The request with its [min_weight] / [max_weight] argument replaced. *)
Definition adv_set_min_weight (a : adv_args) (v : option string) : adv_args :=
  {| a_id := a_id a; a_shipment_number := a_shipment_number a;
     a_reference_number := a_reference_number a; a_country_code := a_country_code a;
     a_number_of_boxes := a_number_of_boxes a; a_description := a_description a;
     a_pdf_filename := a_pdf_filename a;
     a_creation_date_from := a_creation_date_from a; a_creation_date_to := a_creation_date_to a;
     a_processing_date_from := a_processing_date_from a;
     a_processing_date_to := a_processing_date_to a;
     a_min_weight := v; a_max_weight := a_max_weight a; a_cod := a_cod a;
     a_shipper_name := a_shipper_name a; a_shipper_city := a_shipper_city a;
     a_shipper_phone := a_shipper_phone a; a_shipper_address := a_shipper_address a;
     a_consignee_name := a_consignee_name a; a_consignee_city := a_consignee_city a;
     a_consignee_phone := a_consignee_phone a; a_consignee_address := a_consignee_address a |}.

Definition adv_set_max_weight (a : adv_args) (v : option string) : adv_args :=
  {| a_id := a_id a; a_shipment_number := a_shipment_number a;
     a_reference_number := a_reference_number a; a_country_code := a_country_code a;
     a_number_of_boxes := a_number_of_boxes a; a_description := a_description a;
     a_pdf_filename := a_pdf_filename a;
     a_creation_date_from := a_creation_date_from a; a_creation_date_to := a_creation_date_to a;
     a_processing_date_from := a_processing_date_from a;
     a_processing_date_to := a_processing_date_to a;
     a_min_weight := a_min_weight a; a_max_weight := v; a_cod := a_cod a;
     a_shipper_name := a_shipper_name a; a_shipper_city := a_shipper_city a;
     a_shipper_phone := a_shipper_phone a; a_shipper_address := a_shipper_address a;
     a_consignee_name := a_consignee_name a; a_consignee_city := a_consignee_city a;
     a_consignee_phone := a_consignee_phone a; a_consignee_address := a_consignee_address a |}.

(** ** Aggregate endpoints: [get_top_customers] (app.py, lines 714-815),
    [get_average_weight] (916-1009), [get_top_cities] (1092-1195) *)

(** [f"{n}"] for an int. *)
Fixpoint nat_digits (fuel : nat) (n : Z) (acc : string) : string :=
  match fuel with
  | O => acc
  | S f =>
      let acc' := String (ascii_of_nat (48 + Z.to_nat (n mod 10))) acc in
      if n <? 10 then acc' else nat_digits f (n / 10) acc'
  end.

Definition str_of_Z (n : Z) : string :=
  if n <? 0 then "-" ++ nat_digits 64 (- n) "" else nat_digits 64 n "".

(** The [sample_size] chosen from the token (case-sensitive comparisons). *)
Definition sample_size_for (date_filter : string) : Z :=
  if String.eqb date_filter "today" then 24000
  else if String.eqb date_filter "week" then 168000
  else if String.eqb date_filter "month" then 720000
  else if String.eqb date_filter "year" then 8640000
  else 720000.

(** How the [sample_shipments] CTE picks its rows: [IdWindow n] is
    [WHERE id > (SELECT MAX(id) - n FROM shipments) AND preds];
    [RecentLimit n] is [WHERE preds ORDER BY id DESC LIMIT n]. *)
Inductive sample_window :=
| IdWindow (n : Z)
| RecentLimit (n : Z).

(** The statement run by an aggregate endpoint: its text, its parameters and
    the window its CTE selects. *)
Record agg_stmt := mkagg {
  aq_sql : string;
  aq_params : list param;
  aq_window : sample_window
}.

Section Aggregates.

Variable now : datetime.
Variable dparse : string -> option datetime.

(** The date predicates each aggregate endpoint builds ("Custom range takes
    priority") into [where_conditions] and [params]. *)
Definition aggregate_date_conditions (start_date_param end_date_param date_filter : option string)
  (where_conditions : list string) : list string * list param :=
  let date_sql := get_date_filter_sql in
  if truthy start_date_param && truthy end_date_param then
    let start_date_norm := normalize_iso_to_yyyymmdd start_date_param in
    let end_date_norm := normalize_iso_to_yyyymmdd end_date_param in
    if truthy_opt start_date_norm && truthy_opt end_date_norm then
      (app where_conditions [date_sql ++ " >= %s"; date_sql ++ " <= %s"],
       [PStr (match start_date_norm with Some v => v | None => "" end);
        PStr (match end_date_norm with Some v => v | None => "" end)])
    else (where_conditions, [])
  else if named_filter date_filter then
    match parse_date_filter now dparse date_filter with
    | Some (start_date, end_date) =>
        (app where_conditions [date_sql ++ " >= %s"; date_sql ++ " <= %s"],
         [PStr start_date; PStr end_date])
    | None => (where_conditions, [])
    end
  else (where_conditions, []).

Definition customers_sample_sql (sample_size : Z) : string :=
  "
            WITH sample_shipments AS (
                SELECT shipper_name, consignee_name, shipper_phone
                FROM shipments 
                WHERE id > (SELECT MAX(id) - "
  ++ str_of_Z sample_size
  ++ " FROM shipments)
                AND shipper_name IS NOT NULL 
                AND shipper_name != ''
                ORDER BY id DESC
            )
            SELECT 
                shipper_name,
                MIN(shipper_phone) as shipper_phone,
                COUNT(*) as shipment_count,
                COUNT(DISTINCT consignee_name) as unique_consignees
            FROM sample_shipments
            GROUP BY shipper_name 
            ORDER BY shipment_count DESC 
            LIMIT %s
            ".

Definition customers_total_sql : string :=
  "
            WITH sample_shipments AS (
                SELECT shipper_name, consignee_name, shipper_phone
                FROM shipments 
                WHERE shipper_name IS NOT NULL 
                AND shipper_name != ''
                ORDER BY id DESC
                LIMIT 100000
            )
            SELECT 
                shipper_name,
                MIN(shipper_phone) as shipper_phone,
                COUNT(*) as shipment_count,
                COUNT(DISTINCT consignee_name) as unique_consignees
            FROM sample_shipments
            GROUP BY shipper_name 
            ORDER BY shipment_count DESC 
            LIMIT %s
            ".

Definition get_top_customers (date_filter start_date_param end_date_param : option string)
  (limit : Z) : agg_stmt :=
  let where_conditions := ["shipper_name IS NOT NULL"; "shipper_name != ''"] in
  let '(where_conditions, params) :=
    aggregate_date_conditions start_date_param end_date_param date_filter where_conditions in
  if named_filter date_filter then
    let sample_size := sample_size_for (arg_val date_filter) in
    mkagg (customers_sample_sql sample_size) [PInt limit] (IdWindow sample_size)
  else mkagg customers_total_sql [PInt limit] (RecentLimit 100000).

Definition average_weight_sample_sql (sample_size : Z) : string :=
  "
            WITH sample_shipments AS (
                SELECT shipment_weight
                FROM shipments 
                WHERE id > (SELECT MAX(id) - "
  ++ str_of_Z sample_size
  ++ " FROM shipments)
                AND shipment_weight IS NOT NULL 
                AND shipment_weight != ''
                AND shipment_weight ~ '[0-9]'
                ORDER BY id DESC
            )
            SELECT 
                AVG("
  ++ weight_parsing_sql_text
  ++ ") as average_weight,
                COUNT(*) as total_shipments
            FROM sample_shipments
            ".

Definition average_weight_total_sql : string :=
  "
            WITH sample_shipments AS (
                SELECT shipment_weight
                FROM shipments 
                WHERE shipment_weight IS NOT NULL 
                AND shipment_weight != ''
                AND shipment_weight ~ '[0-9]'
                ORDER BY id DESC
                LIMIT 100000
            )
            SELECT 
                AVG("
  ++ weight_parsing_sql_text
  ++ ") as average_weight,
                COUNT(*) as total_shipments
            FROM sample_shipments
            ".

Definition get_average_weight (date_filter start_date_param end_date_param : option string)
  : agg_stmt :=
  let conditions := ["shipment_weight IS NOT NULL"; "shipment_weight != ''";
                     "shipment_weight ~ '[0-9]'"] in
  let '(conditions, params) :=
    aggregate_date_conditions start_date_param end_date_param date_filter conditions in
  if named_filter date_filter then
    let sample_size := sample_size_for (arg_val date_filter) in
    mkagg (average_weight_sample_sql sample_size) [] (IdWindow sample_size)
  else mkagg average_weight_total_sql [] (RecentLimit 100000).

Definition cities_sample_sql (sample_size : Z) : string :=
  "
            WITH sample_shipments AS (
                SELECT consignee_city
                FROM shipments 
                WHERE id > (SELECT MAX(id) - "
  ++ str_of_Z sample_size
  ++ " FROM shipments)
                AND consignee_city IS NOT NULL 
                AND consignee_city != ''
                AND consignee_city != 'NULL'
                ORDER BY id DESC
            )
            SELECT 
                consignee_city as city,
                COUNT(*) as shipment_count
            FROM sample_shipments
            GROUP BY consignee_city 
            ORDER BY shipment_count DESC 
            LIMIT %s
            ".

Definition cities_total_sql : string :=
  "
            WITH sample_shipments AS (
                SELECT consignee_city
                FROM shipments 
                WHERE consignee_city IS NOT NULL 
                AND consignee_city != ''
                AND consignee_city != 'NULL'
                ORDER BY id DESC
                LIMIT 100000
            )
            SELECT 
                consignee_city as city,
                COUNT(*) as shipment_count
            FROM sample_shipments
            GROUP BY consignee_city 
            ORDER BY shipment_count DESC 
            LIMIT %s
            ".

(** [request.args.get('date_filter', 'month')]. *)
Definition get_top_cities (date_filter_arg start_date_param end_date_param : option string)
  (limit : Z) : agg_stmt :=
  let date_filter := match date_filter_arg with Some d => Some d | None => Some "month" end in
  let where_conditions := ["consignee_city IS NOT NULL"; "consignee_city != ''";
                           "consignee_city != 'NULL'"] in
  let '(where_conditions, params) :=
    aggregate_date_conditions start_date_param end_date_param date_filter where_conditions in
  if named_filter date_filter then
    let sample_size := sample_size_for (arg_val date_filter) in
    mkagg (cities_sample_sql sample_size) [PInt limit] (IdWindow sample_size)
  else mkagg cities_total_sql [PInt limit] (RecentLimit 100000).

End Aggregates.

(** ** [build_sql_query_from_filters] (app.py, lines 403-454)

    [filters] is the JSON object of the custom-report request, as an
    association list in key order with string values; [None] in the loop
    stands for the [ValueError] of [float(value)], caught by the fallback. *)
Fixpoint assoc_get (k : string) (l : list (string * string)) : option string :=
  match l with
  | [] => None
  | (k', v) :: l' => if String.eqb k k' then Some v else assoc_get k l'
  end.

Definition filter_step (acc : option (list string * list param)) (kv : string * string)
  : option (list string * list param) :=
  match acc with
  | None => None
  | Some (where_conditions, params) =>
      let '(key, value) := kv in
      if negb (String.eqb key "date_filter") && negb (String.eqb value "") then
        if existsb (String.eqb key) ["shipper_name"; "shipper_city"; "consignee_name"; "consignee_city"] then
          Some (app where_conditions [key ++ " LIKE %s"], app params [PStr ("%" ++ value ++ "%")])
        else if String.eqb key "min_weight" then
          match py_float value with
          | Some f => Some (app where_conditions [weight_parsing_sql_text ++ " >= %s"], app params [PFloat f])
          | None => None
          end
        else if String.eqb key "max_weight" then
          match py_float value with
          | Some f => Some (app where_conditions [weight_parsing_sql_text ++ " <= %s"], app params [PFloat f])
          | None => None
          end
        else Some (where_conditions, params)
      else Some (where_conditions, params)
  end.

Section CustomReports.

Variable now : datetime.
Variable dparse : string -> option datetime.

Definition build_sql_query_from_filters (filters : list (string * string)) (columns : list string)
  : string :=
  let select_columns := match columns with [] => "*" | _ => String.concat ", " columns end in
  let query := "SELECT " ++ select_columns ++ " FROM shipments" in
  let date_filter := assoc_get "date_filter" filters in
  let start := if named_filter date_filter then
                 match parse_date_filter now dparse date_filter with
                 | Some (start_date, end_date) =>
                     let date_sql := get_date_filter_sql in
                     ([date_sql ++ " >= %s"; date_sql ++ " <= %s"], [PStr start_date; PStr end_date])
                 | None => ([], [])
                 end
               else ([], []) in
  match fold_left filter_step filters (Some start) with
  | None => "SELECT * FROM shipments ORDER BY id DESC LIMIT 1000"
  | Some (where_conditions, _) =>
      let query := match where_conditions with
                   | [] => query
                   | _ => query ++ " WHERE " ++ String.concat " AND " where_conditions
                   end in
      query ++ " ORDER BY id DESC LIMIT 1000"
  end.

End CustomReports.

(** ** Statement texts and request shapes *)





(** ** Rows examined by the aggregate statements *)

(** Rows of [shipments] as the aggregate CTEs see them ([None] is NULL). *)
Record shipment := mkship {
  s_id : Z;
  s_shipper_name : option string;
  s_consignee_city : option string;
  s_shipment_weight : option string
}.

Fixpoint str_existsb (f : ascii -> bool) (s : string) : bool :=
  match s with
  | EmptyString => false
  | String c r => f c || str_existsb f r
  end.

(** The CTEs' row predicates. *)
Definition top_customers_pred (r : shipment) : bool :=
  match s_shipper_name r with Some n => negb (String.eqb n "") | None => false end.

Definition top_cities_pred (r : shipment) : bool :=
  match s_consignee_city r with
  | Some c => negb (String.eqb c "") && negb (String.eqb c "NULL")
  | None => false
  end.

Definition average_weight_pred (r : shipment) : bool :=
  match s_shipment_weight r with
  | Some w => negb (String.eqb w "") && str_existsb is_digit w
  | None => false
  end.

(** [SELECT MAX(id) FROM shipments]. *)
Fixpoint max_id (t : list shipment) : option Z :=
  match t with
  | [] => None
  | r :: t' => match max_id t' with None => Some (s_id r) | Some m => Some (Z.max (s_id r) m) end
  end.

(** [ORDER BY id DESC]. *)
Fixpoint insert_id_desc (r : shipment) (l : list shipment) : list shipment :=
  match l with
  | [] => [r]
  | x :: l' => if s_id x <=? s_id r then r :: l else x :: insert_id_desc r l'
  end.

Fixpoint sort_id_desc (l : list shipment) : list shipment :=
  match l with
  | [] => []
  | x :: l' => insert_id_desc x (sort_id_desc l')
  end.

(** The rows of the [sample_shipments] CTE, over which the grouping and
    aggregation run. *)
Definition sample_shipments (pred : shipment -> bool) (w : sample_window) (t : list shipment)
  : list shipment :=
  match w with
  | IdWindow n =>
      match max_id t with
      | None => []
      | Some m => sort_id_desc (filter (fun r => (m - n <? s_id r) && pred r) t)
      end
  | RecentLimit n => firstn (Z.to_nat n) (sort_id_desc (filter pred t))
  end.

(** The sample window per [date_filter] token as a table: no token, an
    empty one or ['total'] take the 100,000 highest-id matching rows; the
    four named buckets and any other token take the rows within N of the
    maximum id. *)
Definition bucket_window (date_filter : option string) : sample_window :=
  match date_filter with
  | None => RecentLimit 100000
  | Some d =>
      if String.eqb d "" || String.eqb d "total" then RecentLimit 100000
      else if String.eqb d "today" then IdWindow 24000
      else if String.eqb d "week" then IdWindow 168000
      else if String.eqb d "month" then IdWindow 720000
      else if String.eqb d "year" then IdWindow 8640000
      else IdWindow 720000
  end.

(** A small [shipments] table. *)
Definition sample_table : list shipment :=
  [mkship 7 (Some "ACME") (Some "Riyadh") (Some "2.5 Kg");
   mkship 9 (Some "") (Some "NULL") (Some "Kg");
   mkship 8 None (Some "Jeddah") None].

(** ** [convert_date_to_comparable] (app.py, lines 124-149) *)

(** [None] for a missing or empty argument, for a length other than 9 and
    for an unknown month; slices [[:2]], [[3:6]], [[7:9]]. *)
Definition convert_date_to_comparable (date_str : option string) : option string :=
  match date_str with
  | None => None
  | Some s =>
      if String.eqb s "" || negb (Nat.eqb (String.length s) 9) then None
      else
        let day := String.substring 0 2 s in
        let month_str := String.substring 3 3 s in
        let year := String.substring 7 2 s in
        match month_code month_str with
        | None => None
        | Some month =>
            let full_year := "20" ++ year in
            Some (full_year ++ month ++ day)
        end
  end.

(** ** Parameter binding in [DatabaseManager.execute_query] (app.py, lines 42-67) *)

(** How psycopg2 reads a statement executed with a parameter list: [%s]
    takes the next parameter, [%%] stands for one percent sign, any other
    [%] (including a final one) raises; [Some n] counts the [%s]. *)
Fixpoint pyformat_count (q : string) : option nat :=
  match q with
  | EmptyString => Some O
  | String c r =>
      if Ascii.eqb c "%"%char then
        match r with
        | String d r' =>
            if Ascii.eqb d "s"%char then option_map S (pyformat_count r')
            else if Ascii.eqb d "%"%char then pyformat_count r'
            else None
        | EmptyString => None
        end
      else pyformat_count r
  end.

(** [execute_query(query, params)]: the text is converted; with a non-empty
    [params] psycopg2 substitutes them, which succeeds exactly when the
    converted text has one [%s] per parameter and no other [%] directive;
    with an empty list the text is sent as it is. *)
Definition execute_query_binds (query : string) (params : list param) : bool :=
  match params with
  | [] => true
  | _ :: _ =>
      match pyformat_count (convert_sqlite_to_postgresql query) with
      | Some n => Nat.eqb n (length params)
      | None => false
      end
  end.

(** ** Single-statement endpoints *)

(** The response of a handler that runs one [db.execute_query]: an error,
    or the statement text and its parameters. *)
Inductive query_result :=
| QHttp400 (msg : string)
| QHttp500 (msg : string)
| Run (sql : string) (params : list param).

(** [int(request.args.get(name, default))]; [inl] carries the [ValueError]
    message that the handler returns with HTTP 500. *)
Definition int_arg (arg : option string) (default : Z) : string + Z :=
  match arg with
  | None => inr default
  | Some s =>
      match py_int s with
      | Some n => inr n
      | None => inl ("invalid literal for int() with base 10: '" ++ s ++ "'")
      end
  end.

(** [float(request.args.get(name, 0))]: the default is the int [0]. *)
Definition float_arg0 (arg : option string) : string + string :=
  match arg with
  | None => inr "0"
  | Some s =>
      match py_float s with
      | Some f => inr f
      | None => inl ("could not convert string to float: '" ++ s ++ "'")
      end
  end.

(** [get_recent_shipments] (app.py, lines 817-871). *)
Definition recent_window_sql (sample_size : Z) : string :=
  "
            SELECT * FROM shipments 
            WHERE id > (SELECT MAX(id) - "
  ++ str_of_Z sample_size
  ++ " FROM shipments)
            AND shipment_creation_date IS NOT NULL 
            AND shipment_creation_date != ''
            ORDER BY id DESC
            LIMIT %s
            ".

Definition recent_all_sql : string :=
  "
            SELECT * FROM shipments 
            WHERE shipment_creation_date IS NOT NULL 
            AND shipment_creation_date != ''
            ORDER BY id DESC
            LIMIT %s
            ".

Definition get_recent_shipments (limit_arg date_filter start_date_param end_date_param : option string)
  : query_result :=
  match int_arg limit_arg 20 with
  | inl msg => QHttp500 msg
  | inr limit =>
      if named_filter date_filter then
        let sample_size := sample_size_for (arg_val date_filter) in
        Run (recent_window_sql sample_size) [PInt limit]
      else Run recent_all_sql [PInt limit]
  end.

(** [get_total_shipments] (app.py, lines 1011-1090): the statements run, in
    order, each with the [LIMIT] of its [recent_sample] CTE ([None] for the
    count over the whole table); the last one gives [total]. *)
Definition total_all_sql : string := "SELECT COUNT(*) as total FROM shipments".

Definition total_sample_sql (sample_size : Z) : string :=
  "
            WITH recent_sample AS (
                SELECT shipment_creation_date
                FROM shipments 
                ORDER BY id DESC 
                LIMIT "
  ++ str_of_Z sample_size
  ++ "
            )
            SELECT COUNT(*) as total FROM recent_sample
            WHERE shipment_creation_date IS NOT NULL 
            AND shipment_creation_date != ''
            AND shipment_creation_date LIKE '__-___-__'
            ".

Definition total_custom_sql : string :=
  "
                    WITH recent_sample AS (
                        SELECT shipment_creation_date
                        FROM shipments 
                        ORDER BY id DESC 
                        LIMIT 1000000
                    )
                    SELECT COUNT(*) as total FROM recent_sample
                    WHERE shipment_creation_date IS NOT NULL 
                    AND shipment_creation_date != ''
                    AND shipment_creation_date LIKE '__-___-__'
                    ".

Definition get_total_shipments (date_filter_arg start_date_param end_date_param : option string)
  : list (string * option Z) :=
  let date_filter := match date_filter_arg with Some d => d | None => "month" end in
  if String.eqb date_filter "total" then [(total_all_sql, None)]
  else
    let sample_size := sample_size_for date_filter in
    let first := (total_sample_sql sample_size, Some sample_size) in
    if truthy start_date_param && truthy end_date_param then
      let start_date_norm := normalize_iso_to_yyyymmdd start_date_param in
      let end_date_norm := normalize_iso_to_yyyymmdd end_date_param in
      if truthy_opt start_date_norm && truthy_opt end_date_norm then
        [first; (total_custom_sql, Some 1000000)]
      else [first]
    else [first].

(** The value of those statements on a table of
    [(id, shipment_creation_date)] rows ([None] is NULL):
    [ORDER BY id DESC LIMIT n], then the three predicates. *)
Definition id_desc_le (a b : Z * option string) : bool := fst b <=? fst a.

Definition legacy_dated (d : option string) : bool :=
  match d with
  | Some s => negb (String.eqb s "") && like_dd_mon_yy s
  | None => false
  end.

Definition total_value (t : list (Z * option string)) (w : option Z) : nat :=
  match w with
  | None => length t
  | Some n => length (filter (fun r => legacy_dated (snd r))
                        (firstn (Z.to_nat n) (sort_by id_desc_le t)))
  end.

(** [total] as returned: the value of the last statement. *)
Definition reported_total (t : list (Z * option string)) (stmts : list (string * option Z)) : nat :=
  match rev stmts with
  | (_, w) :: _ => total_value t w
  | [] => 0
  end.

Section SingleStatement.

Variable now : datetime.
Variable dparse : string -> option datetime.

(** [get_shipments_by_city] (app.py, lines 873-914). *)
Definition by_city_sql (where_clause : string) : string :=
  "
        SELECT 
            consignee_city as city,
            COUNT(*) as shipment_count
        FROM shipments 
        "
  ++ where_clause
  ++ "
        GROUP BY consignee_city 
        ORDER BY shipment_count DESC 
        LIMIT ?
        ".

Definition get_shipments_by_city (date_filter_arg limit_arg : option string) : query_result :=
  let date_filter := match date_filter_arg with Some d => d | None => "month" end in
  match int_arg limit_arg 20 with
  | inl msg => QHttp500 msg
  | inr limit =>
      let '(where_clause, params) :=
        match parse_date_filter now dparse (Some date_filter) with
        | Some (start_date, end_date) =>
            let date_sql := get_date_filter_sql in
            (" WHERE " ++ date_sql ++ " >= ? AND " ++ date_sql ++ " <= ?",
             [PStr start_date; PStr end_date])
        | None => ("", [])
        end in
      Run (by_city_sql where_clause) (app params [PInt limit])
  end.

(** The date block shared by the three handlers below. *)
Definition listing_date_conditions (date_filter : option string)
  (where_conditions : list string) (params : list param) : list string * list param :=
  if named_filter date_filter then
    match parse_date_filter now dparse date_filter with
    | Some (start_date, end_date) =>
        let date_sql := get_date_filter_sql in
        (app where_conditions [date_sql ++ " >= ? AND " ++ date_sql ++ " <= ?"],
         app params [PStr start_date; PStr end_date])
    | None => (where_conditions, params)
    end
  else (where_conditions, params).

(** [get_shipments_by_weight] (app.py, lines 1417-1457). *)
Definition get_shipments_by_weight (min_weight_arg date_filter limit_arg : option string)
  : query_result :=
  match float_arg0 min_weight_arg with
  | inl msg => QHttp500 msg
  | inr min_weight =>
      match int_arg limit_arg 50 with
      | inl msg => QHttp500 msg
      | inr limit =>
          let weight_sql := weight_parsing_sql_text in
          let '(where_conditions, params) :=
            listing_date_conditions date_filter [weight_sql ++ " > ?"] [PFloat min_weight] in
          let where_clause := " WHERE " ++ String.concat " AND " where_conditions in
          let date_sql := get_date_filter_sql in
          Run ("SELECT * FROM shipments" ++ where_clause ++ " ORDER BY " ++ date_sql ++ " DESC LIMIT ?")
              (app params [PInt limit])
      end
  end.

(** [get_shipments_by_shipper] (app.py, lines 1459-1501) and
    [get_shipments_by_consignee] (lines 1503-1545) differ only in the
    argument name, which is also the column they filter on. *)
Definition shipments_by_name (name_key : string) (name date_filter limit_arg : option string)
  : query_result :=
  match int_arg limit_arg 50 with
  | inl msg => QHttp500 msg
  | inr limit =>
      if negb (truthy name) then QHttp400 (name_key ++ " parameter is required")
      else
        let '(where_conditions, params) :=
          listing_date_conditions date_filter [name_key ++ " LIKE ?"]
            [PStr ("%" ++ arg_val name ++ "%")] in
        let where_clause := " WHERE " ++ String.concat " AND " where_conditions in
        let date_sql := get_date_filter_sql in
        Run ("SELECT * FROM shipments" ++ where_clause ++ " ORDER BY " ++ date_sql ++ " DESC LIMIT ?")
            (app params [PInt limit])
  end.

Definition get_shipments_by_shipper := shipments_by_name "shipper_name".

Definition get_shipments_by_consignee := shipments_by_name "consignee_name".

(** The conditions and parameters [build_sql_query_from_filters] computes
    (app.py, lines 415-442) before it returns the text alone. *)
Definition custom_report_conditions (filters : list (string * string))
  : option (list string * list param) :=
  let date_filter := assoc_get "date_filter" filters in
  let start := if named_filter date_filter then
                 match parse_date_filter now dparse date_filter with
                 | Some (start_date, end_date) =>
                     let date_sql := get_date_filter_sql in
                     ([date_sql ++ " >= %s"; date_sql ++ " <= %s"], [PStr start_date; PStr end_date])
                 | None => ([], [])
                 end
               else ([], []) in
  fold_left filter_step filters (Some start).

(** [create_custom_report] / [update_custom_report] (app.py, lines
    1727-1731): the [sql_query] stored for a request body with the given
    [sql_query], [filters] and [columns] members ([None] when absent). *)
Definition stored_sql_query (sql_query : option string)
  (filters : option (list (string * string))) (columns : option (list string)) : string :=
  let q := match sql_query with Some s => s | None => "" end in
  if String.eqb q "" then
    match filters, columns with
    | Some f, Some c => build_sql_query_from_filters now dparse f c
    | _, _ => q
    end
  else q.

(** A row of [custom_reports] as [run_custom_report] reads it. *)
Record stored_report := mkstored {
  rp_id : Z;
  rp_sql_query : string;
  rp_filters : list (string * string);
  rp_columns : list string
}.

(** [run_custom_report] (app.py, lines 1823-1878): the statement executed
    and its parameters, or [None] for the 404 of an unknown id.  A stored
    text goes through [execute_raw_query(sql_query)]; otherwise the rebuilt
    text goes through [execute_query(sql_query)], without parameters. *)
Definition run_custom_report (reports : list stored_report) (report_id : Z)
  : option (string * list param) :=
  match find (fun r => rp_id r =? report_id) reports with
  | None => None
  | Some r =>
      if negb (String.eqb (rp_sql_query r) "") then Some (rp_sql_query r, [])
      else Some (convert_sqlite_to_postgresql
                   (build_sql_query_from_filters now dparse (rp_filters r) (rp_columns r)), [])
  end.

End SingleStatement.

(** Whether every statement a handler hands to [execute_query] binds its
    parameters (an error response runs none). *)
Definition endpoint_binds (r : endpoint_result) : bool :=
  match r with
  | Stmts cq cps dq dps => execute_query_binds cq cps && execute_query_binds dq dps
  | _ => true
  end.

Definition query_binds (r : query_result) : bool :=
  match r with
  | Run sql params => execute_query_binds sql params
  | _ => true
  end.

(** ** Arabic text helpers (app.py, lines 264-401)

    A Python [str] as the list of its code points; the helpers are
    modelled on [str] arguments. *)
Definition ustr : Type := list Z.

Definition u_of_string (s : string) : ustr :=
  map (fun c => Z.of_nat (nat_of_ascii c)) (list_ascii_of_string s).

(** [str.isspace()] on one code point. *)
Definition py_isspace_cp (c : Z) : bool :=
  ((9 <=? c) && (c <=? 13)) || ((28 <=? c) && (c <=? 32)) || (c =? 133) || (c =? 160)
  || (c =? 5760) || ((8192 <=? c) && (c <=? 8202)) || (c =? 8232) || (c =? 8233)
  || (c =? 8239) || (c =? 8287) || (c =? 12288).

Fixpoint ulstrip (s : ustr) : ustr :=
  match s with
  | c :: r => if py_isspace_cp c then ulstrip r else s
  | [] => []
  end.

(** [str.strip()]. *)
Definition ustrip (s : ustr) : ustr := rev (ulstrip (rev (ulstrip s))).

(** [text.replace(m, '')] for a one-code-point [m]. *)
Definition remove_cp (m : Z) (s : ustr) : ustr := filter (fun c => negb (c =? m)) s.

(** [process_arabic_text] (lines 264-292) on a [str]; the UTF-8 round trip
    returns the text unchanged or raises, which is caught. *)
Definition process_arabic_text (text : ustr) : ustr :=
  match text with
  | [] => []
  | _ :: _ =>
      let text := ustrip text in
      let text := remove_cp 8207 text in
      let text := remove_cp 8206 text in
      let text := remove_cp 8234 text in
      let text := remove_cp 8235 text in
      let text := remove_cp 8236 text in
      let text := remove_cp 8237 text in
      let text := remove_cp 8238 text in
      text
  end.

(** [is_arabic_text] (lines 294-313). *)
Definition arabic_ranges : list (Z * Z) :=
  [(1536, 1791); (1872, 1919); (2208, 2303); (64336, 65023); (65136, 65279)].

Definition is_arabic_text (text : ustr) : bool :=
  existsb (fun c => existsb (fun '(lo, hi) => (lo <=? c) && (c <=? hi)) arabic_ranges) text.

(** [transliterate_arabic_to_latin] (lines 334-401): the dictionary in
    source order (keys as code points). *)
Definition arabic_to_latin : list (ustr * string) :=
  [([1575], "a");
   ([1571], "a");
   ([1573], "i");
   ([1570], "aa");
   ([1569], "a");
   ([1576], "b");
   ([1578], "t");
   ([1579], "th");
   ([1580], "j");
   ([1581], "h");
   ([1582], "kh");
   ([1583], "d");
   ([1584], "dh");
   ([1585], "r");
   ([1586], "z");
   ([1587], "s");
   ([1588], "sh");
   ([1589], "s");
   ([1590], "d");
   ([1591], "t");
   ([1592], "z");
   ([1593], "a");
   ([1594], "gh");
   ([1601], "f");
   ([1602], "q");
   ([1603], "k");
   ([1604], "l");
   ([1605], "m");
   ([1606], "n");
   ([1607], "h");
   ([1608], "w");
   ([1610], "y");
   ([1609], "a");
   ([1577], "h");
   ([1614], "a");
   ([1615], "u");
   ([1616], "i");
   ([1611], "an");
   ([1612], "un");
   ([1613], "in");
   ([1618], "");
   ([1617], "");
   ([1648], "a");
   ([1575; 1604], "al-");
   ([1604; 1604], "lil-");
   ([1604; 1575], "la");
   ([1601; 1610], "fi");
   ([1605; 1606], "min");
   ([1573; 1604; 1609], "ila");
   ([1593; 1604; 1609], "ala");
   ([1605; 1593], "ma");
   ([1607; 1584; 1575], "hatha");
   ([1607; 1584; 1607], "hathihi");
   ([1584; 1604; 1603], "dhalik");
   ([1575; 1604; 1578; 1610], "allati");
   ([1575; 1604; 1584; 1610], "alladhi");
   ([1632], "0");
   ([1633], "1");
   ([1634], "2");
   ([1635], "3");
   ([1636], "4");
   ([1637], "5");
   ([1638], "6");
   ([1639], "7");
   ([1640], "8");
   ([1641], "9");
   ([1548], ",");
   ([1563], ";");
   ([1567], "?");
   ([33], "!")].

Fixpoint ustr_eqb (a b : ustr) : bool :=
  match a, b with
  | [], [] => true
  | x :: a', y :: b' => (x =? y) && ustr_eqb a' b'
  | _, _ => false
  end.

(** [key in d] and [d[key]]. *)
Fixpoint dict_get (k : ustr) (d : list (ustr * string)) : option string :=
  match d with
  | [] => None
  | (k', v) :: d' => if ustr_eqb k k' then Some v else dict_get k d'
  end.

Definition translit_char (dict : list (ustr * string)) (c : Z) : ustr :=
  match dict_get [c] dict with
  | Some v => u_of_string v
  | None => [c]
  end.

(** The [while] loop: the pair [text[i:i+2]] when two code points remain,
    then the single one. *)
Fixpoint translit_loop (dict : list (ustr * string)) (text : ustr) : ustr :=
  match text with
  | [] => []
  | c :: rest =>
      match rest with
      | c2 :: rest' =>
          match dict_get [c; c2] dict with
          | Some v => (u_of_string v ++ translit_loop dict rest')%list
          | None => (translit_char dict c ++ translit_loop dict rest)%list
          end
      | [] => translit_char dict c
      end
  end.

Definition arabic_placeholder (text : ustr) : ustr :=
  (u_of_string "[Arabic: " ++ firstn 20 text
   ++ (if Nat.ltb 20 (length text) then u_of_string "..." else [])
   ++ u_of_string "]")%list.

Definition transliterate_with (dict : list (ustr * string)) (text : ustr) : ustr :=
  match text with
  | [] => []
  | _ :: _ =>
      let result := ustrip (translit_loop dict text) in
      if (match result with [] => true | _ => false end)
         || Nat.eqb (length (filter (Z.eqb 32) result)) (length result)
      then arabic_placeholder text
      else result
  end.

Definition transliterate_arabic_to_latin (text : ustr) : ustr :=
  transliterate_with arabic_to_latin text.

(** ** Saved searches (app.py, lines 2374-2488) *)

Record saved_search := mksaved {
  ss_id : Z;
  ss_title : string;
  ss_description : string;
  ss_filters : string;
  ss_created_at : Z;
  ss_last_used_at : Z;
  ss_usage_count : Z;
  ss_user_id : string
}.

(** [get_saved_searches]: [ORDER BY last_used_at DESC, created_at DESC]. *)
Definition saved_le (a b : saved_search) : bool :=
  (ss_last_used_at b <? ss_last_used_at a)
  || ((ss_last_used_at a =? ss_last_used_at b) && (ss_created_at b <=? ss_created_at a)).

Definition get_saved_searches (tbl : list saved_search) : list saved_search :=
  sort_by saved_le tbl.

(** [update_search_usage]: [SET usage_count = usage_count + 1,
    last_used_at = CURRENT_TIMESTAMP WHERE id = %s]; [ts] is
    [CURRENT_TIMESTAMP]. *)
Definition mark_used (ts : Z) (r : saved_search) : saved_search :=
  mksaved (ss_id r) (ss_title r) (ss_description r) (ss_filters r) (ss_created_at r)
    ts (ss_usage_count r + 1) (ss_user_id r).

Definition update_search_usage (ts search_id : Z) (tbl : list saved_search) : list saved_search :=
  map (fun r => if ss_id r =? search_id then mark_used ts r else r) tbl.

(** [delete_saved_search]: [DELETE FROM saved_searches WHERE id = %s]. *)
Definition delete_saved_search (search_id : Z) (tbl : list saved_search) : list saved_search :=
  filter (fun r => negb (ss_id r =? search_id)) tbl.

(** ** [toggle_scheduled_report] (app.py, lines 2355-2372)

    The request body is a JSON object whose [is_active] member, when
    present, is a boolean ([None] when absent). *)
Definition set_active (ts : Z) (b : bool) (r : scheduled_report) : scheduled_report :=
  mksched (sr_id r) (sr_report_id r) (sr_schedule_name r) (sr_schedule_type r)
    (sr_schedule_time r) (sr_schedule_days r) (sr_email_recipients r)
    (sr_email_subject r) (sr_email_body r) (sr_user_id r) b
    (sr_next_run_at r) (sr_created_at r) ts.

(** [UPDATE scheduled_reports SET is_active = %s, updated_at =
    CURRENT_TIMESTAMP WHERE id = %s] and the response message. *)
Definition toggle_scheduled_report (ts schedule_id : Z) (is_active_arg : option bool)
  (tbl : list scheduled_report) : list scheduled_report * string :=
  let is_active := match is_active_arg with Some b => b | None => true end in
  (map (fun r => if sr_id r =? schedule_id then set_active ts is_active r else r) tbl,
   "Scheduled report " ++ (if is_active then "activated" else "deactivated") ++ " successfully").

(** ** [update_scheduled_report] (app.py, lines 2304-2338)

    The members of the JSON body the handler reads, each a string when
    present ([None] when absent);
    [schedule_days] and [email_recipients] are carried as the text
    [json.dumps] gives for them. *)
Record sched_body := mkschedbody {
  b_schedule_name : option string;
  b_schedule_type : option string;
  b_schedule_time : option string;
  b_schedule_days : option string;
  b_email_recipients : option string;
  b_email_subject : option string;
  b_email_body : option string
}.

Definition get_or (o : option string) (d : string) : string :=
  match o with Some v => v | None => d end.

(** [cursor.execute] sends each string parameter as a quoted literal, and
    PostgreSQL converts it to the column type when it parses the
    statement.  psycopg2 refuses a string holding a NUL character. *)
Definition text_in (s : string) : option string :=
  if str_existsb (fun c => Ascii.eqb c "000"%char) s then None else Some s.

(** A literal for a VARCHAR(n) column: a longer value is an error unless
    the characters past [n] are all spaces, which are then cut off (the
    strings here are ASCII, so [String.length] counts characters). *)
Definition varchar_in (n : nat) (s : string) : option string :=
  match text_in s with
  | None => None
  | Some s =>
      if Nat.leb (String.length s) n then Some s
      else if str_existsb (fun c => negb (Ascii.eqb c " "%char))
                (String.substring n (String.length s - n) s)
      then None
      else Some (String.substring 0 n s)
  end.

Section ScheduleUpdate.

(** PostgreSQL's input functions of TIME and JSONB: the stored value, or
    [None] when the text is rejected. *)
Variable time_in : string -> option string.
Variable jsonb_in : string -> option string.

(** The values the UPDATE stores in the seven columns it sets. *)
Record sched_values := mkschedvalues {
  v_name : string; v_type : string; v_time : string; v_days : string;
  v_recipients : string; v_subject : string; v_body : string
}.

(** The parameters of the UPDATE, absent members taking the [data.get]
    defaults, converted to the column types of [scheduled_reports]
    (start_api.py: [schedule_name VARCHAR(255)], [schedule_type
    VARCHAR(50)], [schedule_time TIME], [schedule_days JSONB],
    [email_recipients JSONB], [email_subject VARCHAR(255)], [email_body
    TEXT]); [None] when one of them is rejected. *)
Definition sched_body_values (name : string) (b : sched_body) : option sched_values :=
  match varchar_in 255 name, varchar_in 50 (get_or (b_schedule_type b) "daily"),
        time_in (get_or (b_schedule_time b) "09:00:00"),
        jsonb_in (get_or (b_schedule_days b) "[]"),
        jsonb_in (get_or (b_email_recipients b) "[]"),
        varchar_in 255 (get_or (b_email_subject b) ""),
        text_in (get_or (b_email_body b) "") with
  | Some n, Some ty, Some tm, Some dy, Some rc, Some sj, Some bd =>
      Some (mkschedvalues n ty tm dy rc sj bd)
  | _, _, _, _, _, _, _ => None
  end.

(** [SET schedule_name = %s, ..., email_body = %s, updated_at =
    CURRENT_TIMESTAMP] on one row. *)
Definition apply_sched_values (ts : Z) (v : sched_values) (r : scheduled_report)
  : scheduled_report :=
  mksched (sr_id r) (sr_report_id r) (v_name v) (v_type v) (Some (v_time v)) (v_days v)
    (v_recipients v) (v_subject v) (v_body v) (sr_user_id r) (sr_is_active r)
    (sr_next_run_at r) (sr_created_at r) ts.

(** The answer of the handler. *)
Inductive update_status :=
| UpdateOk
| Update400 (msg : string)
| Update500.

(** The table afterwards and the answer.  A rejected parameter fails the
    statement before any row is touched, whether or not a row has that id;
    the transaction is not committed and the handler answers 500. *)
Definition update_scheduled_report (ts schedule_id : Z) (b : sched_body) (tbl : list scheduled_report)
  : list scheduled_report * update_status :=
  match b_schedule_name b with
  | None => (tbl, Update400 "schedule_name is required")
  | Some name =>
      match sched_body_values name b with
      | None => (tbl, Update500)
      | Some v =>
          (map (fun r => if sr_id r =? schedule_id then apply_sched_values ts v r else r) tbl,
           UpdateOk)
      end
  end.

End ScheduleUpdate.

(** ** Auxiliary definitions for the proofs *)

(** Calendar order and day numbers. *)
Definition ymd_key (x : datetime) : Z :=
  dt_year x * 10000 + dt_month x * 100 + dt_day x.

(** Days elapsed since 0001-01-01, in the manner of Python's proleptic
    Gregorian ordinal ([_days_before_year] + [_days_before_month] + day). *)
Definition days_before_year (y : Z) : Z :=
  let t := y - 1 in 365 * t + t / 4 - t / 100 + t / 400.

Fixpoint days_before_month_nat (y : Z) (k : nat) : Z :=
  match k with
  | O => 0
  | S j => days_before_month_nat y j + days_in_month y (Z.of_nat j + 1)
  end.

Definition day_number (x : datetime) : Z :=
  days_before_year (dt_year x)
  + days_before_month_nat (dt_year x) (Z.to_nat (dt_month x - 1))
  + dt_day x - 1.

(** The preset tokens of [parse_date_filter]. *)
Definition date_tokens : list string := ["today"; "week"; "month"; "year"; "total"].


(** Placeholders of a list of conditions, one after the other. *)
Fixpoint conds_placeholders (l : list string) : option nat :=
  match l with
  | [] => Some O
  | c :: r =>
      match pyformat_count (convert_sqlite_to_postgresql c), conds_placeholders r with
      | Some a, Some b => Some (a + b)%nat
      | _, _ => None
      end
  end.

(** The advanced-search accumulator has one placeholder per parameter. *)
Definition acc_placeholders_ok (acc : adv_acc) : Prop :=
  conds_placeholders (fst acc) = Some (length (snd acc)).

(** Custom-report columns with no placeholder character. *)
Definition plain_column (c : string) : Prop :=
  str_existsb (fun x => Ascii.eqb x "%"%char) c = false /\
  str_existsb (fun x => Ascii.eqb x "?"%char) c = false.

(** The dictionary without its entries of more than two characters. *)
Definition short_keys (dict : list (ustr * string)) : list (ustr * string) :=
  filter (fun kv => Nat.leb (length (fst kv)) 2) dict.

(** Rows used by the examples. *)
Definition sched_row : scheduled_report :=
  mksched 3 11 "Weekly" "weekly" None "mon" "ops@example.com" "Report" "" "default_user"
    true (Some 100) 50 50.

Definition saved_a : saved_search := mksaved 1 "A" "" "{}" 10 20 0 "default_user".
Definition saved_b : saved_search := mksaved 2 "B" "" "{}" 12 30 4 "default_user".

(** ** Calendar facts *)

Lemma days_in_month_range (y m : Z) : 28 <= days_in_month y m <= 31.
Proof.
  unfold days_in_month.
  destruct (m =? 2); [destruct (is_leap y); lia|].
  destruct ((m =? 4) || (m =? 6) || (m =? 9) || (m =? 11)); lia.
Qed.

Lemma days_in_month_12 (y : Z) : days_in_month y 12 = 31.
Proof. reflexivity. Qed.

Lemma prev_day_spec (x z : datetime) :
  valid_dt x -> prev_day x = Some z -> valid_dt z /\ ymd_key z < ymd_key x.
Proof.
  destruct x as [y m d s]; unfold valid_dt, ymd_key; simpl; intros H E.
  destruct (1 <? d) eqn:Ed.
  - inversion E; subst; simpl. apply Z.ltb_lt in Ed.
    pose proof (days_in_month_range y m); lia.
  - destruct (1 <? m) eqn:Em.
    + inversion E; subst; simpl. apply Z.ltb_lt in Em.
      pose proof (days_in_month_range y (m - 1)); lia.
    + destruct (1 <? y) eqn:Ey; [|discriminate].
      inversion E; subst; simpl. apply Z.ltb_lt in Ey.
      rewrite days_in_month_12; lia.
Qed.

Lemma next_day_spec (x z : datetime) :
  valid_dt x -> next_day x = Some z -> valid_dt z /\ ymd_key x < ymd_key z.
Proof.
  destruct x as [y m d s]; unfold valid_dt, ymd_key; simpl; intros H E.
  destruct (d <? days_in_month y m) eqn:Ed.
  - inversion E; subst; simpl. apply Z.ltb_lt in Ed. lia.
  - destruct (m <? 12) eqn:Em.
    + inversion E; subst; simpl. apply Z.ltb_lt in Em.
      pose proof (days_in_month_range y (m + 1)); pose proof (days_in_month_range y m); lia.
    + destruct (y <? 9999) eqn:Ey; [|discriminate].
      inversion E; subst; simpl. apply Z.ltb_lt in Ey.
      pose proof (days_in_month_range (y + 1) 1); pose proof (days_in_month_range y m); lia.
Qed.

Lemma sub_days_spec (n : nat) (x z : datetime) :
  valid_dt x -> sub_days n x = Some z -> valid_dt z /\ ymd_key z <= ymd_key x.
Proof.
  revert x; induction n as [|n IH]; simpl; intros x H E.
  - inversion E; subst; split; [assumption | lia].
  - destruct (prev_day x) as [w|] eqn:Ew; [|discriminate].
    destruct (prev_day_spec x w H Ew) as [Hw Kw].
    destruct (IH w Hw E); split; [assumption | lia].
Qed.

Lemma add_days_1_spec (x z : datetime) :
  valid_dt x -> add_days 1 x = Some z -> valid_dt z /\ ymd_key x < ymd_key z.
Proof.
  simpl; intros H E.
  destruct (next_day x) as [w|] eqn:Ew; [|discriminate].
  inversion E; subst. apply next_day_spec; assumption.
Qed.

Lemma midnight_valid (x : datetime) : valid_dt x -> valid_dt (midnight x).
Proof. destruct x; unfold valid_dt; simpl; auto. Qed.

(** Formatting: the YYYYMMDD string is eight digits whose value is the key. *)

Lemma digit_code (r : Z) : 0 <= r < 10 -> Z.of_nat (nat_of_ascii (digit r)) - 48 = r.
Proof.
  intros H. unfold digit. rewrite nat_ascii_embedding by lia. lia.
Qed.

Lemma digit_is_digit (r : Z) : 0 <= r < 10 -> is_digit (digit r) = true.
Proof.
  intros H. unfold is_digit, digit. rewrite nat_ascii_embedding by lia.
  apply andb_true_intro; split; apply Nat.leb_le; lia.
Qed.

Lemma dec_value_acc_app (acc : Z) (s1 s2 : string) :
  dec_value_acc acc (s1 ++ s2) = dec_value_acc (dec_value_acc acc s1) s2.
Proof. revert acc; induction s1; simpl; auto. Qed.

Lemma all_digits_app (s1 s2 : string) :
  all_digits (s1 ++ s2) = all_digits s1 && all_digits s2.
Proof. induction s1; simpl; auto. rewrite IHs1, andb_assoc; auto. Qed.

Lemma str_length_app (s1 s2 : string) :
  String.length (s1 ++ s2) = (String.length s1 + String.length s2)%nat.
Proof. induction s1; simpl; auto. Qed.

Lemma zpad_length (k : nat) (n : Z) : String.length (zpad k n) = k.
Proof.
  revert n; induction k as [|k IHk]; intros n; [reflexivity|].
  cbn [zpad]. rewrite str_length_app, IHk. cbn [String.length]. lia.
Qed.

Lemma zpad_digits (k : nat) (n : Z) : all_digits (zpad k n) = true.
Proof.
  revert n; induction k as [|k IHk]; intros n; [reflexivity|].
  cbn [zpad]. rewrite all_digits_app, IHk. cbn [all_digits andb].
  rewrite digit_is_digit; [reflexivity|]. pose proof (Z.mod_pos_bound n 10); lia.
Qed.

Lemma zpad_value (k : nat) (acc n : Z) :
  dec_value_acc acc (zpad k n) = acc * 10 ^ Z.of_nat k + n mod 10 ^ Z.of_nat k.
Proof.
  revert acc n; induction k; intros acc n.
  - simpl. rewrite Z.mod_1_r. lia.
  - cbn [zpad]. rewrite dec_value_acc_app, IHk. cbn [dec_value_acc].
    rewrite digit_code by (pose proof (Z.mod_pos_bound n 10); lia).
    rewrite Nat2Z.inj_succ, Z.pow_succ_r by lia.
    rewrite (Z.rem_mul_r n 10 (10 ^ Z.of_nat k)) by (try lia; apply Z.pow_pos; lia).
    ring.
Qed.

Lemma strftime_ymd_spec (x : datetime) :
  valid_dt x ->
  String.length (strftime_ymd x) = 8%nat /\ all_digits (strftime_ymd x) = true /\
  dec_value (strftime_ymd x) = ymd_key x.
Proof.
  intros [Hy [Hm Hd]]. pose proof (days_in_month_range (dt_year x) (dt_month x)).
  unfold strftime_ymd, dec_value, ymd_key.
  split; [rewrite !str_length_app, !zpad_length; reflexivity|].
  split; [rewrite !all_digits_app, !zpad_digits; reflexivity|].
  rewrite !dec_value_acc_app, !zpad_value. simpl.
  rewrite !Z.mod_small by lia. lia.
Qed.

Lemma div_step (t k : Z) :
  1 <= t -> 0 < k -> t / k - (t - 1) / k = if t mod k =? 0 then 1 else 0.
Proof.
  intros Ht Hk.
  pose proof (Z.div_mod t k ltac:(lia)) as Hdm.
  pose proof (Z.mod_pos_bound t k Hk) as Hr.
  destruct (t mod k =? 0) eqn:E.
  - apply Z.eqb_eq in E.
    assert ((t - 1) / k = t / k - 1) as ->; [|lia].
    symmetry; apply Z.div_unique with (r := k - 1); lia.
  - apply Z.eqb_neq in E.
    assert ((t - 1) / k = t / k) as ->; [|lia].
    symmetry; apply Z.div_unique with (r := t mod k - 1); lia.
Qed.

Lemma mod_zero_weaken (t a b : Z) :
  0 < a -> 0 < b -> t mod (a * b) = 0 -> t mod a = 0.
Proof.
  intros Ha Hb H.
  apply Z.mod_divide in H; [|lia].
  apply Z.mod_divide; [lia|].
  apply Z.divide_trans with (a * b); [exists b; ring | exact H].
Qed.

Lemma days_before_year_succ (t : Z) :
  1 <= t ->
  days_before_year (t + 1) = days_before_year t + 365 + (if is_leap t then 1 else 0).
Proof.
  intros Ht. unfold days_before_year.
  replace (t + 1 - 1) with t by lia.
  pose proof (div_step t 4 Ht ltac:(lia)) as D4.
  pose proof (div_step t 100 Ht ltac:(lia)) as D100.
  pose proof (div_step t 400 Ht ltac:(lia)) as D400.
  unfold is_leap.
  destruct (t mod 400 =? 0) eqn:E400.
  - apply Z.eqb_eq in E400.
    assert (t mod 100 = 0) as E100 by (apply (mod_zero_weaken t 100 4); [lia | lia | assumption]).
    assert (t mod 4 = 0) as E4 by (apply (mod_zero_weaken t 4 100); [lia | lia | assumption]).
    rewrite E100, E4 in *; cbn [Z.eqb andb orb negb] in *; lia.
  - destruct (t mod 100 =? 0) eqn:E100.
    + apply Z.eqb_eq in E100.
      assert (t mod 4 = 0) as E4 by (apply (mod_zero_weaken t 4 25); [lia | lia | assumption]).
      rewrite E4 in *; cbn [Z.eqb andb orb negb] in *. lia.
    + destruct (t mod 4 =? 0); cbn [Z.eqb andb orb negb] in *; lia.
Qed.

Lemma days_before_month_11 (y : Z) :
  days_before_month_nat y 11 = 334 + (if is_leap y then 1 else 0).
Proof.
  cbv [days_before_month_nat days_in_month]. cbn.
  destruct (is_leap y); reflexivity.
Qed.

Lemma day_number_prev (x z : datetime) :
  valid_dt x -> prev_day x = Some z -> day_number z = day_number x - 1.
Proof.
  destruct x as [y m d s]; unfold valid_dt, day_number; simpl; intros H E.
  destruct (1 <? d) eqn:Ed.
  - inversion E; subst; simpl. lia.
  - destruct (1 <? m) eqn:Em.
    + inversion E; subst; simpl. apply Z.ltb_lt in Em. apply Z.ltb_ge in Ed.
      replace (Z.to_nat (m - 1)) with (S (Z.to_nat (m - 1 - 1))) by lia.
      cbn [days_before_month_nat].
      replace (Z.of_nat (Z.to_nat (m - 1 - 1)) + 1) with (m - 1) by lia.
      lia.
    + destruct (1 <? y) eqn:Ey; [|discriminate].
      inversion E; subst. apply Z.ltb_lt in Ey. apply Z.ltb_ge in Em, Ed.
      cbn [dt_year dt_month dt_day].
      replace (Z.to_nat (m - 1)) with O by lia.
      replace (Z.to_nat (12 - 1)) with 11%nat by reflexivity.
      rewrite days_before_month_11.
      pose proof (days_before_year_succ (y - 1) ltac:(lia)) as Hs.
      replace (y - 1 + 1) with y in Hs by lia.
      cbn [days_before_month_nat]. destruct (is_leap (y - 1)); lia.
Qed.

Lemma prev_day_none (x : datetime) :
  prev_day x = None -> dt_year x <= 1 /\ dt_month x <= 1 /\ dt_day x <= 1.
Proof.
  destruct x as [y m d s]; simpl.
  destruct (1 <? d) eqn:Ed; [discriminate|].
  destruct (1 <? m) eqn:Em; [discriminate|].
  destruct (1 <? y) eqn:Ey; [discriminate|].
  intros _. apply Z.ltb_ge in Ed, Em, Ey. lia.
Qed.

Lemma days_before_month_nonneg (y : Z) (k : nat) : 0 <= days_before_month_nat y k.
Proof.
  induction k; simpl; [lia|]. pose proof (days_in_month_range y (Z.of_nat k + 1)); lia.
Qed.

Lemma sub_days_defined (n : nat) (x : datetime) :
  valid_dt x -> Z.of_nat n <= day_number x -> exists z, sub_days n x = Some z.
Proof.
  revert x; induction n as [|n IH]; intros x H Hn; simpl; [eauto|].
  destruct (prev_day x) as [w|] eqn:Ew.
  - apply IH.
    + apply (prev_day_spec x w H Ew).
    + rewrite (day_number_prev x w H Ew). lia.
  - exfalso. apply prev_day_none in Ew.
    destruct x as [y m d s]; unfold valid_dt, day_number in *; simpl in *.
    assert (y = 1) by lia; assert (m = 1) by lia; assert (d = 1) by lia; subst.
    simpl in Hn. lia.
Qed.

Lemma day_number_year2 (x : datetime) :
  valid_dt x -> 2 <= dt_year x -> 365 <= day_number x.
Proof.
  destruct x as [y m d s]; unfold valid_dt, day_number, days_before_year; cbn [dt_year dt_month dt_day]; intros H Hy.
  pose proof (days_before_month_nonneg y (Z.to_nat (m - 1))).
  assert ((y - 1) / 100 <= (y - 1) / 4).
  { apply Z.div_le_compat_l; lia. }
  pose proof (Z.div_pos (y - 1) 400 ltac:(lia) ltac:(lia)). lia.
Qed.

Lemma date_filter_range_ok (tnow : datetime) (dparse : string -> option datetime)
  (ds : string) (st en : datetime) :
  valid_dt tnow -> (forall s d, dparse s = Some d -> valid_dt d) ->
  date_filter_range tnow dparse ds = Some (st, en) ->
  valid_dt st /\ valid_dt en /\ ymd_key st <= ymd_key en.
Proof.
  intros Hnow Hp. unfold date_filter_range.
  destruct (String.eqb (py_lower ds) "today").
  { intros E; inversion E; subst.
    split; [apply midnight_valid; auto | split; [auto|]].
    unfold ymd_key, midnight; simpl; lia. }
  destruct (String.eqb (py_lower ds) "week");
  [|destruct (String.eqb (py_lower ds) "month");
  [|destruct (String.eqb (py_lower ds) "year")]];
  try (match goal with |- context [sub_days ?k tnow] =>
         destruct (sub_days k tnow) as [w|] eqn:Ew end; [|intros ?; discriminate];
       intros E; inversion E; subst;
       destruct (sub_days_spec _ _ _ Hnow Ew); split; [auto | split; [auto | lia]]).
  destruct (String.eqb (py_lower ds) "total"); [intros ?; discriminate|].
  destruct (dparse ds) as [d|] eqn:Ed; [|intros ?; discriminate].
  destruct (add_days 1 (midnight d)) as [e|] eqn:Ee; [|intros ?; discriminate].
  intros E; inversion E; subst.
  pose proof (midnight_valid d (Hp _ _ Ed)) as Hm.
  destruct (add_days_1_spec _ _ Hm Ee). split; [auto | split; [auto | lia]].
Qed.

Lemma parse_date_filter_nonempty (now : datetime) (dparse : string -> option datetime)
  (c : ascii) (r : string) :
  parse_date_filter now dparse (Some (String c r)) =
    match date_filter_range now dparse (String c r) with
    | Some (st, en) => Some (strftime_ymd st, strftime_ymd en)
    | None => None
    end.
Proof. reflexivity. Qed.

Lemma not_token_range (now : datetime) (dparse : string -> option datetime) (s : string) :
  ~ In (py_lower s) date_tokens ->
  date_filter_range now dparse s =
    match dparse s with
    | Some parsed =>
        match add_days 1 (midnight parsed) with
        | Some en => Some (midnight parsed, en) | None => None end
    | None => None
    end.
Proof.
  intros H. unfold date_filter_range.
  destruct (String.eqb_spec (py_lower s) "today") as [e|_]; [exfalso; apply H; rewrite e; simpl; tauto|].
  destruct (String.eqb_spec (py_lower s) "week") as [e|_]; [exfalso; apply H; rewrite e; simpl; tauto|].
  destruct (String.eqb_spec (py_lower s) "month") as [e|_]; [exfalso; apply H; rewrite e; simpl; tauto|].
  destruct (String.eqb_spec (py_lower s) "year") as [e|_]; [exfalso; apply H; rewrite e; simpl; tauto|].
  destruct (String.eqb_spec (py_lower s) "total") as [e|_]; [exfalso; apply H; rewrite e; simpl; tauto|].
  reflexivity.
Qed.

Lemma next_day_9999 (x : datetime) :
  valid_dt x -> (next_day x = None <-> (dt_year x, dt_month x, dt_day x) = (9999, 12, 31)).
Proof.
  destruct x as [y m d s]; unfold valid_dt; simpl; intros H.
  destruct (d <? days_in_month y m) eqn:Ed.
  - split; [intros E; discriminate E|]. intros E; inversion E; subst.
    vm_compute in Ed; discriminate Ed.
  - destruct (m <? 12) eqn:Em.
    + split; [intros E; discriminate E|]. intros E; inversion E; subst.
      vm_compute in Em; discriminate Em.
    + destruct (y <? 9999) eqn:Ey.
      * split; [intros E; discriminate E|]. intros E; inversion E; subst.
        vm_compute in Ey; discriminate Ey.
      * split; [intros _|reflexivity]. rewrite Z.ltb_ge in Ed, Em, Ey.
        assert (m = 12) by lia; subst. rewrite days_in_month_12 in *.
        f_equal; [f_equal|]; lia.
Qed.

Lemma iso_parse_valid (s : string) (d : datetime) : iso_parse s = Some d -> valid_dt d.
Proof.
  unfold iso_parse. intros E.
  repeat match type of E with
         | context [match ?x with _ => _ end] => destruct x eqn:?
         end; try discriminate E.
  inversion E; subst. unfold valid_dt; simpl.
  repeat match goal with H : (_ && _) = true |- _ => apply andb_true_iff in H; destruct H end.
  repeat match goal with H : (_ <=? _) = true |- _ => apply Z.leb_le in H end.
  simpl in *. lia.
Qed.

(** C7 (as amended).  [parse_date_filter] never raises.  ['today'] yields
    (midnight of now, now); ['week'], ['month'], ['year'] (any letter case)
    yield (now - 7, 30, 365 days, now) and, when now lies in year 2 or later,
    always yield a range; a string the date parser reads as a date d yields
    (d at midnight, d + 1 day) unless d is 9999-12-31, where adding a day
    overflows and the result is no range; ['total'], the empty string and
    unparseable strings yield no range; every range it returns is a pair of
    8-digit YYYYMMDD strings with start <= end. *)
Theorem parse_date_filter_ranges (now : datetime) (dparse : string -> option datetime)
  (Hnow : valid_dt now) (Hparse : forall s d, dparse s = Some d -> valid_dt d) :
  (forall o a b, parse_date_filter now dparse o = Some (a, b) ->
     String.length a = 8%nat /\ String.length b = 8%nat /\
     all_digits a = true /\ all_digits b = true /\ dec_value a <= dec_value b) /\
  (forall s, py_lower s = "today" ->
     parse_date_filter now dparse (Some s) = Some (strftime_ymd (midnight now), strftime_ymd now)) /\
  (forall s k, (py_lower s = "week" /\ k = 7%nat \/ py_lower s = "month" /\ k = 30%nat \/
                py_lower s = "year" /\ k = 365%nat) ->
     2 <= dt_year now ->
     exists st, sub_days k now = Some st /\
       parse_date_filter now dparse (Some s) = Some (strftime_ymd st, strftime_ymd now)) /\
  (forall s, py_lower s = "total" -> parse_date_filter now dparse (Some s) = None) /\
  parse_date_filter now dparse None = None /\
  parse_date_filter now dparse (Some "") = None /\
  (forall s, ~ In (py_lower s) date_tokens -> dparse s = None ->
     parse_date_filter now dparse (Some s) = None) /\
  (forall s d, s <> "" -> ~ In (py_lower s) date_tokens -> dparse s = Some d ->
     (dt_year d, dt_month d, dt_day d) <> (9999, 12, 31) ->
     exists e, next_day (midnight d) = Some e /\
       parse_date_filter now dparse (Some s) = Some (strftime_ymd (midnight d), strftime_ymd e)) /\
  (forall s d, ~ In (py_lower s) date_tokens -> dparse s = Some d ->
     (dt_year d, dt_month d, dt_day d) = (9999, 12, 31) ->
     parse_date_filter now dparse (Some s) = None).
Proof.
  split.
  { intros [ds|] a b; [|intros E; discriminate E].
    destruct ds as [|c r]; [intros E; discriminate E|].
    unfold parse_date_filter.
    destruct (date_filter_range now dparse (String c r)) as [[st en]|] eqn:R;
      [|intros E; discriminate E].
    intros E; inversion E; subst.
    destruct (date_filter_range_ok now dparse _ st en Hnow Hparse R) as (Vs & Ve & K).
    destruct (strftime_ymd_spec st Vs) as (L1 & D1 & V1).
    destruct (strftime_ymd_spec en Ve) as (L2 & D2 & V2).
    rewrite V1, V2. auto. }
  split.
  { intros s Hs. destruct s as [|c r]; [discriminate Hs|].
    unfold parse_date_filter, date_filter_range. rewrite Hs. reflexivity. }
  split.
  { intros s k Hk Hy.
    destruct (sub_days_defined k now Hnow) as [st Est].
    { pose proof (day_number_year2 now Hnow Hy). destruct Hk as [[_ ->]|[[_ ->]|[_ ->]]]; lia. }
    exists st; split; [exact Est|].
    destruct s as [|c r]; [destruct Hk as [[H _]|[[H _]|[H _]]]; discriminate H|].
    unfold parse_date_filter, date_filter_range.
    destruct Hk as [[H ->]|[[H ->]|[H ->]]]; rewrite H, Est; reflexivity. }
  split.
  { intros s Hs. destruct s as [|c r]; [discriminate Hs|].
    unfold parse_date_filter, date_filter_range. rewrite Hs. reflexivity. }
  split; [reflexivity|]. split; [reflexivity|].
  split.
  { intros s Hs Hd. destruct s as [|c r]; [reflexivity|].
    rewrite parse_date_filter_nonempty, not_token_range, Hd by exact Hs. reflexivity. }
  split.
  { intros s d Hn Hs Hd Hne.
    pose proof (midnight_valid d (Hparse _ _ Hd)) as Vm.
    destruct (next_day (midnight d)) as [e|] eqn:En.
    - exists e; split; [reflexivity|].
      destruct s as [|c r]; [contradiction|].
      rewrite parse_date_filter_nonempty, not_token_range, Hd by exact Hs.
      cbn [add_days]. rewrite En. reflexivity.
    - exfalso. apply Hne. apply (next_day_9999 _ Vm) in En. exact En. }
  { intros s d Hs Hd Heq.
    pose proof (midnight_valid d (Hparse _ _ Hd)) as Vm.
    assert (next_day (midnight d) = None) as En by (apply (next_day_9999 _ Vm); exact Heq).
    destruct s as [|c r]; [reflexivity|].
    rewrite parse_date_filter_nonempty, not_token_range, Hd by exact Hs.
    cbn [add_days]. rewrite En. reflexivity. }
Qed.

Lemma now0_valid : valid_dt now0.
Proof. unfold valid_dt, now0, days_in_month; simpl; lia. Qed.

Lemma parse_date_filter_ranges_witness :
  valid_dt now0 /\ (forall s d, iso_parse s = Some d -> valid_dt d) /\
  parse_date_filter now0 iso_parse (Some "Week") = Some ("20261008", "20261015").
Proof.
  split; [exact now0_valid|].
  split; [exact iso_parse_valid|].
  destruct (parse_date_filter_ranges now0 iso_parse now0_valid iso_parse_valid) as (_ & _ & Hw & _).
  destruct (Hw "Week" 7%nat ltac:(left; split; reflexivity) ltac:(simpl; lia)) as (st & Est & ->).
  vm_compute in Est. inversion Est. reflexivity.
Defined.

(** C7 counterexample: "9999-12-31" is read as a calendar date, yet
    [parse_date_filter] returns no range for it (the end of the 1-day window
    overflows [datetime] and the bare [except] swallows the error). *)
Lemma parse_date_filter_max_date_no_range :
  iso_parse "9999-12-31" = Some (mkdt 9999 12 31 0) /\
  parse_date_filter now0 iso_parse (Some "9999-12-31") = None.
Proof. split; reflexivity. Qed.

(** ** Numeric parsing expression *)

(** C3 (code defect).  The expression meets the four examples with digits
    ("12.5 Kg" = 12.5, ".5" = 0.5, "5." = 5, "" = NULL), but on "Kg", a
    non-empty text without digits, every character is stripped and
    [CAST('' AS NUMERIC)] raises instead of yielding NULL. *)
Theorem weight_parsing_sql_no_digits_raises :
  get_weight_parsing_sql (Some "12.5 Kg") = NNum 125 1 /\
  get_weight_parsing_sql (Some ".5") = NNum 5 1 /\
  get_weight_parsing_sql (Some "5.") = NNum 5 0 /\
  get_weight_parsing_sql (Some "") = NNull /\
  get_weight_parsing_sql (Some "Kg") = NError /\
  get_cod_parsing_sql (Some "Kg") = NError.
Proof. repeat split; reflexivity. Qed.

(** ** Pagination *)

(** C9.  Every pagination block a listing endpoint returns satisfies
    total_pages = ceil(total / limit) (the least k with k * limit >= total),
    has_next <-> page < total_pages and has_prev <-> page > 1, and echoes
    page, limit and total. *)
Theorem listing_pagination_spec (page limit total : Z) (p : pagination) :
  0 <= total -> listing_pagination page limit total = Some p ->
  pg_page p = page /\ pg_limit p = limit /\ pg_total p = total /\
  total <= pg_total_pages p * limit /\ (pg_total_pages p - 1) * limit < total /\
  (pg_has_next p = true <-> page < pg_total_pages p) /\
  (pg_has_prev p = true <-> page > 1).
Proof.
  intros Ht. unfold listing_pagination, pagination_info.
  destruct ((limit <? 0) || ((page - 1) * limit <? 0)) eqn:Eneg; [intros E; discriminate E|].
  apply orb_false_iff in Eneg as [El _]. apply Z.ltb_ge in El.
  destruct (limit =? 0) eqn:Ez; [intros E; discriminate E|]. apply Z.eqb_neq in Ez.
  intros E; inversion E; subst; clear E; cbn [pg_page pg_limit pg_total pg_total_pages pg_has_next pg_has_prev].
  pose proof (Z.div_mod (total + limit - 1) limit Ez) as Dm.
  pose proof (Z.mod_pos_bound (total + limit - 1) limit ltac:(lia)) as Mb.
  split; [reflexivity|]. split; [reflexivity|]. split; [reflexivity|].
  split; [nia|]. split; [nia|].
  split; [rewrite Z.ltb_lt; tauto|]. rewrite Z.ltb_lt; lia.
Qed.

Lemma listing_pagination_spec_witness :
  listing_pagination 2 10 25 = Some (mkpagination 2 10 25 3 true true) /\
  (25 <= 3 * 10 /\ (3 - 1) * 10 < 25).
Proof.
  split; [reflexivity|].
  destruct (listing_pagination_spec 2 10 25 (mkpagination 2 10 25 3 true true)
              ltac:(lia) eq_refl) as (_ & _ & _ & H1 & H2 & _). simpl in H1, H2. lia.
Defined.

(** ** Scheduled reports *)

Lemma in_insert_by {A} (le : A -> A -> bool) (a x : A) (l : list A) :
  In x (insert_by le a l) <-> a = x \/ In x l.
Proof.
  induction l as [|y r IH]; simpl; [tauto|].
  destruct (le a y); simpl; [tauto|]. rewrite IH. tauto.
Qed.

Lemma in_sort_by {A} (le : A -> A -> bool) (x : A) (l : list A) :
  In x (sort_by le l) <-> In x l.
Proof.
  induction l as [|y r IH]; simpl; [tauto|].
  rewrite in_insert_by, IH. intuition.
Qed.

Lemma scheduled_reports_rows_in (tbl : list scheduled_report) (reports : list custom_report)
  (r : scheduled_report) (t d : string) :
  In (r, t, d) (scheduled_reports_rows tbl reports) ->
  In r tbl /\ sr_is_active r = true.
Proof.
  unfold scheduled_reports_rows. rewrite in_map_iff.
  intros [[r' c] [E Hin]]. inversion E; subst.
  rewrite in_sort_by, filter_In, in_prod_iff in Hin.
  destruct Hin as [[Hr _] Hb]. apply andb_true_iff in Hb. tauto.
Qed.

Lemma get_scheduled_reports_rows (tbl : list scheduled_report) (reports : list custom_report)
  (rows : list (scheduled_report * string * string)) :
  get_scheduled_reports tbl reports = Some rows -> rows = scheduled_reports_rows tbl reports.
Proof.
  unfold get_scheduled_reports. destruct (existsb _ _); [discriminate|]. congruence.
Qed.

Lemma sched_body_values_some (time_in jsonb_in : string -> option string)
  (name : string) (b : sched_body) (v : sched_values) :
  sched_body_values time_in jsonb_in name b = Some v ->
  varchar_in 255 name = Some (v_name v) /\
  varchar_in 50 (get_or (b_schedule_type b) "daily") = Some (v_type v) /\
  time_in (get_or (b_schedule_time b) "09:00:00") = Some (v_time v) /\
  jsonb_in (get_or (b_schedule_days b) "[]") = Some (v_days v) /\
  jsonb_in (get_or (b_email_recipients b) "[]") = Some (v_recipients v) /\
  varchar_in 255 (get_or (b_email_subject b) "") = Some (v_subject v) /\
  text_in (get_or (b_email_body b) "") = Some (v_body v).
Proof.
  unfold sched_body_values.
  destruct (varchar_in 255 name); [|discriminate].
  destruct (varchar_in 50 _); [|discriminate].
  destruct (time_in _); [|discriminate].
  destruct (jsonb_in (get_or (b_schedule_days b) "[]")); [|discriminate].
  destruct (jsonb_in (get_or (b_email_recipients b) "[]")); [|discriminate].
  destruct (varchar_in 255 (get_or (b_email_subject b) "")); [|discriminate].
  destruct (text_in _); [|discriminate].
  intros H. injection H as <-. cbn. repeat split.
Qed.

(** C10.  Deleting a scheduled report keeps every row: the row with that id
    only gets [is_active = false] and a new [updated_at], with its name,
    cadence fields, recipients, e-mail fields and [report_id] unchanged, and
    every other row is untouched; the listing then never shows that id, as
    its query only returns active rows (and when the listing answers, it
    answers with those rows). *)
Theorem delete_scheduled_report_soft (ts schedule_id : Z)
  (tbl : list scheduled_report) (reports : list custom_report) :
  let tbl' := delete_scheduled_report ts schedule_id tbl in
  length tbl' = length tbl /\
  Forall2 (fun r r' =>
             if sr_id r =? schedule_id then
               sr_is_active r' = false /\ sr_updated_at r' = ts /\
               sr_id r' = sr_id r /\ sr_report_id r' = sr_report_id r /\
               sr_schedule_name r' = sr_schedule_name r /\
               sr_schedule_type r' = sr_schedule_type r /\
               sr_schedule_time r' = sr_schedule_time r /\
               sr_schedule_days r' = sr_schedule_days r /\
               sr_email_recipients r' = sr_email_recipients r /\
               sr_email_subject r' = sr_email_subject r /\
               sr_email_body r' = sr_email_body r /\
               sr_user_id r' = sr_user_id r /\
               sr_next_run_at r' = sr_next_run_at r /\
               sr_created_at r' = sr_created_at r
             else r' = r) tbl tbl' /\
  (forall r t d, In (r, t, d) (scheduled_reports_rows tbl' reports) ->
     sr_is_active r = true /\ sr_id r <> schedule_id) /\
  (forall rows, get_scheduled_reports tbl' reports = Some rows ->
     forall r t d, In (r, t, d) rows -> sr_is_active r = true /\ sr_id r <> schedule_id).
Proof.
  intros tbl'.
  assert (Hrows : forall r t d, In (r, t, d) (scheduled_reports_rows tbl' reports) ->
            sr_is_active r = true /\ sr_id r <> schedule_id).
  { intros r t d Hin. apply scheduled_reports_rows_in in Hin as [Hr Ha].
    split; [exact Ha|]. intros Hid.
    unfold tbl', delete_scheduled_report in Hr. apply in_map_iff in Hr as [r0 [E _]].
    destruct (sr_id r0 =? schedule_id) eqn:Ei.
    + subst r. unfold deactivate in Ha; simpl in Ha. discriminate Ha.
    + subst r0. rewrite Hid, Z.eqb_refl in Ei. discriminate Ei. }
  split; [apply length_map|]. split; [|split; [exact Hrows|]].
  - clear Hrows. unfold tbl', delete_scheduled_report.
    induction tbl as [|r rest IH]; simpl; constructor; auto.
    destruct (sr_id r =? schedule_id); [|reflexivity].
    unfold deactivate; simpl. repeat split.
  - intros rows Hg. apply get_scheduled_reports_rows in Hg. subst rows. exact Hrows.
Qed.

(** ** Legacy date expression *)

(** C8.  The legacy-date expression maps "05-Jan-24" to "20240105" and
    returns every string that fails its 9-character [LIKE '__-___-__']
    test (9 characters with '-' in positions 3 and 7) unchanged.  A string
    that passes the test is not returned unchanged: it has the form
    D1 D2 - M1 M2 M3 - Y1 Y2, and the expression gives NULL when M1 M2 M3
    is not a month abbreviation and '20' Y1 Y2, the month number, D1 D2
    otherwise, whatever the characters D1, D2, Y1 and Y2 are. *)
Theorem legacy_date_value_spec :
  legacy_date_value (Some "05-Jan-24") = Some "20240105" /\
  (forall x, (String.length x <> 9%nat \/ String.get 2 x <> Some "-"%char \/
              String.get 6 x <> Some "-"%char) ->
     legacy_date_value (Some x) = Some x) /\
  (forall x, like_dd_mon_yy x = true ->
     exists d1 d2 m1 m2 m3 y1 y2,
       x = String d1 (String d2 (String "-" (String m1 (String m2 (String m3
             (String "-" (String y1 (String y2 EmptyString)))))))) /\
       legacy_date_value (Some x)
       = match month_code (String m1 (String m2 (String m3 EmptyString))) with
         | Some mm => Some ("20" ++ String y1 (String y2 EmptyString) ++ mm
                            ++ String d1 (String d2 EmptyString))
         | None => None
         end).
Proof.
  split; [reflexivity|split].
  - intros x Hx. unfold legacy_date_value.
    destruct (like_dd_mon_yy x) eqn:L; [|reflexivity].
    exfalso. unfold like_dd_mon_yy in L.
    apply andb_true_iff in L as [L1 L2]. apply Nat.eqb_eq in L1.
    destruct (String.get 2 x) as [c1|]; [|discriminate L2].
    destruct (String.get 6 x) as [c2|]; [|discriminate L2].
    apply andb_true_iff in L2 as [E1 E2].
    apply Ascii.eqb_eq in E1, E2. subst. intuition congruence.
  - intros x L. unfold like_dd_mon_yy in L.
    apply andb_true_iff in L as [L1 L2]. apply Nat.eqb_eq in L1.
    destruct x as [|d1 x]; [discriminate L1|]. destruct x as [|d2 x]; [discriminate L1|].
    destruct x as [|h1 x]; [discriminate L1|]. destruct x as [|m1 x]; [discriminate L1|].
    destruct x as [|m2 x]; [discriminate L1|]. destruct x as [|m3 x]; [discriminate L1|].
    destruct x as [|h2 x]; [discriminate L1|]. destruct x as [|y1 x]; [discriminate L1|].
    destruct x as [|y2 x]; [discriminate L1|]. destruct x as [|z x]; [|discriminate L1].
    cbn [String.get] in L2. apply andb_true_iff in L2 as [E1 E2].
    apply Ascii.eqb_eq in E1, E2. subst h1 h2.
    exists d1, d2, m1, m2, m3, y1, y2. split; reflexivity.
Qed.

(** C8, counterexample.  Strings of the [__-___-__] shape are not passed
    through unchanged: one with an unknown month gives NULL, and one with
    letters in the day and year places is rearranged. *)
Theorem legacy_date_value_shape_not_unchanged :
  legacy_date_value (Some "05-Xyz-24") = None /\
  legacy_date_value (Some "ab-Jan-cd") = Some "20cd01ab".
Proof. split; reflexivity. Qed.

(** ** Error policy of the listing and search endpoints *)

#[export] Instance adv_bind_proper :
  Proper (eq ==> pointwise_relation adv_acc eq ==> eq) adv_bind.
Proof.
  intros e e' <- f g Hfg. destruct e as [m|a]; simpl; [reflexivity|apply Hfg].
Qed.

Lemma adv_bind_fails (e : string + adv_acc) (f : adv_acc -> string + adv_acc) :
  (forall acc, exists m, f acc = inl m) -> exists m, adv_bind e f = inl m.
Proof. intros H. destruct e as [m|a]; simpl; eauto. Qed.

Lemma adv_bind_fails_now (e : string + adv_acc) (f : adv_acc -> string + adv_acc) :
  (exists m, e = inl m) -> exists m, adv_bind e f = inl m.
Proof. intros [m ->]. simpl. eauto. Qed.

Lemma int_filter_fails (col v : string) (acc : adv_acc) :
  v <> "" -> py_int v = None -> exists m, int_filter col (Some v) acc = inl m.
Proof.
  intros Hv Hp. unfold int_filter, arg_val. simpl. rewrite Hp.
  destruct v; [congruence|]. simpl. eauto.
Qed.

Lemma weight_filter_drop (op v : string) (acc : adv_acc) :
  py_float v = None -> weight_filter op (Some v) acc = weight_filter op None acc.
Proof.
  intros Hp. unfold weight_filter, arg_val. rewrite Hp. destruct v; reflexivity.
Qed.

Lemma advanced_search_fails (page limit : Z) (a : adv_args) :
  (exists m, advanced_search_where a = inl m) ->
  exists m, advanced_search page limit a = Http500 m.
Proof. intros [m E]. unfold advanced_search. rewrite E. eauto. Qed.

(** C6.  What the endpoints do with missing or unparseable arguments: a
    blank free-text query and a missing filter column or value give HTTP
    400; in the advanced search an unparseable [min_weight] / [max_weight]
    is dropped (the result is that of the request without it), but a
    non-empty [id] or [number_of_boxes] that [int()] rejects makes the
    handler fail with HTTP 500 instead of dropping the predicate. *)
Theorem error_policy_int_fields_fail
  (now : datetime) (dparse : string -> option datetime) (page limit : Z) :
  (forall q df, py_strip (arg_val q) = "" ->
     search_shipments now dparse page limit q df = Http400 "query parameter is required") /\
  (forall column value df, truthy column = false \/ truthy value = false ->
     filter_shipments now dparse page limit column value df
     = Http400 "column and value parameters are required") /\
  (forall a v, py_float v = None ->
     advanced_search page limit (adv_set_min_weight a (Some v))
     = advanced_search page limit (adv_set_min_weight a None)) /\
  (forall a v, py_float v = None ->
     advanced_search page limit (adv_set_max_weight a (Some v))
     = advanced_search page limit (adv_set_max_weight a None)) /\
  (forall a v, a_id a = Some v -> v <> "" -> py_int v = None ->
     exists m, advanced_search page limit a = Http500 m) /\
  (forall a v, a_number_of_boxes a = Some v -> v <> "" -> py_int v = None ->
     exists m, advanced_search page limit a = Http500 m).
Proof.
  split; [|split; [|split; [|split; [|split]]]].
  - intros q df Hq. unfold search_shipments. unfold arg_val in Hq. rewrite Hq. reflexivity.
  - intros column value df H. unfold filter_shipments.
    destruct column as [col|]; [|reflexivity]. destruct value as [val|]; [|reflexivity].
    destruct H as [H|H]; rewrite H; [reflexivity|].
    destruct (negb (truthy (Some col))); reflexivity.
  - intros a v Hv. unfold advanced_search, advanced_search_where. cbn [a_min_weight adv_set_min_weight].
    setoid_rewrite (weight_filter_drop " >= %s" v _ Hv). reflexivity.
  - intros a v Hv. unfold advanced_search, advanced_search_where. cbn [a_max_weight adv_set_max_weight].
    setoid_rewrite (weight_filter_drop " <= %s" v _ Hv). reflexivity.
  - intros a v Ha Hv Hp. apply advanced_search_fails. unfold advanced_search_where.
    apply adv_bind_fails_now. rewrite Ha. apply int_filter_fails; assumption.
  - intros a v Ha Hv Hp. apply advanced_search_fails. unfold advanced_search_where.
    do 4 (apply adv_bind_fails; intros ?).
    apply adv_bind_fails_now. rewrite Ha. apply int_filter_fails; assumption.
Qed.

(** ** Ordering of the listing endpoints *)

Ltac split_lets :=
  repeat match goal with
         | |- context [match ?X with (_, _) => _ end] => destruct X
         end.

(** C4.  The order of the returned rows does not depend on a time
    constraint: [get_all_shipments] always ends its data statement with
    [ORDER BY id DESC], whether a preset date filter or a custom range is
    applied or not; [filter_shipments], [search_shipments] and
    [advanced_search] always order by the legacy-date expression
    descending, also when no time constraint is present. *)
Theorem listing_order_by
  (now : datetime) (dparse : string -> option datetime) (page limit : Z) :
  (forall df sd ed, exists cq ps w dps,
     get_all_shipments now dparse page limit df sd ed
     = Stmts cq ps ("SELECT * FROM shipments" ++ w ++ " ORDER BY id DESC LIMIT %s OFFSET %s") dps) /\
  (forall column value df,
     filter_shipments now dparse page limit column value df
     = Http400 "column and value parameters are required" \/
     exists cq ps w dps,
       filter_shipments now dparse page limit column value df
       = Stmts cq ps ("SELECT * FROM shipments" ++ w ++ " ORDER BY " ++ get_date_filter_sql
                      ++ " DESC LIMIT ? OFFSET ?") dps) /\
  (forall q df,
     search_shipments now dparse page limit q df = Http400 "query parameter is required" \/
     exists cq ps w dps,
       search_shipments now dparse page limit q df
       = Stmts cq ps (nl ++ "            SELECT * FROM shipments" ++ nl ++ "            " ++ w
                      ++ nl ++ "            ORDER BY " ++ get_date_filter_sql ++ " DESC" ++ nl
                      ++ "            LIMIT %s OFFSET %s" ++ nl ++ "        ") dps) /\
  (forall a,
     (exists m, advanced_search page limit a = Http500 m) \/
     exists cq ps w dps,
       advanced_search page limit a
       = Stmts cq ps ("SELECT * FROM shipments" ++ w ++ " ORDER BY " ++ get_date_filter_sql
                      ++ " DESC LIMIT %s OFFSET %s") dps).
Proof.
  split; [|split; [|split]].
  - intros df sd ed. unfold get_all_shipments. split_lets. eauto.
  - intros column value df. unfold filter_shipments.
    destruct column as [col|]; [|left; reflexivity]. destruct value as [val|]; [|left; reflexivity].
    destruct (negb (truthy (Some col)) || negb (truthy (Some val))); [left; reflexivity|right].
    split_lets. eauto.
  - intros q df. unfold search_shipments.
    destruct (String.eqb _ ""); [left; reflexivity|right]. split_lets. eauto.
  - intros a. unfold advanced_search.
    destruct (advanced_search_where a) as [m|[conds ps]]; [left; eauto|right]. eauto.
Qed.

(** C4 counterexample: [/api/shipments?date_filter=week] (on 2026-10-15)
    constrains the legacy date to the last seven days, yet the rows are
    ordered by [id DESC], not by the date expression. *)
Example get_all_shipments_week_orders_by_id :
  get_all_shipments now0 iso_parse 1 20 (Some "week") None None
  = Stmts ("SELECT COUNT(*) as total FROM shipments WHERE " ++ get_date_filter_sql ++ " >= %s AND "
           ++ get_date_filter_sql ++ " <= %s")
          [PStr "20261008"; PStr "20261015"]
          ("SELECT * FROM shipments WHERE " ++ get_date_filter_sql ++ " >= %s AND "
           ++ get_date_filter_sql ++ " <= %s ORDER BY id DESC LIMIT %s OFFSET %s")
          [PStr "20261008"; PStr "20261015"; PInt 20; PInt 0].
Proof. vm_compute. reflexivity. Qed.

(** ** Custom date ranges *)

Lemma aggregate_date_conditions_unused {A : Type} (x : list string * list param) (f : A) :
  (let '(_, _) := x in f) = f.
Proof. destruct x; reflexivity. Qed.

(** C5.  On the listing endpoint a valid custom range replaces the preset
    token's predicate; on the aggregate endpoints the statement (text,
    parameters and sample window) is the same with or without
    [start_date]/[end_date]: the range predicates they build are never
    used. *)
Theorem aggregate_custom_range_ignored
  (now : datetime) (dparse : string -> option datetime) :
  (forall page limit df s e,
     remove_dashes s <> "" -> remove_dashes e <> "" ->
     get_all_shipments now dparse page limit df (Some s) (Some e)
     = Stmts "SELECT COUNT(*) as total FROM shipments WHERE shipment_creation_date >= %s AND shipment_creation_date <= %s"
             [PStr (remove_dashes s); PStr (remove_dashes e)]
             "SELECT * FROM shipments WHERE shipment_creation_date >= %s AND shipment_creation_date <= %s ORDER BY id DESC LIMIT %s OFFSET %s"
             [PStr (remove_dashes s); PStr (remove_dashes e); PInt limit; PInt ((page - 1) * limit)]) /\
  (forall df sd ed limit,
     get_top_customers now dparse df sd ed limit = get_top_customers now dparse df None None limit /\
     aq_params (get_top_customers now dparse df sd ed limit) = [PInt limit]) /\
  (forall df sd ed limit,
     get_top_cities now dparse df sd ed limit = get_top_cities now dparse df None None limit /\
     aq_params (get_top_cities now dparse df sd ed limit) = [PInt limit]) /\
  (forall df sd ed,
     get_average_weight now dparse df sd ed = get_average_weight now dparse df None None /\
     aq_params (get_average_weight now dparse df sd ed) = []).
Proof.
  split; [|split; [|split]].
  - intros page limit df s e Hs He. unfold get_all_shipments.
    assert (Ts : truthy (Some s) = true) by (destruct s; [contradiction Hs; reflexivity|reflexivity]).
    assert (Te : truthy (Some e) = true) by (destruct e; [contradiction He; reflexivity|reflexivity]).
    rewrite Ts, Te. cbn [andb].
    unfold normalize_iso_to_yyyymmdd.
    destruct s as [|c s]; [contradiction Hs; reflexivity|].
    destruct e as [|d e]; [contradiction He; reflexivity|].
    unfold truthy_opt, truthy.
    destruct (remove_dashes (String c s)) as [|c' s'] eqn:Rs; [contradiction|].
    destruct (remove_dashes (String d e)) as [|d' e'] eqn:Re; [contradiction|].
    cbn [andb]. split_lets. reflexivity.
  - intros df sd ed limit. unfold get_top_customers.
    rewrite !aggregate_date_conditions_unused.
    split; [reflexivity|destruct (named_filter df); reflexivity].
  - intros df sd ed limit. unfold get_top_cities.
    rewrite !aggregate_date_conditions_unused.
    split; [reflexivity|destruct (named_filter _); reflexivity].
  - intros df sd ed. unfold get_average_weight.
    rewrite !aggregate_date_conditions_unused.
    split; [reflexivity|destruct (named_filter df); reflexivity].
Qed.

(** ** Values reach the statements as parameters *)


Lemma add_cond_fst c ps1 ps2 acc1 acc2 :
  fst acc1 = fst acc2 -> fst (add_cond c ps1 acc1) = fst (add_cond c ps2 acc2).
Proof. unfold add_cond. simpl. intros ->. reflexivity. Qed.







Lemma str_app_assoc (a b c : string) : (a ++ b) ++ c = a ++ (b ++ c).
Proof. induction a as [|x a IH]; simpl; [reflexivity|rewrite IH; reflexivity]. Qed.



(** ** Sampling windows of the aggregate endpoints *)

Lemma insert_id_desc_perm (r : shipment) (l : list shipment) :
  Permutation (insert_id_desc r l) (r :: l).
Proof.
  induction l as [|x l IH]; simpl; [reflexivity|].
  destruct (s_id x <=? s_id r); [reflexivity|].
  eapply perm_trans; [apply perm_skip; exact IH|apply perm_swap].
Qed.

Lemma sort_id_desc_perm (l : list shipment) : Permutation (sort_id_desc l) l.
Proof.
  induction l as [|x l IH]; simpl; [reflexivity|].
  eapply perm_trans; [apply insert_id_desc_perm|apply perm_skip; exact IH].
Qed.

Lemma insert_id_desc_sorted (r : shipment) (l : list shipment) :
  StronglySorted (fun a b => s_id b <= s_id a) l ->
  StronglySorted (fun a b => s_id b <= s_id a) (insert_id_desc r l).
Proof.
  induction 1 as [|x l Hs IH Hf]; simpl.
  - repeat constructor.
  - destruct (s_id x <=? s_id r) eqn:E.
    + apply Z.leb_le in E. constructor; [constructor; assumption|].
      constructor; [exact E|]. eapply Forall_impl; [|exact Hf]. intros y Hy. cbv beta in *. lia.
    + apply Z.leb_gt in E. constructor; [exact IH|].
      apply Forall_forall. intros y Hy.
      apply (Permutation_in _ (insert_id_desc_perm r l)) in Hy.
      destruct Hy as [<-|Hy]; [lia|]. rewrite Forall_forall in Hf. apply Hf, Hy.
Qed.

Lemma sort_id_desc_sorted (l : list shipment) :
  StronglySorted (fun a b => s_id b <= s_id a) (sort_id_desc l).
Proof.
  induction l as [|x l IH]; simpl; [constructor|]. apply insert_id_desc_sorted, IH.
Qed.

Lemma in_sort_id_desc (r : shipment) (l : list shipment) : In r (sort_id_desc l) <-> In r l.
Proof.
  split; apply Permutation_in; [apply sort_id_desc_perm|symmetry; apply sort_id_desc_perm].
Qed.

Lemma max_id_none (t : list shipment) : max_id t = None -> t = [].
Proof. destruct t as [|x t]; simpl; [reflexivity|]. destruct (max_id t); discriminate. Qed.

Lemma max_id_spec (t : list shipment) (m : Z) :
  max_id t = Some m -> (exists r, In r t /\ s_id r = m) /\ (forall r, In r t -> s_id r <= m).
Proof.
  revert m. induction t as [|x t IH]; simpl; intros m H; [discriminate H|].
  destruct (max_id t) as [m'|] eqn:E; injection H as <-.
  - specialize (IH m' eq_refl) as [[r [Hr Er]] Hle]. split.
    + destruct (Z.max_spec (s_id x) m') as [[_ ->]|[_ ->]]; eauto.
    + intros r0 [<-|Hr0]; [lia|]. specialize (Hle r0 Hr0). lia.
  - apply max_id_none in E. subst t. split; [eauto|]. intros r0 [<-|[]]. lia.
Qed.

Lemma nodup_window_length (l : list Z) (lo n : Z) :
  NoDup l -> (forall x, In x l -> lo < x <= lo + n) -> (length l <= Z.to_nat n)%nat.
Proof.
  intros Hnd Hr.
  set (f := fun x => Z.to_nat (x - lo - 1)).
  assert (Hnd' : NoDup (map f l)).
  { apply NoDup_map_NoDup_ForallPairs; [|exact Hnd].
    intros x y Hx Hy E. unfold f in E.
    pose proof (Hr x Hx). pose proof (Hr y Hy). lia. }
  rewrite <- (length_map f l).
  replace (Z.to_nat n) with (length (seq 0 (Z.to_nat n))) by apply length_seq.
  apply NoDup_incl_length; [exact Hnd'|].
  intros y Hy. apply in_map_iff in Hy as [x [<- Hx]]. apply in_seq.
  pose proof (Hr x Hx). unfold f. lia.
Qed.

Lemma nodup_map_filter (f : shipment -> Z) (p : shipment -> bool) (l : list shipment) :
  NoDup (map f l) -> NoDup (map f (filter p l)).
Proof.
  induction l as [|a l IH]; simpl; intros H; [constructor|].
  inversion H as [|? ? Hn Hnd]; subst.
  destruct (p a); simpl; [constructor|]; auto.
  intros Hin. apply Hn. apply in_map_iff in Hin as [y [Ey Hy]].
  apply filter_In in Hy as [Hy _]. apply in_map_iff. eauto.
Qed.

Lemma sorted_app_before (R : shipment -> shipment -> Prop) (A B : list shipment) a b :
  StronglySorted R (A ++ B) -> In a A -> In b B -> R a b.
Proof.
  induction A as [|x A IH]; simpl; intros Hs Ha Hb; [contradiction|].
  apply StronglySorted_inv in Hs as [Hs Hf].
  destruct Ha as [<-|Ha]; [|apply IH; assumption].
  rewrite Forall_forall in Hf. apply Hf, in_or_app. right. exact Hb.
Qed.

Lemma nodup_app_disjoint (A B : list Z) x : NoDup (A ++ B) -> In x A -> In x B -> False.
Proof.
  induction A as [|y A IH]; simpl; intros Hnd Ha Hb; [contradiction|].
  inversion Hnd as [|? ? Hn Hnd']; subst.
  destruct Ha as [<-|Ha]; [apply Hn, in_or_app; right; exact Hb|].
  apply (IH Hnd' Ha Hb).
Qed.

Lemma aggregate_window_token (df : option string) :
  (if named_filter df then IdWindow (sample_size_for (arg_val df)) else RecentLimit 100000)
  = bucket_window df.
Proof.
  destruct df as [d|]; [|reflexivity]. destruct d as [|c d]; [reflexivity|].
  unfold named_filter, bucket_window, arg_val, sample_size_for.
  assert (E0 : String.eqb (String c d) "" = false) by reflexivity. rewrite E0.
  cbn [truthy andb orb].
  destruct (String.eqb (String c d) "total"); cbn [negb]; [reflexivity|].
  destruct (String.eqb (String c d) "today"); [reflexivity|].
  destruct (String.eqb (String c d) "week"); [reflexivity|].
  destruct (String.eqb (String c d) "month"); [reflexivity|].
  destruct (String.eqb (String c d) "year"); reflexivity.
Qed.

(** C2.  The aggregate endpoints (top customers, average weight, top
    cities) pick their sample window from the [date_filter] token as in
    [bucket_window], top cities reading a missing token as ['month'].  On a
    table with distinct ids: an [IdWindow n] sample holds exactly the
    matching rows whose id is within [n] of [MAX(id)], so at most [n] rows;
    a [RecentLimit n] sample holds at most [n] matching rows, and a matching
    row is left out only when the sample is full of rows with higher ids. *)
Theorem aggregate_sample_bounds
  (now : datetime) (dparse : string -> option datetime)
  (sd ed : option string) (limit : Z) (t : list shipment) :
  NoDup (map s_id t) ->
  (forall df, aq_window (get_top_customers now dparse df sd ed limit) = bucket_window df) /\
  (forall df, aq_window (get_average_weight now dparse df sd ed) = bucket_window df) /\
  (forall df, aq_window (get_top_cities now dparse df sd ed limit)
              = bucket_window (match df with None => Some "month" | _ => df end)) /\
  (forall m, max_id t = Some m ->
     (exists r, In r t /\ s_id r = m) /\ (forall r, In r t -> s_id r <= m)) /\
  (forall pred n r,
     In r (sample_shipments pred (IdWindow n) t) <->
     In r t /\ pred r = true /\ exists m, max_id t = Some m /\ m - n < s_id r) /\
  (forall pred n, (length (sample_shipments pred (IdWindow n) t) <= Z.to_nat n)%nat) /\
  (forall pred n, (length (sample_shipments pred (RecentLimit n) t) <= Z.to_nat n)%nat) /\
  (forall pred n r, In r (sample_shipments pred (RecentLimit n) t) -> In r t /\ pred r = true) /\
  (forall pred n r, In r t -> pred r = true -> ~ In r (sample_shipments pred (RecentLimit n) t) ->
     length (sample_shipments pred (RecentLimit n) t) = Z.to_nat n /\
     (forall r', In r' (sample_shipments pred (RecentLimit n) t) -> s_id r < s_id r')).
Proof.
  intros Hnd.
  split; [|split; [|split; [|split; [|split; [|split; [|split; [|split]]]]]]].
  - intros df. rewrite <- aggregate_window_token. unfold get_top_customers.
    rewrite aggregate_date_conditions_unused. destruct (named_filter df); reflexivity.
  - intros df. rewrite <- aggregate_window_token. unfold get_average_weight.
    rewrite aggregate_date_conditions_unused. destruct (named_filter df); reflexivity.
  - intros df. rewrite <- aggregate_window_token. unfold get_top_cities.
    rewrite aggregate_date_conditions_unused.
    destruct df as [d|]; destruct (named_filter _); reflexivity.
  - apply max_id_spec.
  - intros pred n r. unfold sample_shipments.
    destruct (max_id t) as [m|] eqn:Em.
    + rewrite in_sort_id_desc, filter_In, andb_true_iff, Z.ltb_lt.
      split.
      * intros [Hr [Hlt Hp]]. eauto.
      * intros [Hr [Hp [m' [Em' Hlt]]]]. injection Em' as <-. auto.
    + split; [intros []|]. intros [_ [_ [m' [E _]]]]. discriminate E.
  - intros pred n. unfold sample_shipments.
    destruct (max_id t) as [m|] eqn:Em; [|simpl; lia].
    rewrite <- (length_map s_id).
    apply (nodup_window_length _ (m - n)).
    + eapply Permutation_NoDup; [apply Permutation_map; symmetry; apply sort_id_desc_perm|].
      apply nodup_map_filter, Hnd.
    + intros x Hx. apply in_map_iff in Hx as [r [<- Hr]].
      apply (Permutation_in _ (sort_id_desc_perm _)), filter_In in Hr as [Hr Hq].
      apply andb_true_iff in Hq as [Hq _]. apply Z.ltb_lt in Hq.
      pose proof (proj2 (max_id_spec t m Em) r Hr). lia.
  - intros pred n. apply firstn_le_length.
  - intros pred n r Hr. unfold sample_shipments in Hr.
    assert (Hin : In r (sort_id_desc (filter pred t))).
    { rewrite <- (firstn_skipn (Z.to_nat n) (sort_id_desc (filter pred t))).
      apply in_or_app. left. exact Hr. }
    apply (Permutation_in _ (sort_id_desc_perm _)), filter_In in Hin. exact Hin.
  - intros pred n r Hr Hp Hn. unfold sample_shipments in *.
    set (L := sort_id_desc (filter pred t)) in *.
    assert (HL : In r L).
    { apply (Permutation_in _ (symmetry (sort_id_desc_perm _))), filter_In. auto. }
    rewrite <- (firstn_skipn (Z.to_nat n) L) in HL.
    apply in_app_or in HL as [HL|HL]; [contradiction|].
    split.
    + rewrite length_firstn. apply Nat.min_l.
      pose proof (firstn_skipn (Z.to_nat n) L) as E.
      apply (f_equal (@length shipment)) in E. rewrite length_app, length_firstn in E.
      destruct (skipn (Z.to_nat n) L) as [|y ys]; [contradiction|]. simpl in E. lia.
    + intros r' Hr'.
      assert (Hs := sort_id_desc_sorted (filter pred t)). fold L in Hs.
      rewrite <- (firstn_skipn (Z.to_nat n) L) in Hs.
      pose proof (sorted_app_before _ _ _ r' r Hs Hr' HL) as Hle. cbv beta in Hle.
      assert (Hnd' : NoDup (map s_id (firstn (Z.to_nat n) L ++ skipn (Z.to_nat n) L))).
      { rewrite firstn_skipn. unfold L.
        eapply Permutation_NoDup; [apply Permutation_map; symmetry; apply sort_id_desc_perm|].
        apply nodup_map_filter, Hnd. }
      rewrite map_app in Hnd'.
      destruct (Z.eq_dec (s_id r) (s_id r')) as [E|E]; [|lia].
      exfalso. apply (nodup_app_disjoint _ _ (s_id r) Hnd').
      * rewrite E. apply in_map, Hr'.
      * apply in_map, HL.
Qed.

Lemma aggregate_sample_bounds_witness :
  NoDup (map s_id sample_table) /\
  (length (sample_shipments top_cities_pred (RecentLimit 1) sample_table) <= 1)%nat.
Proof.
  assert (H : NoDup (map s_id sample_table)).
  { cbn. repeat constructor; cbn; intuition discriminate. }
  split; [exact H|].
  exact (proj1 (proj2 (proj2 (proj2 (proj2 (proj2 (proj2
          (aggregate_sample_bounds now0 iso_parse None None 10 sample_table H)))))))
          top_cities_pred 1).
Defined.

(** C2 counterexample: [/api/cities/top] without a [date_filter] samples
    the rows with id within 720,000 of [MAX(id)] (the 'month' bucket), not
    the 100,000 most recent rows. *)
Example top_cities_no_token_month_window :
  aq_window (get_top_cities now0 iso_parse None None None 10) = IdWindow 720000 /\
  aq_sql (get_top_cities now0 iso_parse None None None 10) = cities_sample_sql 720000.
Proof. split; reflexivity. Qed.


(** ** [parse_date_filter] on concrete inputs *)

Example pdf_week : parse_date_filter now0 iso_parse (Some "Week") = Some ("20261008", "20261015").
Proof. reflexivity. Qed.
Example pdf_today : parse_date_filter now0 iso_parse (Some "today") = Some ("20261015", "20261015").
Proof. reflexivity. Qed.
Example pdf_year : parse_date_filter now0 iso_parse (Some "YEAR") = Some ("20251015", "20261015").
Proof. reflexivity. Qed.
Example pdf_lit : parse_date_filter now0 iso_parse (Some "2024-02-29") = Some ("20240229", "20240301").
Proof. reflexivity. Qed.
Example pdf_max : parse_date_filter now0 iso_parse (Some "9999-12-31") = None.
Proof. reflexivity. Qed.

(** ** Parameter binding, custom reports, saved searches and text helpers *)

Lemma pyformat_count_app : forall a b n,
  pyformat_count a = Some n ->
  pyformat_count (a ++ b) = option_map (Nat.add n) (pyformat_count b).
Proof.
  fix IH 1. intros a b n H. destruct a as [|c r].
  - simpl in H. injection H as <-. simpl. destruct (pyformat_count b); reflexivity.
  - simpl in H |- *. destruct (Ascii.eqb c "%") eqn:Ec.
    + destruct r as [|d r']; [discriminate|]. simpl.
      destruct (Ascii.eqb d "s").
      * destruct (pyformat_count r') eqn:E; simpl in H; [|discriminate].
        injection H as <-. rewrite (IH r' b n0 E). destruct (pyformat_count b); reflexivity.
      * destruct (Ascii.eqb d "%"); [|discriminate]. apply IH; assumption.
    + apply IH; assumption.
Qed.

Lemma convert_app (a b : string) :
  convert_sqlite_to_postgresql (a ++ b)
  = convert_sqlite_to_postgresql a ++ convert_sqlite_to_postgresql b.
Proof.
  induction a as [|c r IH]; simpl; [reflexivity|].
  destruct (Ascii.eqb c "?"); simpl; rewrite IH; reflexivity.
Qed.

Lemma placeholders_app (a b : string) (n : nat) :
  pyformat_count (convert_sqlite_to_postgresql a) = Some n ->
  pyformat_count (convert_sqlite_to_postgresql (a ++ b))
  = option_map (Nat.add n) (pyformat_count (convert_sqlite_to_postgresql b)).
Proof. intros H. rewrite convert_app. apply pyformat_count_app, H. Qed.

Lemma date_sql_placeholders :
  pyformat_count (convert_sqlite_to_postgresql get_date_filter_sql) = Some O.
Proof. vm_compute. reflexivity. Qed.

Lemma weight_sql_placeholders :
  pyformat_count (convert_sqlite_to_postgresql weight_parsing_sql_text) = Some O.
Proof. vm_compute. reflexivity. Qed.

Lemma cod_sql_placeholders :
  pyformat_count (convert_sqlite_to_postgresql cod_parsing_sql_text) = Some O.
Proof. vm_compute. reflexivity. Qed.


Lemma column_placeholders (col : string) :
  str_existsb (fun c => Ascii.eqb c "%"%char) col = false ->
  exists n, pyformat_count (convert_sqlite_to_postgresql col) = Some n /\
            (n = O <-> str_existsb (fun c => Ascii.eqb c "?"%char) col = false).
Proof.
  induction col as [|c r IH]; simpl; intros H.
  - exists O. split; [reflexivity|tauto].
  - apply orb_false_iff in H as [Hc Hr]. destruct (IH Hr) as [n [En Hn]].
    destruct (Ascii.eqb c "?") eqn:Eq; cbn [orb].
    + exists (S n). simpl. rewrite En. split; [reflexivity|split; discriminate].
    + exists n. simpl. rewrite Hc. split; [exact En|exact Hn].
Qed.

Ltac placeholder_piece :=
  lazymatch goal with
  | |- pyformat_count (convert_sqlite_to_postgresql get_date_filter_sql) = _ =>
      apply date_sql_placeholders
  | |- pyformat_count (convert_sqlite_to_postgresql weight_parsing_sql_text) = _ =>
      apply weight_sql_placeholders
  | |- pyformat_count (convert_sqlite_to_postgresql cod_parsing_sql_text) = _ =>
      apply cod_sql_placeholders
  | |- pyformat_count (convert_sqlite_to_postgresql ?x) = _ =>
      first [is_var x; eassumption | reflexivity]
  end.

Ltac reassoc :=
  repeat match goal with
         | |- context [((?a ++ ?b) ++ ?c)%string] => rewrite (str_app_assoc a b c)
         end.

Ltac eval_pieces :=
  repeat match goal with
         | |- context [pyformat_count (convert_sqlite_to_postgresql ?x)] =>
             let v := eval vm_compute in (pyformat_count (convert_sqlite_to_postgresql x)) in
             change (pyformat_count (convert_sqlite_to_postgresql x)) with v
         end;
  cbn [option_map].

Ltac count_placeholders :=
  reassoc;
  repeat match goal with
         | |- context [pyformat_count (convert_sqlite_to_postgresql (?a ++ ?b))] =>
             erewrite (placeholders_app a b) by placeholder_piece
         end;
  repeat match goal with
         | H : pyformat_count (convert_sqlite_to_postgresql ?x) = _
           |- context [pyformat_count (convert_sqlite_to_postgresql ?x)] => is_var x; rewrite H
         end;
  eval_pieces.

Lemma Stmts_inj a b c d a' b' c' d' :
  Stmts a b c d = Stmts a' b' c' d' -> a = a' /\ b = b' /\ c = c' /\ d = d'.
Proof. intros H. injection H. auto. Qed.

(** X1.  [filter_shipments] binds its parameters in both statements exactly
    when the [column] argument has no '?': every '?' of the column becomes
    one more [%s] after [convert_sqlite_to_postgresql], so psycopg2 then
    gets more placeholders than parameters (for a column without '%'). *)
Theorem filter_shipments_binds (now : datetime) (dparse : string -> option datetime)
  (page limit : Z) (col : string) (value date_filter : option string)
  (cq dq : string) (cps dps : list param) :
  str_existsb (fun c => Ascii.eqb c "%"%char) col = false ->
  filter_shipments now dparse page limit (Some col) value date_filter = Stmts cq cps dq dps ->
  (execute_query_binds cq cps && execute_query_binds dq dps = true
   <-> str_existsb (fun c => Ascii.eqb c "?"%char) col = false).
Proof.
  intros Hpct Hr. destruct (column_placeholders col Hpct) as [n [En Hn]].
  unfold filter_shipments in Hr. destruct value as [v|]; [|discriminate].
  destruct (negb (truthy (Some col)) || negb (truthy (Some v))); [discriminate|].
  destruct (named_filter date_filter);
    [destruct (parse_date_filter now dparse date_filter) as [[s e]|]|];
    apply Stmts_inj in Hr as (<- & <- & <- & <-); unfold execute_query_binds;
    cbn [List.app List.length]; count_placeholders;
    rewrite andb_true_iff, !Nat.eqb_eq, <- Hn; lia.
Qed.

Lemma concat_placeholders (sep : string) (l : list string) (k : nat) :
  pyformat_count (convert_sqlite_to_postgresql sep) = Some O ->
  conds_placeholders l = Some k ->
  pyformat_count (convert_sqlite_to_postgresql (String.concat sep l)) = Some k.
Proof.
  intros Hs. revert k. induction l as [|c r IH]; intros k Hl.
  - simpl in Hl. injection Hl as <-. reflexivity.
  - simpl in Hl. destruct (pyformat_count (convert_sqlite_to_postgresql c)) as [a|] eqn:Ea; [|discriminate].
    destruct (conds_placeholders r) as [b|] eqn:Eb; [|discriminate]. injection Hl as <-.
    destruct r as [|d r'].
    + simpl in Eb. injection Eb as <-. cbn [String.concat]. rewrite Ea. f_equal. lia.
    + change (String.concat sep (c :: d :: r')) with (c ++ sep ++ String.concat sep (d :: r')).
      rewrite (placeholders_app c _ a Ea), (placeholders_app sep _ O Hs), (IH b eq_refl).
      reflexivity.
Qed.

Lemma conds_placeholders_app (l : list string) (c : string) (a b : nat) :
  conds_placeholders l = Some a ->
  pyformat_count (convert_sqlite_to_postgresql c) = Some b ->
  conds_placeholders (l ++ [c])%list = Some (a + b)%nat.
Proof.
  revert a. induction l as [|x r IH]; intros a Hl Hc; simpl in *.
  - injection Hl as <-. rewrite Hc. f_equal. lia.
  - destruct (pyformat_count (convert_sqlite_to_postgresql x)) as [p|]; [|discriminate].
    destruct (conds_placeholders r) as [q|]; [|discriminate]. injection Hl as <-.
    rewrite (IH q eq_refl Hc). f_equal. lia.
Qed.

Lemma add_cond_placeholders (c : string) (ps : list param) (acc : adv_acc) :
  pyformat_count (convert_sqlite_to_postgresql c) = Some (length ps) ->
  acc_placeholders_ok acc -> acc_placeholders_ok (add_cond c ps acc).
Proof.
  unfold acc_placeholders_ok, add_cond. cbn [fst snd]. intros Hc Ha.
  rewrite (conds_placeholders_app _ _ _ _ Ha Hc), length_app. reflexivity.
Qed.

Lemma adv_bind_placeholders (r : string + adv_acc) (f : adv_acc -> string + adv_acc) (a' : adv_acc) :
  (forall x, r = inr x -> acc_placeholders_ok x) ->
  (forall x y, acc_placeholders_ok x -> f x = inr y -> acc_placeholders_ok y) ->
  adv_bind r f = inr a' -> acc_placeholders_ok a'.
Proof.
  destruct r as [m|x]; simpl; intros Hr Hf E; [discriminate|]. exact (Hf x a' (Hr x eq_refl) E).
Qed.

Ltac cond_text := vm_compute; reflexivity.

Lemma like_filter_placeholders col f acc acc' :
  pyformat_count (convert_sqlite_to_postgresql (col ++ " LIKE %s")) = Some 1%nat ->
  acc_placeholders_ok acc -> like_filter col f acc = inr acc' -> acc_placeholders_ok acc'.
Proof.
  unfold like_filter. intros Hc Ha E. destruct (truthy f); injection E as <-; [|exact Ha].
  apply add_cond_placeholders; [exact Hc|exact Ha].
Qed.

Lemma int_filter_placeholders col f acc acc' :
  pyformat_count (convert_sqlite_to_postgresql (col ++ " = %s")) = Some 1%nat ->
  acc_placeholders_ok acc -> int_filter col f acc = inr acc' -> acc_placeholders_ok acc'.
Proof.
  unfold int_filter. intros Hc Ha E. destruct (truthy f); [|injection E as <-; exact Ha].
  destruct (py_int (arg_val f)); [|discriminate]. injection E as <-.
  apply add_cond_placeholders; [exact Hc|exact Ha].
Qed.

Lemma plain_filter_placeholders cond f acc acc' :
  pyformat_count (convert_sqlite_to_postgresql cond) = Some 1%nat ->
  acc_placeholders_ok acc -> plain_filter cond f acc = inr acc' -> acc_placeholders_ok acc'.
Proof.
  unfold plain_filter. intros Hc Ha E. destruct (truthy f); injection E as <-; [|exact Ha].
  apply add_cond_placeholders; [exact Hc|exact Ha].
Qed.

Lemma weight_filter_placeholders op f acc acc' :
  pyformat_count (convert_sqlite_to_postgresql (weight_parsing_sql_text ++ op)) = Some 1%nat ->
  acc_placeholders_ok acc -> weight_filter op f acc = inr acc' -> acc_placeholders_ok acc'.
Proof.
  unfold weight_filter. intros Hc Ha E. destruct (truthy f); [|injection E as <-; exact Ha].
  destruct (py_float (arg_val f)); injection E as <-; [|exact Ha].
  apply add_cond_placeholders; [exact Hc|exact Ha].
Qed.

Lemma cod_filter_placeholders f acc acc' :
  acc_placeholders_ok acc -> cod_filter f acc = inr acc' -> acc_placeholders_ok acc'.
Proof.
  unfold cod_filter. intros Ha E. destruct (truthy f); [|injection E as <-; exact Ha].
  destruct (String.eqb (py_lower (arg_val f)) "yes");
    [|destruct (String.eqb (py_lower (arg_val f)) "no")]; injection E as <-; try exact Ha;
    apply add_cond_placeholders; try exact Ha; cond_text.
Qed.

Ltac adv_filter_step :=
  first [ apply like_filter_placeholders; [cond_text | assumption]
        | apply int_filter_placeholders; [cond_text | assumption]
        | apply plain_filter_placeholders; [cond_text | assumption]
        | apply weight_filter_placeholders; [cond_text | assumption]
        | apply cod_filter_placeholders; assumption ].

Lemma advanced_search_where_placeholders (a : adv_args) (acc : adv_acc) :
  advanced_search_where a = inr acc -> acc_placeholders_ok acc.
Proof.
  unfold advanced_search_where.
  assert (H0 : acc_placeholders_ok ([], [])) by reflexivity. revert H0.
  generalize (@nil string, @nil param). intros acc0 H0.
  repeat (apply adv_bind_placeholders; [intros ?; adv_filter_step | intros ? ? ?]).
  adv_filter_step.
Qed.

Ltac finish_binds :=
  cbn [List.app List.length];
  rewrite ?length_app; cbn [List.length];
  repeat (rewrite ?andb_true_iff; split);
  rewrite ?Nat.eqb_eq; try reflexivity; try lia.

(** X2.  The count and data statements of [get_all_shipments],
    [search_shipments] and [advanced_search] always have one [%s] per
    parameter and no other '%' directive, so [execute_query] can bind
    them, whatever the arguments. *)
Theorem listing_statements_bind (now : datetime) (dparse : string -> option datetime) :
  (forall page limit date_filter start_date end_date,
     endpoint_binds (get_all_shipments now dparse page limit date_filter start_date end_date) = true) /\
  (forall page limit query date_filter,
     endpoint_binds (search_shipments now dparse page limit query date_filter) = true) /\
  (forall page limit a, endpoint_binds (advanced_search page limit a) = true).
Proof.
  split; [|split].
  - intros page limit df sd ed. unfold get_all_shipments.
    destruct (named_filter df); [destruct (parse_date_filter now dparse df) as [[s e]|]|];
      (destruct (truthy sd && truthy ed);
       [destruct (truthy_opt (normalize_iso_to_yyyymmdd sd) && truthy_opt (normalize_iso_to_yyyymmdd ed))|]);
      cbn [endpoint_binds]; unfold execute_query_binds; cbn [List.app]; count_placeholders; finish_binds.
  - intros page limit q df. unfold search_shipments.
    destruct (String.eqb (py_strip _) ""); [reflexivity|].
    destruct (named_filter df); [destruct (parse_date_filter now dparse df) as [[s e]|]|];
      cbn [endpoint_binds String.concat List.app]; unfold execute_query_binds;
      count_placeholders; finish_binds.
  - intros page limit a. unfold advanced_search.
    destruct (advanced_search_where a) as [m|[conds ps]] eqn:E; [reflexivity|].
    apply advanced_search_where_placeholders in E. unfold acc_placeholders_ok in E.
    cbn [fst snd] in E. destruct conds as [|c cs].
    + cbn in E. injection E as E. destruct ps; [|discriminate].
      cbn [endpoint_binds]; unfold execute_query_binds; reflexivity.
    + pose proof (concat_placeholders " AND " (c :: cs) _ eq_refl E) as Hw.
      remember (String.concat " AND " (c :: cs)) as w eqn:Ew. clear Ew.
      cbn [endpoint_binds]; unfold execute_query_binds.
      cbn [List.length] in Hw. destruct ps as [|p ps];
        cbn [List.app]; count_placeholders; finish_binds.
Qed.

(** X3.  The one statement run by [get_recent_shipments],
    [get_shipments_by_city], [get_shipments_by_weight],
    [get_shipments_by_shipper] and [get_shipments_by_consignee] always has
    one placeholder per parameter after the '?' to [%s] conversion. *)
Theorem single_statements_bind (now : datetime) (dparse : string -> option datetime) :
  (forall limit_arg date_filter start_date end_date,
     query_binds (get_recent_shipments limit_arg date_filter start_date end_date) = true) /\
  (forall date_filter limit_arg,
     query_binds (get_shipments_by_city now dparse date_filter limit_arg) = true) /\
  (forall min_weight date_filter limit_arg,
     query_binds (get_shipments_by_weight now dparse min_weight date_filter limit_arg) = true) /\
  (forall name date_filter limit_arg,
     query_binds (get_shipments_by_shipper now dparse name date_filter limit_arg) = true) /\
  (forall name date_filter limit_arg,
     query_binds (get_shipments_by_consignee now dparse name date_filter limit_arg) = true).
Proof.
  split; [|split; [|split; [|split]]].
  - intros l df sd ed. unfold get_recent_shipments.
    destruct (int_arg l 20) as [m|lim]; [reflexivity|].
    destruct (named_filter df); [|vm_compute; reflexivity].
    unfold sample_size_for.
    repeat match goal with |- context [if String.eqb ?a ?b then _ else _] => destruct (String.eqb a b) end;
      vm_compute; reflexivity.
  - intros df l. unfold get_shipments_by_city.
    destruct (int_arg l 20) as [m|lim]; [reflexivity|].
    destruct (parse_date_filter now dparse _) as [[s e]|]; cbn [query_binds];
      unfold by_city_sql, execute_query_binds; cbn [List.app]; count_placeholders; finish_binds.
  - intros mw df l. unfold get_shipments_by_weight.
    destruct (float_arg0 mw) as [m|w]; [reflexivity|].
    destruct (int_arg l 50) as [m|lim]; [reflexivity|].
    unfold listing_date_conditions.
    destruct (named_filter df); [destruct (parse_date_filter now dparse df) as [[s e]|]|];
      cbn [query_binds String.concat List.app]; unfold execute_query_binds;
      count_placeholders; finish_binds.
  - intros nm df l. unfold get_shipments_by_shipper, shipments_by_name.
    destruct (int_arg l 50) as [m|lim]; [reflexivity|].
    destruct (negb (truthy nm)); [reflexivity|].
    unfold listing_date_conditions.
    destruct (named_filter df); [destruct (parse_date_filter now dparse df) as [[s e]|]|];
      cbn [query_binds String.concat List.app]; unfold execute_query_binds;
      count_placeholders; finish_binds.
  - intros nm df l. unfold get_shipments_by_consignee, shipments_by_name.
    destruct (int_arg l 50) as [m|lim]; [reflexivity|].
    destruct (negb (truthy nm)); [reflexivity|].
    unfold listing_date_conditions.
    destruct (named_filter df); [destruct (parse_date_filter now dparse df) as [[s e]|]|];
      cbn [query_binds String.concat List.app]; unfold execute_query_binds;
      count_placeholders; finish_binds.
Qed.

Lemma convert_no_qmark (s : string) :
  str_existsb (fun c => Ascii.eqb c "?"%char) s = false -> convert_sqlite_to_postgresql s = s.
Proof.
  induction s as [|c r IH]; simpl; [reflexivity|].
  intros H. apply orb_false_iff in H as [Hc Hr]. rewrite Hc, (IH Hr). reflexivity.
Qed.

Lemma convert_concat (sep : string) (l : list string) :
  convert_sqlite_to_postgresql sep = sep ->
  Forall (fun c => convert_sqlite_to_postgresql c = c) l ->
  convert_sqlite_to_postgresql (String.concat sep l) = String.concat sep l.
Proof.
  intros Hs Hl. induction Hl as [|c r Hc Hr IH]; [reflexivity|].
  destruct r as [|d r']; [exact Hc|].
  change (String.concat sep (c :: d :: r')) with (c ++ sep ++ String.concat sep (d :: r')).
  rewrite !convert_app, Hc, Hs, IH. reflexivity.
Qed.

Lemma add_report_cond (c : string) (ps : list param) (w : list string) (p : list param) :
  pyformat_count (convert_sqlite_to_postgresql c) = Some (length ps) ->
  convert_sqlite_to_postgresql c = c ->
  conds_placeholders w = Some (length p) ->
  Forall (fun c => convert_sqlite_to_postgresql c = c) w ->
  conds_placeholders (w ++ [c])%list = Some (length (p ++ ps)%list) /\
  Forall (fun c => convert_sqlite_to_postgresql c = c) (w ++ [c])%list.
Proof.
  intros Hc Hf Hw Hwf. split.
  - rewrite (conds_placeholders_app _ _ _ _ Hw Hc), length_app. reflexivity.
  - apply Forall_app. split; [exact Hwf|]. constructor; [exact Hf|constructor].
Qed.

Lemma filter_step_placeholders (kv : string * string) (w : list string) (p : list param) acc' :
  conds_placeholders w = Some (length p) ->
  Forall (fun c => convert_sqlite_to_postgresql c = c) w ->
  filter_step (Some (w, p)) kv = Some acc' ->
  conds_placeholders (fst acc') = Some (length (snd acc')) /\
  Forall (fun c => convert_sqlite_to_postgresql c = c) (fst acc').
Proof.
  destruct kv as [k v]. unfold filter_step. intros Hw Hwf E.
  destruct (negb (String.eqb k "date_filter") && negb (String.eqb v ""));
    [|injection E as <-; split; assumption].
  destruct (existsb (String.eqb k) ["shipper_name"; "shipper_city"; "consignee_name"; "consignee_city"]) eqn:Ek.
  - apply existsb_exists in Ek as [x [Hin Hx]]. apply String.eqb_eq in Hx. subst x.
    injection E as <-. cbn [fst snd].
    cbn [In] in Hin; destruct Hin as [<-|[<-|[<-|[<-|[]]]]];
      apply add_report_cond; try assumption; cond_text.
  - destruct (String.eqb k "min_weight");
      [|destruct (String.eqb k "max_weight"); [|injection E as <-; split; assumption]];
      (destruct (py_float v); [|discriminate]); injection E as <-; cbn [fst snd];
      apply add_report_cond; try assumption; cond_text.
Qed.

Lemma fold_filter_step_placeholders (l : list (string * string)) (w : list string) (p : list param) acc' :
  conds_placeholders w = Some (length p) ->
  Forall (fun c => convert_sqlite_to_postgresql c = c) w ->
  fold_left filter_step l (Some (w, p)) = Some acc' ->
  conds_placeholders (fst acc') = Some (length (snd acc')) /\
  Forall (fun c => convert_sqlite_to_postgresql c = c) (fst acc').
Proof.
  revert w p. induction l as [|kv l IH]; intros w p Hw Hwf E.
  - injection E as <-. split; assumption.
  - cbn [fold_left] in E. destruct (filter_step (Some (w, p)) kv) as [[w' p']|] eqn:Es.
    + destruct (filter_step_placeholders kv w p (w', p') Hw Hwf Es) as [H1 H2].
      exact (IH w' p' H1 H2 E).
    + exfalso. clear IH. induction l as [|kv' l IHl]; [discriminate|].
      cbn [fold_left] in E. destruct kv' as [k v]. exact (IHl E).
Qed.

Lemma columns_placeholders (cols : list string) :
  Forall plain_column cols ->
  conds_placeholders cols = Some O /\ Forall (fun c => convert_sqlite_to_postgresql c = c) cols.
Proof.
  induction 1 as [|c r [Hp Hq] Hr [IH1 IH2]]; [split; [reflexivity|constructor]|].
  destruct (column_placeholders c Hp) as [n [En Hn]].
  pose proof Hq as Hq'. apply Hn in Hq'. subst n.
  split; [|constructor; [apply convert_no_qmark|]; assumption].
  cbn [conds_placeholders]. rewrite En, IH1. reflexivity.
Qed.

Lemma build_placeholders (now : datetime) (dparse : string -> option datetime)
  (filters : list (string * string)) (columns : list string) conds ps :
  Forall plain_column columns ->
  custom_report_conditions now dparse filters = Some (conds, ps) ->
  convert_sqlite_to_postgresql (build_sql_query_from_filters now dparse filters columns)
    = build_sql_query_from_filters now dparse filters columns /\
  pyformat_count (build_sql_query_from_filters now dparse filters columns) = Some (length ps).
Proof.
  intros Hcols H. unfold build_sql_query_from_filters. cbv zeta.
  unfold custom_report_conditions in H. cbv zeta in H. rewrite H.
  assert (Hc : conds_placeholders conds = Some (length ps) /\
               Forall (fun c => convert_sqlite_to_postgresql c = c) conds).
  { revert H.
    destruct (named_filter (assoc_get "date_filter" filters));
      [destruct (parse_date_filter now dparse (assoc_get "date_filter" filters)) as [[s e]|]|];
      intros H; (apply fold_filter_step_placeholders in H;
                 [exact H | cond_text | repeat constructor; cond_text]). }
  destruct Hc as [Hc1 Hc2].
  destruct (columns_placeholders columns Hcols) as [Hk1 Hk2].
  assert (Hsel : exists sel, (match columns with [] => "*" | _ => String.concat ", " columns end) = sel /\
                   pyformat_count (convert_sqlite_to_postgresql sel) = Some O /\
                   convert_sqlite_to_postgresql sel = sel).
  { destruct columns as [|c cs]; eexists; (split; [reflexivity|]).
    - split; reflexivity.
    - split; [apply concat_placeholders; [reflexivity|exact Hk1]|].
      apply convert_concat; [reflexivity|exact Hk2]. }
  destruct Hsel as [sel [-> [Hs1 Hs2]]].
  destruct conds as [|c cs].
  - destruct ps; [|discriminate].
    match goal with |- convert_sqlite_to_postgresql ?q = _ /\ _ =>
      assert (Hconv : convert_sqlite_to_postgresql q = q) by (rewrite !convert_app, Hs2; reflexivity) end.
    split; [exact Hconv|]. rewrite <- Hconv. count_placeholders. reflexivity.
  - pose proof (concat_placeholders " AND " (c :: cs) _ eq_refl Hc1) as Hw.
    pose proof (convert_concat " AND " (c :: cs) eq_refl Hc2) as Hwc.
    remember (String.concat " AND " (c :: cs)) as w eqn:Ew. clear Ew.
    match goal with |- convert_sqlite_to_postgresql ?q = _ /\ _ =>
      assert (Hconv : convert_sqlite_to_postgresql q = q) by (rewrite !convert_app, Hs2, Hwc; reflexivity) end.
    split; [exact Hconv|]. rewrite <- Hconv. count_placeholders. f_equal. lia.
Qed.

Lemma build_nonempty now dparse filters columns :
  String.eqb (build_sql_query_from_filters now dparse filters columns) "" = false.
Proof.
  unfold build_sql_query_from_filters. cbv zeta.
  match goal with |- context [fold_left filter_step ?l ?s] =>
    destruct (fold_left filter_step l s) as [[w p]|] end; [|reflexivity].
  destruct w; destruct columns; reflexivity.
Qed.

(** X5.  Running a custom report whose [sql_query] was built from its filters
    (stored by [create_custom_report] without an explicit [sql_query], or
    empty and rebuilt at run time) executes a text holding one [%s] per
    filter value while passing no parameters at all, for columns without
    '%' or '?'. *)
Theorem run_custom_report_unbound (now : datetime) (dparse : string -> option datetime)
  (reports : list stored_report) (report_id : Z) (r : stored_report) conds ps :
  find (fun r => rp_id r =? report_id) reports = Some r ->
  (rp_sql_query r = "" \/
   rp_sql_query r = stored_sql_query now dparse None (Some (rp_filters r)) (Some (rp_columns r))) ->
  Forall plain_column (rp_columns r) ->
  custom_report_conditions now dparse (rp_filters r) = Some (conds, ps) ->
  exists q, run_custom_report now dparse reports report_id = Some (q, []) /\
            pyformat_count q = Some (length ps).
Proof.
  intros Hf Hq Hcols Hc. unfold run_custom_report. rewrite Hf.
  destruct (build_placeholders now dparse (rp_filters r) (rp_columns r) conds ps Hcols Hc) as [H1 H2].
  destruct Hq as [Hq|Hq]; rewrite Hq.
  - cbn [String.eqb negb]. eexists. split; [reflexivity|]. rewrite H1. exact H2.
  - unfold stored_sql_query. cbn [String.eqb].
    rewrite build_nonempty. cbn [negb]. eexists. split; [reflexivity|exact H2].
Qed.

Lemma run_custom_report_unbound_witness :
  find (fun r => rp_id r =? 7) [mkstored 7 "" [("shipper_name", "Ali")] []] = Some (mkstored 7 "" [("shipper_name", "Ali")] []) /\
  exists q, run_custom_report (mkdt 2024 1 1 0) (fun _ => None)
              [mkstored 7 "" [("shipper_name", "Ali")] []] 7 = Some (q, []) /\
            pyformat_count q = Some 1%nat.
Proof.
  split; [reflexivity|].
  apply (run_custom_report_unbound (mkdt 2024 1 1 0) (fun _ => None)
           [mkstored 7 "" [("shipper_name", "Ali")] []] 7 (mkstored 7 "" [("shipper_name", "Ali")] [])
           ["shipper_name LIKE %s"] [PStr "%Ali%"]).
  - reflexivity.
  - left. reflexivity.
  - constructor.
  - vm_compute. reflexivity.
Defined.

Ltac nine_chars s :=
  destruct s as [|a1 s]; [discriminate|]; destruct s as [|a2 s]; [discriminate|];
  destruct s as [|a3 s]; [discriminate|]; destruct s as [|a4 s]; [discriminate|];
  destruct s as [|a5 s]; [discriminate|]; destruct s as [|a6 s]; [discriminate|];
  destruct s as [|a7 s]; [discriminate|]; destruct s as [|a8 s]; [discriminate|];
  destruct s as [|a9 s]; [discriminate|]; destruct s as [|a10 s]; [|discriminate].

(** X6.  On a string that matches the SQL pattern [__-___-__],
    [convert_date_to_comparable] computes the same value as the legacy-date
    SQL expression. *)
Theorem convert_date_matches_sql (s : string) :
  like_dd_mon_yy s = true ->
  convert_date_to_comparable (Some s) = legacy_date_value (Some s).
Proof.
  intros H. assert (Hl : Nat.eqb (String.length s) 9 = true).
  { unfold like_dd_mon_yy in H. apply andb_true_iff in H. apply H. }
  unfold legacy_date_value. rewrite H. nine_chars s.
  reflexivity.
Qed.

Lemma month_code_length (m x : string) : month_code m = Some x -> String.length x = 2%nat.
Proof.
  unfold month_code.
  repeat match goal with |- context [if String.eqb ?a ?b then _ else _] => destruct (String.eqb a b) end;
    intros H; try discriminate; injection H as <-; reflexivity.
Qed.

(** X7.  Whenever [convert_date_to_comparable] returns a value, that value
    has exactly 8 characters. *)
Theorem convert_date_to_comparable_length (s v : string) :
  convert_date_to_comparable (Some s) = Some v -> String.length v = 8%nat.
Proof.
  unfold convert_date_to_comparable.
  destruct (String.eqb s "" || negb (Nat.eqb (String.length s) 9)) eqn:E; [discriminate|].
  apply orb_false_iff in E as [_ E]. apply negb_false_iff in E. revert E.
  intros Hl. nine_chars s. cbn [String.substring].
  destruct (month_code _) as [m|] eqn:Em; [|discriminate].
  intros H. injection H as <-. apply month_code_length in Em.
  destruct m as [|b1 [|b2 [|b3 m]]]; try discriminate Em; reflexivity.
Qed.

(** X8.  For [get_shipments_by_shipper] / [get_shipments_by_consignee], two
    non-empty names give the same SQL text and the same remaining
    parameters; the name only reaches the statement as the first parameter
    [%name%] (or both requests fail with the same limit error). *)
Theorem shipments_by_name_value_param (now : datetime) (dparse : string -> option datetime)
  (name_key : string) (n1 n2 date_filter limit_arg : option string) :
  truthy n1 = true -> truthy n2 = true ->
  match shipments_by_name now dparse name_key n1 date_filter limit_arg,
        shipments_by_name now dparse name_key n2 date_filter limit_arg with
  | Run q1 (PStr p1 :: r1), Run q2 (PStr p2 :: r2) =>
      q1 = q2 /\ r1 = r2 /\ p1 = "%" ++ arg_val n1 ++ "%" /\ p2 = "%" ++ arg_val n2 ++ "%"
  | QHttp500 m1, QHttp500 m2 => m1 = m2
  | _, _ => False
  end.
Proof.
  intros H1 H2. unfold shipments_by_name. rewrite H1, H2. cbn [negb].
  destruct (int_arg limit_arg 50) as [m|lim]; [reflexivity|].
  unfold listing_date_conditions.
  destruct (named_filter date_filter); [destruct (parse_date_filter now dparse date_filter) as [[s e]|]|];
    cbn [List.app]; repeat split.
Qed.

(** X9.  For [get_shipments_by_weight], two parseable [min_weight] values give
    the same SQL text and remaining parameters; the weight only reaches the
    statement as its first parameter. *)
Theorem shipments_by_weight_value_param (now : datetime) (dparse : string -> option datetime)
  (w1 w2 date_filter limit_arg : option string) (f1 f2 : string) :
  float_arg0 w1 = inr f1 -> float_arg0 w2 = inr f2 ->
  match get_shipments_by_weight now dparse w1 date_filter limit_arg,
        get_shipments_by_weight now dparse w2 date_filter limit_arg with
  | Run q1 (PFloat p1 :: r1), Run q2 (PFloat p2 :: r2) =>
      q1 = q2 /\ r1 = r2 /\ p1 = f1 /\ p2 = f2
  | QHttp500 m1, QHttp500 m2 => m1 = m2
  | _, _ => False
  end.
Proof.
  intros H1 H2. unfold get_shipments_by_weight. rewrite H1, H2.
  destruct (int_arg limit_arg 50) as [m|lim]; [reflexivity|].
  unfold listing_date_conditions.
  destruct (named_filter date_filter); [destruct (parse_date_filter now dparse date_filter) as [[s e]|]|];
    cbn [List.app]; repeat split.
Qed.

(** X11.  After [toggle_scheduled_report] on a schedule whose report
    exists, the query of [get_scheduled_reports] returns the toggled row
    exactly when the new [is_active] is true (true when the body omits it);
    the listing then answers 500 if the row's [schedule_time] is not NULL,
    and lists the row otherwise. *)
Theorem toggle_scheduled_report_listed (ts schedule_id : Z) (is_active_arg : option bool)
  (tbl : list scheduled_report) (reports : list custom_report) (r : scheduled_report) (c : custom_report) :
  In r tbl -> sr_id r = schedule_id -> In c reports -> sr_report_id r = cr_id c ->
  let is_active := match is_active_arg with Some b => b | None => true end in
  let tbl' := fst (toggle_scheduled_report ts schedule_id is_active_arg tbl) in
  (In (set_active ts is_active r, cr_title c, cr_description c) (scheduled_reports_rows tbl' reports)
   <-> is_active = true) /\
  (is_active = true -> sr_schedule_time r <> None -> get_scheduled_reports tbl' reports = None) /\
  (forall rows, get_scheduled_reports tbl' reports = Some rows ->
     (In (set_active ts is_active r, cr_title c, cr_description c) rows <-> is_active = true)).
Proof.
  intros Hr Hid Hc Hrep b tbl'.
  assert (Hiff : In (set_active ts b r, cr_title c, cr_description c) (scheduled_reports_rows tbl' reports)
                 <-> b = true).
  { split.
    - intros H. apply scheduled_reports_rows_in in H as [_ H]. exact H.
    - intros Hb. unfold scheduled_reports_rows. apply in_map_iff.
      exists (set_active ts b r, c). split; [reflexivity|].
      apply in_sort_by, filter_In. split.
      + apply in_prod; [|exact Hc]. unfold tbl'. cbn [toggle_scheduled_report fst].
        apply in_map_iff. exists r. split; [|exact Hr].
        rewrite Hid, Z.eqb_refl. reflexivity.
      + cbn [set_active sr_report_id sr_is_active]. rewrite Hrep, Z.eqb_refl, Hb. reflexivity. }
  split; [exact Hiff|split].
  - intros Hb Ht. unfold get_scheduled_reports.
    replace (existsb _ _) with true; [reflexivity|]. symmetry. apply existsb_exists.
    exists (set_active ts b r, cr_title c, cr_description c). split; [apply Hiff, Hb|].
    cbn [set_active sr_schedule_time]. destruct (sr_schedule_time r); [reflexivity|].
    contradiction Ht. reflexivity.
  - intros rows Hg. apply get_scheduled_reports_rows in Hg. subst rows. exact Hiff.
Qed.

Lemma sort_by_head {A} (le : A -> A -> bool) (x : A) (l : list A) :
  In x l ->
  (forall y, In y l -> le x y = true) ->
  (forall y, In y l -> le y x = true -> y = x) ->
  exists rest, sort_by le l = x :: rest.
Proof.
  induction l as [|a r IH]; intros Hin H1 H2; [destruct Hin|]. cbn [sort_by].
  destruct (le a x) eqn:E.
  - assert (a = x) as <- by (apply H2; [left; reflexivity|exact E]).
    destruct (sort_by le r) as [|y rest] eqn:Es; [exists []; reflexivity|].
    cbn [insert_by]. exists (y :: rest).
    assert (Hy : In y r) by (apply (in_sort_by le); rewrite Es; left; reflexivity).
    rewrite (H1 y (or_intror Hy)). reflexivity.
  - destruct Hin as [<-|Hin].
    + rewrite (H1 a (or_introl eq_refl)) in E. discriminate.
    + destruct (IH Hin (fun y Hy => H1 y (or_intror Hy)) (fun y Hy => H2 y (or_intror Hy)))
        as [rest Hs].
      rewrite Hs. cbn [insert_by]. rewrite E. eexists. reflexivity.
Qed.

Lemma nodup_map_inj {A B} (f : A -> B) (l : list A) (a b : A) :
  NoDup (map f l) -> In a l -> In b l -> f a = f b -> a = b.
Proof.
  induction l as [|x r IH]; intros Hd Ha Hb E; [destruct Ha|].
  cbn [map] in Hd. inversion Hd as [|? ? Hx Hr]; subst.
  destruct Ha as [<-|Ha], Hb as [<-|Hb]; try reflexivity.
  - exfalso. apply Hx. rewrite E. apply in_map, Hb.
  - exfalso. apply Hx. rewrite <- E. apply in_map, Ha.
  - apply IH; assumption.
Qed.

(** X12.  With distinct ids and a timestamp later than every [last_used_at],
    [update_search_usage] puts that search, with its count increased by
    one, first in [get_saved_searches]. *)
Theorem update_search_usage_first (ts search_id : Z) (tbl : list saved_search) (s : saved_search) :
  NoDup (map ss_id tbl) -> In s tbl -> ss_id s = search_id ->
  (forall y, In y tbl -> ss_last_used_at y < ts) ->
  exists rest, get_saved_searches (update_search_usage ts search_id tbl) = mark_used ts s :: rest.
Proof.
  intros Hd Hs Hid Hts. unfold get_saved_searches. apply sort_by_head.
  - apply in_map_iff. exists s. rewrite Hid, Z.eqb_refl. split; [reflexivity|exact Hs].
  - intros y Hy. apply in_map_iff in Hy as [y0 [<- Hy0]].
    destruct (ss_id y0 =? search_id) eqn:E.
    + apply Z.eqb_eq in E. rewrite (nodup_map_inj ss_id tbl y0 s Hd Hy0 Hs ltac:(congruence)).
      unfold saved_le, mark_used. cbn. rewrite Z.ltb_irrefl, Z.eqb_refl, Z.leb_refl. reflexivity.
    + unfold saved_le, mark_used. cbn [ss_last_used_at].
      pose proof (Hts y0 Hy0) as Hlt. apply Z.ltb_lt in Hlt. rewrite Hlt. reflexivity.
  - intros y Hy Hle. apply in_map_iff in Hy as [y0 [<- Hy0]].
    destruct (ss_id y0 =? search_id) eqn:E.
    + apply Z.eqb_eq in E. rewrite (nodup_map_inj ss_id tbl y0 s Hd Hy0 Hs ltac:(congruence)).
      reflexivity.
    + exfalso. unfold saved_le, mark_used in Hle. cbn [ss_last_used_at ss_created_at] in Hle.
      pose proof (Hts y0 Hy0) as Hlt.
      apply orb_true_iff in Hle as [H|H].
      * apply Z.ltb_lt in H. lia.
      * apply andb_true_iff in H as [H _]. apply Z.eqb_eq in H. lia.
Qed.

(** X10.  When [get_total_shipments] gets a valid start/end range and a token
    other than 'total', the reported total is the number of DD-Mon-YY-dated
    rows among the 1,000,000 highest ids, whatever the token and whatever
    the range dates: the range restricts nothing. *)
Theorem total_custom_range_value (t : list (Z * option string)) (date_filter start_date end_date : option string) :
  String.eqb (match date_filter with Some d => d | None => "month" end) "total" = false ->
  truthy start_date && truthy end_date = true ->
  truthy_opt (normalize_iso_to_yyyymmdd start_date) && truthy_opt (normalize_iso_to_yyyymmdd end_date) = true ->
  reported_total t (get_total_shipments date_filter start_date end_date) = total_value t (Some 1000000).
Proof.
  intros Ht Hr Hn. unfold get_total_shipments. rewrite Ht, Hr, Hn. reflexivity.
Qed.

Lemma total_custom_range_value_witness :
  String.eqb "today" "total" = false /\
  truthy (Some "2024-01-01") && truthy (Some "2024-01-31") = true /\
  truthy_opt (normalize_iso_to_yyyymmdd (Some "2024-01-01")) &&
    truthy_opt (normalize_iso_to_yyyymmdd (Some "2024-01-31")) = true /\
  reported_total [(1, Some "05-Jan-24")] (get_total_shipments (Some "today") (Some "2024-01-01") (Some "2024-01-31"))
    = total_value [(1, Some "05-Jan-24")] (Some 1000000).
Proof.
  split; [reflexivity|]. split; [reflexivity|]. split; [vm_compute; reflexivity|].
  apply total_custom_range_value; [reflexivity|reflexivity|vm_compute; reflexivity].
Defined.

Ltac agg_binds :=
  match goal with |- context [aggregate_date_conditions ?n ?p ?a ?b ?c ?d] =>
    destruct (aggregate_date_conditions n p a b c d) end;
  match goal with |- context [if named_filter ?d then _ else _] => destruct (named_filter d) end;
  [unfold sample_size_for;
   repeat match goal with |- context [if String.eqb ?a ?b then _ else _] => destruct (String.eqb a b) end|];
  vm_compute; reflexivity.

(** X4.  The statements of [get_top_customers], [get_average_weight] and
    [get_top_cities] bind their parameters for every request. *)
Theorem aggregate_statements_bind (now : datetime) (dparse : string -> option datetime) :
  (forall date_filter start_date end_date limit,
     let s := get_top_customers now dparse date_filter start_date end_date limit in
     execute_query_binds (aq_sql s) (aq_params s) = true) /\
  (forall date_filter start_date end_date,
     let s := get_average_weight now dparse date_filter start_date end_date in
     execute_query_binds (aq_sql s) (aq_params s) = true) /\
  (forall date_filter start_date end_date limit,
     let s := get_top_cities now dparse date_filter start_date end_date limit in
     execute_query_binds (aq_sql s) (aq_params s) = true).
Proof.
  split; [|split]; intros; unfold s; clear s.
  - unfold get_top_customers. agg_binds.
  - unfold get_average_weight. agg_binds.
  - unfold get_top_cities. agg_binds.
Qed.

Lemma in_remove_cp (m c : Z) (s : ustr) : In c (remove_cp m s) <-> In c s /\ c <> m.
Proof.
  unfold remove_cp. rewrite filter_In. rewrite negb_true_iff, Z.eqb_neq. tauto.
Qed.

Lemma in_ulstrip (c : Z) (s : ustr) : In c (ulstrip s) -> In c s.
Proof.
  induction s as [|x r IH]; cbn [ulstrip]; [tauto|].
  destruct (py_isspace_cp x); [intros H; right; exact (IH H)|tauto].
Qed.

Lemma in_ustrip (c : Z) (s : ustr) : In c (ustrip s) -> In c s.
Proof.
  unfold ustrip. intros H. apply in_rev, in_ulstrip, in_rev, in_ulstrip in H. exact H.
Qed.

(** X13.  Every code point [process_arabic_text] returns comes from its input
    and is none of the seven direction marks it removes. *)
Theorem process_arabic_text_marks (text : ustr) (c : Z) :
  In c (process_arabic_text text) ->
  In c text /\ ~ In c [8206; 8207; 8234; 8235; 8236; 8237; 8238].
Proof.
  destruct text as [|x r]; cbn [process_arabic_text]; [tauto|].
  rewrite !in_remove_cp. intros H.
  destruct H as [[[[[[[H H1] H2] H3] H4] H5] H6] H7].
  split; [exact (in_ustrip c _ H)|].
  cbn [In]. intuition.
Qed.

Lemma filter_length_forallb {A} (f : A -> bool) (l : list A) :
  Nat.eqb (length (filter f l)) (length l) = forallb f l.
Proof.
  induction l as [|x l IH]; cbn [filter forallb length]; [reflexivity|].
  destruct (f x); cbn [length andb]; [exact IH|].
  apply Nat.eqb_neq. pose proof (filter_length_le f l). lia.
Qed.

(** X14.  [transliterate_arabic_to_latin] (with any dictionary) returns an
    empty string exactly for the empty input.  On a non-empty input it
    returns the '[Arabic: ...]' placeholder when the stripped
    transliteration is empty or all spaces, and the stripped
    transliteration otherwise. *)
Theorem transliterate_nonempty (dict : list (ustr * string)) (text : ustr) :
  (transliterate_with dict text = [] <-> text = []) /\
  (text <> [] -> forallb (Z.eqb 32) (ustrip (translit_loop dict text)) = true ->
     transliterate_with dict text = arabic_placeholder text) /\
  (text <> [] -> forallb (Z.eqb 32) (ustrip (translit_loop dict text)) = false ->
     transliterate_with dict text = ustrip (translit_loop dict text)).
Proof.
  split; [|split].
  - split; [|intros ->; reflexivity].
    destruct text as [|c r]; [reflexivity|]. unfold transliterate_with.
    destruct (ustrip (translit_loop dict (c :: r))) as [|x xs];
      [cbn [orb]; unfold arabic_placeholder; discriminate|].
    destruct (Nat.eqb _ _); cbn [orb]; [unfold arabic_placeholder|]; discriminate.
  - intros Hn Hs. destruct text as [|c r]; [contradiction Hn; reflexivity|].
    unfold transliterate_with. rewrite filter_length_forallb, Hs, orb_true_r. reflexivity.
  - intros Hn Hs. destruct text as [|c r]; [contradiction Hn; reflexivity|].
    unfold transliterate_with. rewrite filter_length_forallb, Hs, orb_false_r.
    destruct (ustrip (translit_loop dict (c :: r))) as [|x xs]; [discriminate Hs|reflexivity].
Qed.

Lemma ustr_eqb_eq (a b : ustr) : ustr_eqb a b = true -> a = b.
Proof.
  revert b. induction a as [|x a IH]; intros [|y b]; cbn [ustr_eqb]; try discriminate; [reflexivity|].
  intros H. apply andb_true_iff in H as [H1 H2]. apply Z.eqb_eq in H1. subst y.
  rewrite (IH b H2). reflexivity.
Qed.

Lemma ustr_eqb_refl (a : ustr) : ustr_eqb a a = true.
Proof. induction a as [|x a IH]; cbn [ustr_eqb]; [reflexivity|]. rewrite Z.eqb_refl, IH. reflexivity. Qed.

Lemma dict_get_short (k : ustr) (dict : list (ustr * string)) :
  (length k <= 2)%nat -> dict_get k dict = dict_get k (short_keys dict).
Proof.
  intros Hk. induction dict as [|[k' v] d IH]; [reflexivity|].
  unfold short_keys. cbn [dict_get filter fst].
  destruct (ustr_eqb k k') eqn:E.
  - apply ustr_eqb_eq in E. subst k'. apply Nat.leb_le in Hk. rewrite Hk.
    cbn [dict_get]. rewrite ustr_eqb_refl. reflexivity.
  - destruct (Nat.leb (length k') 2); cbn [dict_get]; [rewrite E|]; exact IH.
Qed.

Lemma translit_loop_cons2 (dict : list (ustr * string)) (c c2 : Z) (rest : ustr) :
  translit_loop dict (c :: c2 :: rest) =
  match dict_get [c; c2] dict with
  | Some v => (u_of_string v ++ translit_loop dict rest)%list
  | None => (translit_char dict c ++ translit_loop dict (c2 :: rest))%list
  end.
Proof. reflexivity. Qed.

Lemma translit_loop_short (dict : list (ustr * string)) (text : ustr) :
  translit_loop dict text = translit_loop (short_keys dict) text.
Proof.
  enough (H : translit_loop dict text = translit_loop (short_keys dict) text /\
              forall c, translit_loop dict (c :: text) = translit_loop (short_keys dict) (c :: text))
    by apply H.
  induction text as [|x r [IH1 IH2]].
  - split; [reflexivity|]. intros c. cbn [translit_loop]. unfold translit_char.
    rewrite (dict_get_short [c] dict) by (cbn; lia). reflexivity.
  - split; [apply IH2|]. intros c. rewrite !translit_loop_cons2.
    rewrite (dict_get_short [c; x] dict) by (cbn; lia).
    destruct (dict_get [c; x] (short_keys dict)).
    + rewrite IH1. reflexivity.
    + unfold translit_char. rewrite (dict_get_short [c] dict) by (cbn; lia).
      rewrite IH2. reflexivity.
Qed.

(** X15.  The 3- and 4-character entries of the transliteration dictionary
    are never used: dropping them changes no output. *)
Theorem transliterate_long_keys_unused (text : ustr) :
  transliterate_arabic_to_latin text = transliterate_with (short_keys arabic_to_latin) text.
Proof.
  unfold transliterate_arabic_to_latin, transliterate_with.
  destruct text as [|c r]; [reflexivity|]. rewrite translit_loop_short. reflexivity.
Qed.

Lemma dict_get_in (k : ustr) (dict : list (ustr * string)) (v : string) :
  dict_get k dict = Some v -> In (k, v) dict.
Proof.
  induction dict as [|[k' v'] d IH]; cbn [dict_get]; [discriminate|].
  destruct (ustr_eqb k k') eqn:E.
  - intros H. injection H as <-. apply ustr_eqb_eq in E. subst. left. reflexivity.
  - intros H. right. exact (IH H).
Qed.

Lemma arabic_pairs_single (a b : Z) (v : string) :
  dict_get [a; b] arabic_to_latin = Some v -> dict_get [a] arabic_to_latin <> None.
Proof.
  intros H. apply dict_get_in in H. unfold arabic_to_latin in H.
  repeat (destruct H as [H|H]; [injection H as ?H ?H; try subst a; try subst b; vm_compute; discriminate|]).
  destruct H.
Qed.

Lemma translit_loop_passthrough (text : ustr) :
  (forall c, In c text -> dict_get [c] arabic_to_latin = None) ->
  translit_loop arabic_to_latin text = text.
Proof.
  enough (H : (forall c, In c text -> dict_get [c] arabic_to_latin = None) ->
              translit_loop arabic_to_latin text = text /\
              forall c, dict_get [c] arabic_to_latin = None ->
                translit_loop arabic_to_latin (c :: text) = c :: text)
    by (intros Hn; apply (H Hn)).
  induction text as [|x r IH]; intros Hn.
  - split; [reflexivity|]. intros c Hc. cbn [translit_loop]. unfold translit_char. rewrite Hc. reflexivity.
  - assert (Hr : forall c, In c r -> dict_get [c] arabic_to_latin = None)
      by (intros c Hc; apply Hn; right; exact Hc).
    destruct (IH Hr) as [IH1 IH2].
    split; [apply IH2, Hn; left; reflexivity|].
    intros c Hc. rewrite translit_loop_cons2.
    destruct (dict_get [c; x] arabic_to_latin) as [v|] eqn:E.
    + exfalso. exact (arabic_pairs_single c x v E Hc).
    + unfold translit_char. rewrite Hc, (IH2 x (Hn x (or_introl eq_refl))). reflexivity.
Qed.

Lemma ulstrip_head (s : ustr) (x : Z) (xs : ustr) : ulstrip s = x :: xs -> py_isspace_cp x = false.
Proof.
  induction s as [|y r IH]; cbn [ulstrip]; [discriminate|].
  destruct (py_isspace_cp y) eqn:E; [exact IH|]. intros H. injection H as <- _. exact E.
Qed.

Lemma filter_length_lt {A} (p : A -> bool) (l : list A) (y : A) :
  In y l -> p y = false -> (length (filter p l) < length l)%nat.
Proof.
  induction l as [|x r IH]; [intros []|]. intros [<-|Hy] Hp; cbn [filter length].
  - rewrite Hp. pose proof (filter_length_le p r). lia.
  - destruct (p x); cbn [length]; specialize (IH Hy Hp); lia.
Qed.

Lemma ustrip_not_blank (s : ustr) :
  ustrip s <> [] ->
  Nat.eqb (length (filter (Z.eqb 32) (ustrip s))) (length (ustrip s)) = false.
Proof.
  unfold ustrip. intros H.
  destruct (ulstrip (rev (ulstrip s))) as [|x xs] eqn:E; [contradiction H; reflexivity|].
  apply ulstrip_head in E.
  apply Nat.eqb_neq. apply Nat.lt_neq. apply (filter_length_lt _ _ x).
  - apply in_rev. rewrite rev_involutive. left. reflexivity.
  - apply Z.eqb_neq. intros <-. discriminate E.
Qed.

(** X16.  Text none of whose code points is a dictionary key, and which is not
    only whitespace, is returned by [transliterate_arabic_to_latin] just
    stripped. *)
Theorem transliterate_passthrough (text : ustr) :
  (forall c, In c text -> dict_get [c] arabic_to_latin = None) ->
  ustrip text <> [] ->
  transliterate_arabic_to_latin text = ustrip text.
Proof.
  intros Hn Hs. unfold transliterate_arabic_to_latin, transliterate_with.
  destruct text as [|c r]; [contradiction Hs; reflexivity|].
  rewrite (translit_loop_passthrough _ Hn), (ustrip_not_blank _ Hs).
  destruct (ustrip (c :: r)); [contradiction Hs; reflexivity|reflexivity].
Qed.

Lemma filter_shipments_binds_witness :
  match filter_shipments now0 (fun _ => None) 1 20 (Some "shipper_city") (Some "Riyadh") (Some "week") with
  | Stmts cq cps dq dps =>
      str_existsb (fun c => Ascii.eqb c "%"%char) "shipper_city" = false /\
      (execute_query_binds cq cps && execute_query_binds dq dps = true
       <-> str_existsb (fun c => Ascii.eqb c "?"%char) "shipper_city" = false)
  | _ => False
  end.
Proof.
  remember (filter_shipments now0 (fun _ => None) 1 20 (Some "shipper_city") (Some "Riyadh") (Some "week"))
    as r eqn:E.
  destruct r as [m|m|cq cps dq dps]; try (vm_compute in E; discriminate E).
  split; [reflexivity|].
  apply (filter_shipments_binds now0 (fun _ => None) 1 20 "shipper_city" (Some "Riyadh") (Some "week")
           cq dq cps dps); [reflexivity|symmetry; exact E].
Defined.

Lemma convert_date_matches_sql_witness :
  like_dd_mon_yy "05-Jan-24" = true /\
  convert_date_to_comparable (Some "05-Jan-24") = legacy_date_value (Some "05-Jan-24").
Proof. split; [reflexivity|apply convert_date_matches_sql; reflexivity]. Defined.

Lemma convert_date_to_comparable_length_witness :
  convert_date_to_comparable (Some "05-Jan-24") = Some "20240105" /\ String.length "20240105" = 8%nat.
Proof. split; [reflexivity|apply (convert_date_to_comparable_length "05-Jan-24"); reflexivity]. Defined.

Lemma shipments_by_name_value_param_witness :
  truthy (Some "Ali") = true /\ truthy (Some "Omar") = true /\
  match shipments_by_name now0 (fun _ => None) "shipper_name" (Some "Ali") (Some "month") None,
        shipments_by_name now0 (fun _ => None) "shipper_name" (Some "Omar") (Some "month") None with
  | Run q1 (PStr p1 :: r1), Run q2 (PStr p2 :: r2) =>
      q1 = q2 /\ r1 = r2 /\ p1 = "%" ++ arg_val (Some "Ali") ++ "%" /\ p2 = "%" ++ arg_val (Some "Omar") ++ "%"
  | QHttp500 m1, QHttp500 m2 => m1 = m2
  | _, _ => False
  end.
Proof.
  split; [reflexivity|]. split; [reflexivity|].
  apply shipments_by_name_value_param; reflexivity.
Defined.

Lemma shipments_by_weight_value_param_witness :
  float_arg0 (Some "5") = inr "5" /\ float_arg0 (Some "2.5") = inr "2.5" /\
  match get_shipments_by_weight now0 (fun _ => None) (Some "5") None (Some "10"),
        get_shipments_by_weight now0 (fun _ => None) (Some "2.5") None (Some "10") with
  | Run q1 (PFloat p1 :: r1), Run q2 (PFloat p2 :: r2) =>
      q1 = q2 /\ r1 = r2 /\ p1 = "5" /\ p2 = "2.5"
  | QHttp500 m1, QHttp500 m2 => m1 = m2
  | _, _ => False
  end.
Proof.
  split; [reflexivity|]. split; [reflexivity|].
  apply shipments_by_weight_value_param; reflexivity.
Defined.

Lemma toggle_scheduled_report_listed_witness :
  In sched_row [sched_row] /\ sr_id sched_row = 3 /\ In (mkreport 11 "Top" "") [mkreport 11 "Top" ""] /\
  sr_report_id sched_row = cr_id (mkreport 11 "Top" "") /\
  ((In (set_active 60 true sched_row, "Top", "")
       (scheduled_reports_rows (fst (toggle_scheduled_report 60 3 None [sched_row])) [mkreport 11 "Top" ""])
    <-> true = true) /\
   (true = true -> sr_schedule_time sched_row <> None ->
    get_scheduled_reports (fst (toggle_scheduled_report 60 3 None [sched_row])) [mkreport 11 "Top" ""]
    = None) /\
   (forall rows,
      get_scheduled_reports (fst (toggle_scheduled_report 60 3 None [sched_row])) [mkreport 11 "Top" ""]
      = Some rows ->
      (In (set_active 60 true sched_row, "Top", "") rows <-> true = true))).
Proof.
  split; [left; reflexivity|]. split; [reflexivity|]. split; [left; reflexivity|]. split; [reflexivity|].
  apply (toggle_scheduled_report_listed 60 3 None [sched_row] [mkreport 11 "Top" ""]
           sched_row (mkreport 11 "Top" "")); [left; reflexivity|reflexivity|left; reflexivity|reflexivity].
Defined.

Lemma update_search_usage_first_witness :
  NoDup (map ss_id [saved_a; saved_b]) /\ In saved_a [saved_a; saved_b] /\ ss_id saved_a = 1 /\
  (forall y, In y [saved_a; saved_b] -> ss_last_used_at y < 40) /\
  exists rest, get_saved_searches (update_search_usage 40 1 [saved_a; saved_b]) = mark_used 40 saved_a :: rest.
Proof.
  assert (Hd : NoDup (map ss_id [saved_a; saved_b]))
    by (cbn; constructor; [intros [H|[]]; discriminate|constructor; [intros []|constructor]]).
  assert (Hts : forall y, In y [saved_a; saved_b] -> ss_last_used_at y < 40)
    by (intros y [<-|[<-|[]]]; cbn; lia).
  split; [exact Hd|]. split; [left; reflexivity|]. split; [reflexivity|]. split; [exact Hts|].
  apply update_search_usage_first; [exact Hd|left; reflexivity|reflexivity|exact Hts].
Defined.

Lemma process_arabic_text_marks_witness :
  In 1605 (process_arabic_text [32; 8207; 1605; 8236]) /\
  In 1605 [32; 8207; 1605; 8236] /\ ~ In 1605 [8206; 8207; 8234; 8235; 8236; 8237; 8238].
Proof.
  assert (H : In 1605 (process_arabic_text [32; 8207; 1605; 8236])) by (vm_compute; left; reflexivity).
  split; [exact H|]. apply process_arabic_text_marks, H.
Defined.

Lemma transliterate_passthrough_witness :
  (forall c, In c (u_of_string " Riyadh ") -> dict_get [c] arabic_to_latin = None) /\
  ustrip (u_of_string " Riyadh ") <> [] /\
  transliterate_arabic_to_latin (u_of_string " Riyadh ") = ustrip (u_of_string " Riyadh ").
Proof.
  assert (Hn : forall c, In c (u_of_string " Riyadh ") -> dict_get [c] arabic_to_latin = None)
    by (vm_compute; intros c H; repeat destruct H as [<-|H]; [..|destruct H]; reflexivity).
  assert (Hs : ustrip (u_of_string " Riyadh ") <> []) by (vm_compute; discriminate).
  split; [exact Hn|]. split; [exact Hs|]. apply transliterate_passthrough; assumption.
Defined.


(** X17.  [update_scheduled_report] never changes [id], [report_id],
    [is_active], [next_run_at], [created_at] or [user_id], and leaves the
    rows with other ids unchanged.  It succeeds exactly when the body names
    the schedule and PostgreSQL accepts every parameter; otherwise the
    table is unchanged.  On success the target row holds the converted
    parameters, each optional member missing from the body taking its
    default ('daily', '09:00:00', '[]', '[]', '', ''), and [updated_at] is
    the current time. *)
Theorem update_scheduled_report_frame (time_in jsonb_in : string -> option string)
  (ts schedule_id : Z) (b : sched_body) (tbl : list scheduled_report) :
  let res := update_scheduled_report time_in jsonb_in ts schedule_id b tbl in
  (snd res = UpdateOk <->
   exists name, b_schedule_name b = Some name /\ sched_body_values time_in jsonb_in name b <> None) /\
  (snd res <> UpdateOk -> fst res = tbl) /\
  Forall2 (fun r r' =>
             sr_id r' = sr_id r /\ sr_report_id r' = sr_report_id r /\
             sr_is_active r' = sr_is_active r /\ sr_next_run_at r' = sr_next_run_at r /\
             sr_created_at r' = sr_created_at r /\ sr_user_id r' = sr_user_id r /\
             (sr_id r = schedule_id -> snd res = UpdateOk ->
                option_map (varchar_in 255) (b_schedule_name b) = Some (Some (sr_schedule_name r')) /\
                varchar_in 50 (get_or (b_schedule_type b) "daily") = Some (sr_schedule_type r') /\
                time_in (get_or (b_schedule_time b) "09:00:00") = sr_schedule_time r' /\
                jsonb_in (get_or (b_schedule_days b) "[]") = Some (sr_schedule_days r') /\
                jsonb_in (get_or (b_email_recipients b) "[]") = Some (sr_email_recipients r') /\
                varchar_in 255 (get_or (b_email_subject b) "") = Some (sr_email_subject r') /\
                text_in (get_or (b_email_body b) "") = Some (sr_email_body r') /\
                sr_updated_at r' = ts) /\
             (sr_id r <> schedule_id -> r' = r))
    tbl (fst res).
Proof.
  intros res. unfold res, update_scheduled_report.
  destruct (b_schedule_name b) as [name|] eqn:En.
  - destruct (sched_body_values time_in jsonb_in name b) as [v|] eqn:Ev.
    + cbn [fst snd].
      split; [split; [intros _; exists name; split; [reflexivity|rewrite Ev; discriminate]|reflexivity]|].
      apply sched_body_values_some in Ev as (E1 & E2 & E3 & E4 & E5 & E6 & E7).
      split; [intros H; contradiction H; reflexivity|].
      induction tbl as [|r rest IH]; cbn [map]; constructor; [|exact IH].
      destruct (sr_id r =? schedule_id) eqn:E.
      * apply Z.eqb_eq in E. cbn. do 6 (split; [reflexivity|]). split.
        -- intros _ _. rewrite E1, E2, E3, E4, E5, E6, E7. repeat split.
        -- intros Hne. contradiction (Hne E).
      * apply Z.eqb_neq in E. do 6 (split; [reflexivity|]).
        split; [intros Heq; contradiction (E Heq)|reflexivity].
    + cbn [fst snd]. split.
      * split; [discriminate|]. intros [name' [Hn Hv]]. injection Hn as <-. contradiction.
      * split; [reflexivity|].
        induction tbl as [|r rest IH]; constructor; [|exact IH].
        do 6 (split; [reflexivity|]). split; [|reflexivity]. intros _ Hs. discriminate Hs.
  - cbn [fst snd]. split.
    + split; [discriminate|]. intros [name' [Hn _]]. discriminate Hn.
    + split; [reflexivity|].
      induction tbl as [|r rest IH]; constructor; [|exact IH].
      do 6 (split; [reflexivity|]). split; [|reflexivity]. intros _ Hs. discriminate Hs.
Qed.

(** X18.  A schedule deleted with [delete_scheduled_report] and then updated
    with [update_scheduled_report] stays out of the query of
    [get_scheduled_reports], and so out of any listing it answers. *)
Theorem update_after_delete_hidden (time_in jsonb_in : string -> option string)
  (ts1 ts2 schedule_id : Z) (b : sched_body)
  (tbl : list scheduled_report) (reports : list custom_report) :
  let tbl' := fst (update_scheduled_report time_in jsonb_in ts2 schedule_id b
                     (delete_scheduled_report ts1 schedule_id tbl)) in
  Forall (fun '(r, _, _) => sr_id r <> schedule_id) (scheduled_reports_rows tbl' reports) /\
  (forall rows, get_scheduled_reports tbl' reports = Some rows ->
     Forall (fun '(r, _, _) => sr_id r <> schedule_id) rows).
Proof.
  intros tbl'.
  assert (H : Forall (fun '(r, _, _) => sr_id r <> schedule_id) (scheduled_reports_rows tbl' reports)).
  { apply Forall_forall. intros [[r t] d] Hin.
    apply scheduled_reports_rows_in in Hin as [Hr Ha]. intros Hid.
    unfold tbl', update_scheduled_report in Hr.
    assert (Hdel : In r (delete_scheduled_report ts1 schedule_id tbl) -> False).
    { unfold delete_scheduled_report. intros Hd. apply in_map_iff in Hd as [r0 [E0 _]].
      destruct (sr_id r0 =? schedule_id) eqn:Ei0.
      + subst r. discriminate Ha.
      + subst r. rewrite Hid, Z.eqb_refl in Ei0. discriminate. }
    destruct (b_schedule_name b) as [name|]; cbn [fst] in Hr; [|exact (Hdel Hr)].
    destruct (sched_body_values time_in jsonb_in name b) as [v|]; cbn [fst] in Hr; [|exact (Hdel Hr)].
    apply in_map_iff in Hr as [r1 [E1 Hr1]].
    destruct (sr_id r1 =? schedule_id) eqn:Ei1.
    + subst r. unfold apply_sched_values in Ha. cbn [sr_is_active] in Ha.
      unfold delete_scheduled_report in Hr1. apply in_map_iff in Hr1 as [r0 [E0 _]].
      destruct (sr_id r0 =? schedule_id) eqn:Ei0.
      * subst r1. discriminate Ha.
      * subst r1. rewrite Ei0 in Ei1. discriminate.
    + subst r1. apply Hdel, Hr1. }
  split; [exact H|]. intros rows Hg. apply get_scheduled_reports_rows in Hg. subst rows. exact H.
Qed.

(** The UPDATE with a schedule_type of 51 characters, or a schedule_time
    the TIME input rejects, answers 500 and leaves the table as it was;
    spaces past the VARCHAR length are cut off. *)
Example update_scheduled_report_long_type :
  update_scheduled_report (fun t => Some t) (fun j => Some j) 0 3
    (mkschedbody (Some "W") (Some "xxxxxxxxxxxxxxxxxxxxxxxxxxxxxxxxxxxxxxxxxxxxxxxxxxx") None None None None None) [sched_row]
  = ([sched_row], Update500).
Proof. reflexivity. Qed.

Example update_scheduled_report_bad_time :
  update_scheduled_report (fun t => if String.eqb t "abc" then None else Some t) (fun j => Some j) 0 3
    (mkschedbody (Some "W") None (Some "abc") None None None None) [sched_row]
  = ([sched_row], Update500).
Proof. reflexivity. Qed.

Example varchar_in_trailing_spaces : varchar_in 3 "ab   " = Some "ab ".
Proof. reflexivity. Qed.
